(** * cardano_spo_cli.tools.wallet: a shallow embedding of [CardanoWalletGenerator]

    The module drives two external programs ([cardano-address] and
    [cardano-cli]) through [subprocess.run], keeps a recovery phrase per
    ticker on disk, and converts between hex, CBOR-tagged hex and Bech32
    text with the [bech32] and [hashlib] packages.

    Modelling conventions.
    - A Python [str] is a [string]; every character is read as a code point
      below 256.  A [bytes] value is a [list Z] of values in [0, 256).
    - A [dict] with string keys is a [gmap string _]; [d[k]] raises
      [KeyError] when the key is missing, [d.get(k, v)] does not.
    - Code that can raise returns a [result]; code that also talks to the
      outside world is a function of the explicit state [state W].
    - The external programs, the mnemonic generator, the temporary directory
      and the JSON reader are the fields of the class [Oracle]. *)

From Stdlib Require Import ZArith String Ascii List Bool Lia.
From stdpp Require Import base option list gmap strings.
Import ListNotations.

Local Open Scope Z_scope.

(** ** Python built-ins on strings and bytes *)

Module Py.

Definition ord (c : ascii) : Z := Z.of_N (N_of_ascii c).
Definition chr (z : Z) : ascii := ascii_of_N (Z.to_N z).

Definition chars (s : string) : list ascii := list_ascii_of_string s.
Definition str (l : list ascii) : string := string_of_list_ascii l.

(** [len(s)] *)
Definition len (s : string) : nat := String.length s.

(** [s[n:]] and [s[:n]] for a non-negative [n] *)
Definition drop (n : nat) (s : string) : string := str (List.skipn n (chars s)).
Definition take (n : nat) (s : string) : string := str (List.firstn n (chars s)).

(** [s.startswith(p)] *)
Definition startswith (p s : string) : bool := String.prefix p s.

(** [c.isspace()] for a code point below 256 *)
Definition isspace (c : ascii) : bool :=
  let n := ord c in
  ((9 <=? n) && (n <=? 13)) || ((28 <=? n) && (n <=? 32))
  || (n =? 133) || (n =? 160).

Fixpoint lstrip_chars (l : list ascii) : list ascii :=
  match l with
  | c :: l' => if isspace c then lstrip_chars l' else l
  | [] => []
  end.

(** [s.strip()] *)
Definition strip (s : string) : string :=
  str (List.rev (lstrip_chars (List.rev (lstrip_chars (chars s))))).

Definition lower_char (c : ascii) : ascii :=
  let n := ord c in if (65 <=? n) && (n <=? 90) then chr (n + 32) else c.
Definition upper_char (c : ascii) : ascii :=
  let n := ord c in if (97 <=? n) && (n <=? 122) then chr (n - 32) else c.

(** [s.lower()] and [s.upper()], on the ASCII letters *)
Definition lower (s : string) : string := str (List.map lower_char (chars s)).
Definition upper (s : string) : string := str (List.map upper_char (chars s)).

(** [s.rfind(c)]: the last index of [c], [None] for Python's [-1] *)
Fixpoint rfind_from (c : ascii) (l : list ascii) (i : nat) (last : option nat)
  : option nat :=
  match l with
  | [] => last
  | x :: l' =>
      rfind_from c l' (S i) (if Ascii.eqb x c then Some i else last)
  end.
Definition rfind (c : ascii) (s : string) : option nat :=
  rfind_from c (chars s) 0%nat None.

(** [s.find(c)] on a list of characters *)
Fixpoint find_char (c : ascii) (l : list ascii) (i : Z) : option Z :=
  match l with
  | [] => None
  | x :: l' => if Ascii.eqb x c then Some i else find_char c l' (i + 1)
  end.

(** hexadecimal digits *)
Definition hex_digit (n : Z) : ascii :=
  if n <? 10 then chr (48 + n) else chr (87 + n).

Definition hex_value (c : ascii) : option Z :=
  let n := ord c in
  if (48 <=? n) && (n <=? 57) then Some (n - 48)
  else if (97 <=? n) && (n <=? 102) then Some (n - 87)
  else if (65 <=? n) && (n <=? 70) then Some (n - 55)
  else None.

(** [b.hex()] *)
Definition hex (b : list Z) : string :=
  str (List.flat_map (fun x => [hex_digit (x / 16); hex_digit (x mod 16)]) b).

(** [f"{n:02x}"] for a non-negative [n] *)
Fixpoint hex_digits_fuel (fuel : nat) (n : Z) (acc : list ascii) : list ascii :=
  match fuel with
  | O => acc
  | S fuel' =>
      if n <? 16 then hex_digit n :: acc
      else hex_digits_fuel fuel' (n / 16) (hex_digit (n mod 16) :: acc)
  end.
Definition format_02x (n : Z) : string :=
  let ds := hex_digits_fuel (S (Z.to_nat n)) n [] in
  str (match ds with [d] => ["0"%char; d] | _ => ds end).

(** [c] is ASCII white space in the sense of [bytes.fromhex] *)
Definition is_ascii_space (c : ascii) : bool :=
  let n := ord c in ((9 <=? n) && (n <=? 13)) || (n =? 32).

(** [bytes.fromhex(s)]: white space is skipped between bytes, each byte is
    two adjacent hexadecimal digits; [None] stands for [ValueError] *)
Fixpoint fromhex_chars (fuel : nat) (l : list ascii) : option (list Z) :=
  match fuel with
  | O => None
  | S fuel' =>
      match l with
      | [] => Some []
      | c :: l' =>
          if is_ascii_space c then fromhex_chars fuel' l'
          else match l' with
               | d :: l'' =>
                   match hex_value c, hex_value d with
                   | Some h, Some k =>
                       option_map (cons (16 * h + k)) (fromhex_chars fuel' l'')
                   | _, _ => None
                   end
               | [] => None
               end
      end
  end.
Definition fromhex (s : string) : option (list Z) :=
  fromhex_chars (S (len s)) (chars s).

(** [s.encode()]: UTF-8 of code points below 256 *)
Definition encode (s : string) : list Z :=
  List.flat_map (fun c => let n := ord c in
                   if n <? 128 then [n]
                   else [Z.lor 192 (Z.shiftr n 6); Z.lor 128 (Z.land n 63)])
                (chars s).

End Py.

(** ** The [bech32] package (reference implementation of BIP-173)

    [wallet.py] imports the package and calls [bech32_decode], [decode] and
    [encode].  The functions below follow the package's Python code.  A
    Python tuple of two optional values is a pair of [option]s. *)

Module bech32.

Definition CHARSET : string := "qpzry9x8gf2tvdw0s3jn54khce6mua7l".

Definition generator : list Z :=
  [0x3b6a57b2; 0x26508e6d; 0x1ea119fa; 0x3d4233dd; 0x2a1462b3].

(** one round of the checksum loop: [top = chk >> 25],
    [chk = (chk & 0x1ffffff) << 5 ^ value], then the five generator terms *)
Definition polymod_step (chk value : Z) : Z :=
  let top := Z.shiftr chk 25 in
  let chk := Z.lxor (Z.shiftl (Z.land chk 0x1ffffff) 5) value in
  fold_left (fun c ig =>
               Z.lxor c (if Z.testbit top (Z.of_nat (fst ig)) then snd ig else 0))
            (combine (seq 0 5) generator) chk.

Definition bech32_polymod (values : list Z) : Z :=
  fold_left polymod_step values 1.

Definition bech32_hrp_expand (hrp : string) : list Z :=
  List.map (fun x => Z.shiftr (Py.ord x) 5) (Py.chars hrp)
  ++ [0] ++ List.map (fun x => Z.land (Py.ord x) 31) (Py.chars hrp).

Definition bech32_verify_checksum (hrp : string) (data : list Z) : bool :=
  bech32_polymod (bech32_hrp_expand hrp ++ data) =? 1.

Definition bech32_create_checksum (hrp : string) (data : list Z) : list Z :=
  let values := bech32_hrp_expand hrp ++ data in
  let polymod := Z.lxor (bech32_polymod (values ++ [0; 0; 0; 0; 0; 0])) 1 in
  List.map (fun i => Z.land (Z.shiftr polymod (5 * (5 - Z.of_nat i))) 31)
           (seq 0 6).

Definition charset_at (d : Z) : ascii :=
  nth (Z.to_nat d) (Py.chars CHARSET) "?"%char.

Definition bech32_encode (hrp : string) (data : list Z) : string :=
  let combined := data ++ bech32_create_checksum hrp data in
  hrp +:+ "1" +:+ Py.str (List.map charset_at combined).

Definition in_charset (x : ascii) : bool :=
  bool_decide (is_Some (Py.find_char x (Py.chars CHARSET) 0)).

Definition charset_find (x : ascii) : Z :=
  default (-1) (Py.find_char x (Py.chars CHARSET) 0).

(** [bech32_decode(bech)]; the failure value [(None, None)] and the success
    value [(hrp, data[:-6])] are both tuples *)
Definition bech32_decode (bech : string)
  : option string * option (list Z) :=
  if existsb (fun x => (Py.ord x <? 33) || (126 <? Py.ord x)) (Py.chars bech)
     || (negb (String.eqb (Py.lower bech) bech)
         && negb (String.eqb (Py.upper bech) bech))
  then (None, None)
  else
    let bech := Py.lower bech in
    match Py.rfind "1"%char bech with
    | None => (None, None)                       (* pos = -1 < 1 *)
    | Some pos =>
        if (pos <? 1)%nat || (Py.len bech <? pos + 7)%nat
           || (90 <? Py.len bech)%nat
        then (None, None)
        else
          let rest := Py.chars (Py.drop (S pos) bech) in
          if negb (forallb in_charset rest) then (None, None)
          else
            let hrp := Py.take pos bech in
            let data := List.map charset_find rest in
            if negb (bech32_verify_checksum hrp data) then (None, None)
            else (Some hrp, Some (List.firstn (List.length data - 6) data))
    end.

(** the inner [while bits >= tobits] loop of [convertbits] *)
Fixpoint convertbits_emit (fuel : nat) (acc bits tobits maxv : Z)
  : Z * list Z :=
  match fuel with
  | O => (bits, [])
  | S fuel' =>
      if tobits <=? bits then
        let bits := bits - tobits in
        let '(b, out) := convertbits_emit fuel' acc bits tobits maxv in
        (b, Z.land (Z.shiftr acc bits) maxv :: out)
      else (bits, [])
  end.

Fixpoint convertbits_loop (data : list Z) (frombits tobits acc bits : Z)
  (ret : list Z) : option (Z * Z * list Z) :=
  match data with
  | [] => Some (acc, bits, ret)
  | value :: data' =>
      if (value <? 0) || negb (Z.shiftr value frombits =? 0) then None
      else
        let acc :=
          Z.land (Z.lor (Z.shiftl acc frombits) value)
                 (Z.shiftl 1 (frombits + tobits - 1) - 1) in
        let bits := bits + frombits in
        let '(bits, out) :=
          convertbits_emit (Z.to_nat bits) acc bits tobits
                           (Z.shiftl 1 tobits - 1) in
        convertbits_loop data' frombits tobits acc bits (ret ++ out)
  end.

(** [convertbits(data, frombits, tobits, pad)]; [None] is Python's [None] *)
Definition convertbits (data : list Z) (frombits tobits : Z) (pad : bool)
  : option (list Z) :=
  let maxv := Z.shiftl 1 tobits - 1 in
  match convertbits_loop data frombits tobits 0 0 [] with
  | None => None
  | Some (acc, bits, ret) =>
      if pad then
        if negb (bits =? 0)
        then Some (ret ++ [Z.land (Z.shiftl acc (tobits - bits)) maxv])
        else Some ret
      else if (frombits <=? bits)
              || negb (Z.land (Z.shiftl acc (tobits - bits)) maxv =? 0)
      then None
      else Some ret
  end.

(** [decode(hrp, addr)]: decode a segwit address.  Every path returns a
    tuple: [(None, None)] on failure, [(witver, witprog)] on success. *)
Definition decode (hrp addr : string) : option Z * option (list Z) :=
  match bech32_decode addr with
  | (Some hrpgot, Some data) =>
      if negb (String.eqb hrpgot hrp) then (None, None)
      else
        match convertbits (List.tl data) 5 8 false with
        | None => (None, None)
        | Some decoded =>
            if (List.length decoded <? 2)%nat || (40 <? List.length decoded)%nat
            then (None, None)
            else
              match data with
              | [] => (None, None)
              | d0 :: _ =>
                  if 16 <? d0 then (None, None)
                  else if (d0 =? 0)
                          && negb (List.length decoded =? 20)%nat
                          && negb (List.length decoded =? 32)%nat
                  then (None, None)
                  else (Some d0, Some decoded)
              end
        end
  | _ => (None, None)                          (* hrpgot is None != hrp *)
  end.

(** [encode(hrp, witver, witprog)]: encode a segwit address *)
Definition encode (hrp : string) (witver : Z) (witprog : list Z)
  : option string :=
  match convertbits witprog 8 5 true with
  | None => None
  | Some bits =>
      let ret := bech32_encode hrp (witver :: bits) in
      match decode hrp ret with
      | (None, None) => None
      | _ => Some ret
      end
  end.

End bech32.

(** ** [hashlib.sha256] (FIPS 180-4) on byte lists *)

Module hashlib.

Definition mask32 : Z := 0xffffffff.
Definition add32 (a b : Z) : Z := Z.land (a + b) mask32.
Definition rotr (n x : Z) : Z :=
  Z.lor (Z.shiftr x n) (Z.land (Z.shiftl x (32 - n)) mask32).

(** the 64 round constants, as hexadecimal text (eight words a row) *)
Definition K_hex : list string :=
  ["428a2f9871374491b5c0fbcfe9b5dba53956c25b59f111f1923f82a4ab1c5ed5";
   "d807aa9812835b01243185be550c7dc372be5d7480deb1fe9bdc06a7c19bf174";
   "e49b69c1efbe47860fc19dc6240ca1cc2de92c6f4a7484aa5cb0a9dc76f988da";
   "983e5152a831c66db00327c8bf597fc7c6e00bf3d5a7914706ca635114292967";
   "27b70a852e1b21384d2c6dfc53380d13650a7354766a0abb81c2c92e92722c85";
   "a2bfe8a1a81a664bc24b8b70c76c51a3d192e819d6990624f40e3585106aa070";
   "19a4c1161e376c082748774c34b0bcb5391c0cb34ed8aa4a5b9cca4f682e6ff3";
   "748f82ee78a5636f84c878148cc7020890befffaa4506cebbef9a3f7c67178f2"].

Record hstate := HState {
  ha : Z; hb : Z; hc : Z; hd : Z; he : Z; hf : Z; hg : Z; hh : Z }.

Definition H0 : hstate :=
  HState 0x6a09e667 0xbb67ae85 0x3c6ef372 0xa54ff53a
         0x510e527f 0x9b05688c 0x1f83d9ab 0x5be0cd19.

Definition ssig0 (x : Z) : Z :=
  Z.lxor (Z.lxor (rotr 7 x) (rotr 18 x)) (Z.shiftr x 3).
Definition ssig1 (x : Z) : Z :=
  Z.lxor (Z.lxor (rotr 17 x) (rotr 19 x)) (Z.shiftr x 10).
Definition bsig0 (x : Z) : Z :=
  Z.lxor (Z.lxor (rotr 2 x) (rotr 13 x)) (rotr 22 x).
Definition bsig1 (x : Z) : Z :=
  Z.lxor (Z.lxor (rotr 6 x) (rotr 11 x)) (rotr 25 x).
Definition ch (x y z : Z) : Z :=
  Z.lxor (Z.land x y) (Z.land (Z.lxor x mask32) z).
Definition maj (x y z : Z) : Z :=
  Z.lxor (Z.lxor (Z.land x y) (Z.land x z)) (Z.land y z).

(** big-endian words of a block *)
Fixpoint be_words (bytes : list Z) : list Z :=
  match bytes with
  | b0 :: b1 :: b2 :: b3 :: rest =>
      (((b0 * 256 + b1) * 256 + b2) * 256 + b3) :: be_words rest
  | _ => []
  end.

Definition K : list Z :=
  Eval vm_compute in
    List.flat_map (fun row => be_words (default [] (Py.fromhex row))) K_hex.

(** the message schedule, most recent word first *)
Fixpoint schedule_rev (n : nat) (rw : list Z) : list Z :=
  match n with
  | O => rw
  | S n' =>
      let w := add32 (add32 (ssig1 (nth 1 rw 0)) (nth 6 rw 0))
                     (add32 (ssig0 (nth 14 rw 0)) (nth 15 rw 0)) in
      schedule_rev n' (w :: rw)
  end.

Definition round (s : hstate) (kw : Z * Z) : hstate :=
  let t1 := add32 (add32 (add32 (hh s) (bsig1 (he s)))
                         (add32 (ch (he s) (hf s) (hg s)) (fst kw))) (snd kw) in
  let t2 := add32 (bsig0 (ha s)) (maj (ha s) (hb s) (hc s)) in
  HState (add32 t1 t2) (ha s) (hb s) (hc s) (add32 (hd s) t1) (he s) (hf s) (hg s).

Definition compress (s : hstate) (block : list Z) : hstate :=
  let w := List.rev (schedule_rev 48 (List.rev (be_words block))) in
  let r := fold_left round (combine K w) s in
  HState (add32 (ha s) (ha r)) (add32 (hb s) (hb r)) (add32 (hc s) (hc r))
         (add32 (hd s) (hd r)) (add32 (he s) (he r)) (add32 (hf s) (hf r))
         (add32 (hg s) (hg r)) (add32 (hh s) (hh r)).

Fixpoint blocks (fuel : nat) (bytes : list Z) : list (list Z) :=
  match fuel with
  | O => []
  | S fuel' =>
      match bytes with
      | [] => []
      | _ => List.firstn 64 bytes :: blocks fuel' (List.skipn 64 bytes)
      end
  end.

Definition be_bytes (n : nat) (x : Z) : list Z :=
  List.map (fun i => Z.land (Z.shiftr x (8 * Z.of_nat i)) 255) (List.rev (seq 0 n)).

Definition pad (msg : list Z) : list Z :=
  let l := Z.of_nat (List.length msg) in
  let zeros := Z.to_nat ((55 - l) mod 64) in
  msg ++ [128] ++ List.repeat 0 zeros ++ be_bytes 8 (8 * l).

(** [hashlib.sha256(msg).digest()] *)
Definition sha256 (msg : list Z) : list Z :=
  let p := pad msg in
  let s := fold_left compress (blocks (S (List.length p)) p) H0 in
  List.flat_map (be_bytes 4)
    [ha s; hb s; hc s; hd s; he s; hf s; hg s; hh s].

End hashlib.

(** ** Exceptions, the outside world and the state *)

Inductive exn : Type :=
| ClickException (message : string)
| KeyError (key : string)
| TypeError
| ValueError
| OSError.

Inductive result (A : Type) : Type :=
| Ok (a : A)
| Raise (e : exn).
Arguments Ok {A} a.
Arguments Raise {A} e.

(** what [subprocess.run(..., capture_output=True, text=True)] returns *)
Record CompletedProcess : Type := Completed {
  returncode : Z;
  stdout : string;
  stderr : string }.

(** one [subprocess.run] call: the command line and the text fed to stdin *)
Record call : Type := Call {
  call_cmd : list string;
  call_input : option string }.

(** a [pathlib.Path], as its components *)
Definition path : Type := list string.

(** The collaborators of the module.
    - [cardano_address cmd input]: the [cardano-address] program, a filter
      from standard input to standard output.
    - [cardano_cli cmd files]: the [cardano-cli] program; it reads and writes
      the files named on its command line, which all lie in the temporary
      directory ([files] maps a file name as written in [cmd] to its text).
    - [mnemo_generate]: [Mnemonic("english").generate(strength=256)].
    - [mkdtemp]: the name chosen by [tempfile.TemporaryDirectory()].
    - [json_loads]: [json.loads] on a key file, a JSON object with string
      fields; [None] when it raises.
    A [subprocess.run] that itself fails returns [Raise]. *)
Class Oracle (W : Type) : Type := {
  cardano_address : list string -> string -> W -> result CompletedProcess * W;
  cardano_cli : list string -> gmap string string -> W ->
                result CompletedProcess * gmap string string * W;
  mnemo_generate : W -> string * W;
  mkdtemp : W -> string * W;
  json_loads : string -> option (gmap string string) }.

(** [st_fs]: the files below the home directory and the key files handed to
    the import flow; [st_tmp]: the files of the temporary directory;
    [st_trace]: the [subprocess.run] calls made so far, oldest first.
    Directories, permission bits and the text printed by [click.echo] are
    not part of the state. *)
Record state (W : Type) : Type := State {
  st_world : W;
  st_fs : gmap path string;
  st_tmp : gmap string string;
  st_trace : list call }.
Arguments State {W} _ _ _ _.
Arguments st_world {W} _.
Arguments st_fs {W} _.
Arguments st_tmp {W} _.
Arguments st_trace {W} _.

Definition M (W A : Type) : Type := state W -> result A * state W.

#[global] Instance M_ret {W} : MRet (M W) := fun A a st => (Ok a, st).
#[global] Instance M_bind {W} : MBind (M W) := fun A B f m st =>
  match m st with
  | (Ok a, st') => f a st'
  | (Raise e, st') => (Raise e, st')
  end.

Definition raise {W A} (e : exn) : M W A := fun st => (Raise e, st).

(** [d[k]] *)
Definition getitem {W} (d : gmap string string) (k : string) : M W string :=
  match d !! k with
  | Some v => mret v
  | None => raise (KeyError k)
  end.

(** [p / name] and [str(p)] *)
Definition joinpath (p : path) (name : string) : path := p ++ [name].

Section Files.
Context {W : Type}.

(** [p.exists()] *)
Definition exists_ (p : path) : M W bool :=
  fun st => (Ok (bool_decide (is_Some (st_fs st !! p))), st).

(** [p.read_text()], [open(p, "r").read()] *)
Definition read_text (p : path) : M W string :=
  fun st => match st_fs st !! p with
            | Some s => (Ok s, st)
            | None => (Raise OSError, st)
            end.

(** [p.write_text(s)], and [f.write(s)] on a file opened with ["w"] *)
Definition write_text (p : path) (s : string) : M W unit :=
  fun st => (Ok tt, State (st_world st) (<[p := s]> (st_fs st)) (st_tmp st)
                          (st_trace st)).

(** [with open(p, "w") as f: f.write(d[k])]: the file is created (or
    emptied) before [d[k]] is evaluated *)
Definition write_item (p : path) (d : gmap string string) (k : string)
  : M W unit :=
  write_text p "";; v ← getitem d k; write_text p v.

(** [open(name, "r").read()] on a file of the temporary directory *)
Definition read_tmp (name : string) : M W string :=
  fun st => match st_tmp st !! name with
            | Some s => (Ok s, st)
            | None => (Raise OSError, st)
            end.

End Files.

(** ** [class CardanoWalletGenerator] *)

(** The fields set by [__init__].  [tools] is the table left in [self.tools]
    by [verify_tools()] and the [cardano-cli --version] probe. *)
Record CardanoWalletGenerator : Type := {
  ticker : string;
  home_dir : path;
  tools : gmap string string;
  shared_mnemonic_file : path }.

(** [__init__(self, ticker)], with [home] for [Path.home()] *)
Definition init (home : path) (tools : gmap string string) (ticker : string)
  : CardanoWalletGenerator :=
  let ticker := Py.upper ticker in
  let home_dir := joinpath home (".CSPO_" +:+ ticker) in
  {| ticker := ticker;
     home_dir := home_dir;
     tools := tools;
     shared_mnemonic_file := joinpath home_dir (ticker +:+ "-shared.mnemonic.txt") |}.

(** the literal [network_tags] of the four address functions *)
Definition network_tags : gmap string string :=
  <["mainnet" := "1"]> (<["testnet" := "0"]> (<["preview" := "0"]>
    (<["preprod" := "0"]> ∅))).

(** [network_tags.get(network, "1")] *)
Definition network_tag (network : string) : string :=
  default "1" (network_tags !! network).

Definition valid_prefixes : list string :=
  ["addr"; "addr_test"; "stake"; "stake_test"].

(** [validate_address]: the [except Exception] handler returns [False];
    [bech32_decode] raises nothing on a [str] *)
Definition validate_address (address : string) : bool :=
  match bech32.bech32_decode address with
  | (Some hrp, Some data) => bool_decide (hrp ∈ valid_prefixes)
  | _ => false                          (* hrp is None or data is None *)
  end.

Definition verify_address_candidates (base_addr candidate_addr : string) : bool :=
  String.eqb base_addr candidate_addr.

Section Wallet.
Context {W : Type} `{Oracle W}.

(** [str(self.tools[name])] *)
Definition tool (self : CardanoWalletGenerator) (name : string) : M W string :=
  getitem (tools self) name.

(** [subprocess.run(cmd, input=input, capture_output=True, text=True)] on
    [cardano-address] *)
Definition run_cardano_address (cmd : list string) (input : string)
  : M W CompletedProcess :=
  fun st =>
    let '(r, w) := cardano_address cmd input (st_world st) in
    (r, State w (st_fs st) (st_tmp st) (st_trace st ++ [Call cmd (Some input)])).

(** [subprocess.run(cmd, capture_output=True, text=True)] on [cardano-cli] *)
Definition run_cardano_cli (cmd : list string) : M W CompletedProcess :=
  fun st =>
    let '(r, tmp, w) := cardano_cli cmd (st_tmp st) (st_world st) in
    (r, State w (st_fs st) tmp (st_trace st ++ [Call cmd None])).

(** [if result.returncode != 0: raise click.ClickException(f"{msg}{result.stderr}")],
    else [result.stdout.strip()] *)
Definition checked_stdout (msg : string) (result : CompletedProcess) : M W string :=
  if negb (returncode result =? 0)
  then raise (ClickException (msg +:+ stderr result))
  else mret (Py.strip (stdout result)).

Definition get_or_create_shared_mnemonic (self : CardanoWalletGenerator)
  : M W string :=
  e ← exists_ (shared_mnemonic_file self);
  if (e : bool) then
    text ← read_text (shared_mnemonic_file self);
    mret (Py.strip text)
  else
    mnemonic ← (fun st => let '(m, w) := mnemo_generate (st_world st) in
                          (Ok m, State w (st_fs st) (st_tmp st) (st_trace st)));
    write_text (shared_mnemonic_file self) mnemonic;;
    mret mnemonic.

Definition mnemonic_to_root_key (self : CardanoWalletGenerator)
  (mnemonic : string) : M W string :=
  t ← tool self "cardano-address";
  let cmd := [t; "key"; "from-recovery-phrase"; "Shelley"] in
  result ← run_cardano_address cmd mnemonic;
  checked_stdout "Error generating root key: " result.

(** The eight [derive_*_key] methods share one body: [key child <path>] on
    the root key, then [key public --with-chain-code] on the child key.
    They differ in the path and in the two error messages. *)
Definition derive_key_pair (self : CardanoWalletGenerator)
  (derivation_path msg_child msg_public root_key : string)
  : M W (string * string) :=
  t ← tool self "cardano-address";
  let cmd := [t; "key"; "child"; derivation_path] in
  result ← run_cardano_address cmd root_key;
  skey ← checked_stdout msg_child result;
  t ← tool self "cardano-address";
  let cmd := [t; "key"; "public"; "--with-chain-code"] in
  result ← run_cardano_address cmd skey;
  vkey ← checked_stdout msg_public result;
  mret (skey, vkey).

Definition derive_payment_key (self : CardanoWalletGenerator)
  (root_key purpose : string) : M W (string * string) :=
  derive_key_pair self "1852H/1815H/0H/0/0"
    "Error deriving payment key: " "Error generating public key: " root_key.

Definition derive_staking_key (self : CardanoWalletGenerator)
  (root_key : string) : M W (string * string) :=
  derive_key_pair self "1852H/1815H/0H/2/0"
    "Error deriving staking key: " "Error generating staking public key: "
    root_key.

Definition derive_cold_key (self : CardanoWalletGenerator)
  (root_key : string) : M W (string * string) :=
  derive_key_pair self "1852H/1815H/0H/0/0"
    "Error deriving cold key: " "Error getting cold public key: " root_key.

Definition derive_hot_key (self : CardanoWalletGenerator)
  (root_key : string) : M W (string * string) :=
  derive_key_pair self "1852H/1815H/0H/2/0"
    "Error deriving hot key: " "Error getting hot public key: " root_key.

Definition derive_drep_key (self : CardanoWalletGenerator)
  (root_key : string) : M W (string * string) :=
  derive_key_pair self "1852H/1815H/0H/3/0"
    "Error deriving DRep key: " "Error getting DRep public key: " root_key.

Definition derive_ms_payment_key (self : CardanoWalletGenerator)
  (root_key : string) : M W (string * string) :=
  derive_key_pair self "1852H/1815H/0H/4/0"
    "Error deriving MS payment key: " "Error getting MS payment public key: "
    root_key.

Definition derive_ms_stake_key (self : CardanoWalletGenerator)
  (root_key : string) : M W (string * string) :=
  derive_key_pair self "1852H/1815H/0H/5/0"
    "Error deriving MS stake key: " "Error getting MS stake public key: "
    root_key.

Definition derive_ms_drep_key (self : CardanoWalletGenerator)
  (root_key : string) : M W (string * string) :=
  derive_key_pair self "1852H/1815H/0H/6/0"
    "Error deriving MS DRep key: " "Error getting MS DRep public key: "
    root_key.

(** [generate_payment_address]: payment address, stake address (computed and
    not used), then the delegation that yields the base address *)
Definition generate_payment_address (self : CardanoWalletGenerator)
  (payment_vkey staking_vkey network : string) : M W string :=
  let network_tag := network_tag network in
  t ← tool self "cardano-address";
  let payment_cmd := [t; "address"; "payment"; "--network-tag"; network_tag] in
  payment_result ← run_cardano_address payment_cmd payment_vkey;
  payment_addr ← checked_stdout "Error generating payment address: " payment_result;
  t ← tool self "cardano-address";
  let stake_cmd := [t; "address"; "stake"; "--network-tag"; network_tag] in
  stake_result ← run_cardano_address stake_cmd staking_vkey;
  stake_addr ← checked_stdout "Error generating staking address: " stake_result;
  t ← tool self "cardano-address";
  let base_cmd := [t; "address"; "delegation"; staking_vkey] in
  base_result ← run_cardano_address base_cmd payment_addr;
  checked_stdout "Error generating base address: " base_result.

Definition generate_staking_address (self : CardanoWalletGenerator)
  (staking_vkey network : string) : M W string :=
  let network_tag := network_tag network in
  t ← tool self "cardano-address";
  let cmd := [t; "address"; "stake"; "--network-tag"; network_tag] in
  result ← run_cardano_address cmd staking_vkey;
  checked_stdout "Error generating staking address: " result.

(** [generate_address_candidate]: the same three commands as
    [generate_payment_address], written out a second time in the source *)
Definition generate_address_candidate (self : CardanoWalletGenerator)
  (payment_vkey staking_vkey network : string) : M W string :=
  let network_tag := network_tag network in
  t ← tool self "cardano-address";
  let payment_cmd := [t; "address"; "payment"; "--network-tag"; network_tag] in
  payment_result ← run_cardano_address payment_cmd payment_vkey;
  payment_addr ← checked_stdout "Error generating payment address: " payment_result;
  t ← tool self "cardano-address";
  let stake_cmd := [t; "address"; "stake"; "--network-tag"; network_tag] in
  stake_result ← run_cardano_address stake_cmd staking_vkey;
  stake_addr ← checked_stdout "Error generating staking address: " stake_result;
  t ← tool self "cardano-address";
  let base_cmd := [t; "address"; "delegation"; staking_vkey] in
  base_result ← run_cardano_address base_cmd payment_addr;
  checked_stdout "Error generating base address: " base_result.

Definition generate_payment_only_address (self : CardanoWalletGenerator)
  (payment_vkey network : string) : M W string :=
  let network_tag := network_tag network in
  t ← tool self "cardano-address";
  let cmd := [t; "address"; "payment"; "--network-tag"; network_tag] in
  result ← run_cardano_address cmd payment_vkey;
  checked_stdout "Error generating payment address: " result.

(** [save_wallet_files]: seven files in [home_dir / purpose], written in
    this order *)
Definition wallet_file (self : CardanoWalletGenerator) (purpose suffix : string)
  : path :=
  joinpath (joinpath (home_dir self) purpose)
           (ticker self +:+ "-" +:+ purpose +:+ suffix).

Definition save_wallet_files (self : CardanoWalletGenerator)
  (purpose : string) (wallet_data : gmap string string) : M W path :=
  let wallet_dir := joinpath (home_dir self) purpose in
  write_item (wallet_file self purpose ".base_addr") wallet_data "base_addr";;
  write_item (wallet_file self purpose ".base_addr.candidate") wallet_data
             "base_addr_candidate";;
  write_item (wallet_file self purpose ".reward_addr") wallet_data "reward_addr";;
  write_item (wallet_file self purpose ".reward_addr.candidate") wallet_data
             "reward_addr_candidate";;
  write_item (wallet_file self purpose ".staking_skey") wallet_data "staking_skey";;
  write_item (wallet_file self purpose ".staking_vkey") wallet_data "staking_vkey";;
  write_item (wallet_file self purpose ".mnemonic.txt") wallet_data "mnemonic";;
  mret wallet_dir.

Definition generate_wallet (self : CardanoWalletGenerator)
  (purpose network : string) : M W (gmap string string) :=
  mnemonic ← get_or_create_shared_mnemonic self;
  root_key ← mnemonic_to_root_key self mnemonic;
  '(payment_skey, payment_vkey) ← derive_payment_key self root_key purpose;
  '(staking_skey, staking_vkey) ← derive_staking_key self root_key;
  base_addr ← generate_payment_address self payment_vkey staking_vkey network;
  reward_addr ← generate_staking_address self staking_vkey network;
  base_addr_candidate ←
    generate_address_candidate self payment_vkey staking_vkey network;
  reward_addr_candidate ← generate_staking_address self staking_vkey network;
  if negb (verify_address_candidates base_addr base_addr_candidate) then
    raise (ClickException "Address verification failed: base address mismatch")
  else if negb (verify_address_candidates reward_addr reward_addr_candidate) then
    raise (ClickException "Address verification failed: reward address mismatch")
  else if negb (validate_address base_addr) then
    raise (ClickException "Invalid base address generated")
  else if negb (validate_address reward_addr) then
    raise (ClickException "Invalid reward address generated")
  else
    let wallet_data : gmap string string :=
      list_to_map [("base_addr", base_addr);
                   ("base_addr_candidate", base_addr_candidate);
                   ("reward_addr", reward_addr);
                   ("reward_addr_candidate", reward_addr_candidate);
                   ("staking_skey", staking_skey);
                   ("staking_vkey", staking_vkey);
                   ("mnemonic", mnemonic)] in
    wallet_dir ← save_wallet_files self purpose wallet_data;
    mret wallet_data.

End Wallet.

(** ** Format conversion *)

(** [json.dumps(s)] for a string, with [ensure_ascii] *)
Definition json_escape_char (c : ascii) : list ascii :=
  let n := Py.ord c in
  let bs := Py.chr 92 in
  if n =? 34 then [bs; c]
  else if n =? 92 then [bs; c]
  else if n =? 10 then [bs; "n"%char]
  else if n =? 13 then [bs; "r"%char]
  else if n =? 9 then [bs; "t"%char]
  else if n =? 8 then [bs; "b"%char]
  else if n =? 12 then [bs; "f"%char]
  else if (32 <=? n) && (n <=? 126) then [c]
  else [bs; "u"%char; "0"%char; "0"%char;
        Py.hex_digit (n / 16); Py.hex_digit (n mod 16)].

Definition json_string (s : string) : string :=
  let q := Py.str [Py.chr 34] in
  q +:+ Py.str (List.flat_map json_escape_char (Py.chars s)) +:+ q.

(** [json.dumps({"type": t, "description": d, "cborHex": c}, indent=2)] *)
Definition json_dumps_key_file (t d c : string) : string :=
  let nl := Py.str [Py.chr 10] in
  "{" +:+ nl
  +:+ "  " +:+ json_string "type" +:+ ": " +:+ json_string t +:+ "," +:+ nl
  +:+ "  " +:+ json_string "description" +:+ ": " +:+ json_string d +:+ "," +:+ nl
  +:+ "  " +:+ json_string "cborHex" +:+ ": " +:+ json_string c +:+ nl
  +:+ "}".

(** [bytes(x)] for [x] a list of integers or [None] *)
Definition bytes (x : option (list Z)) : result (list Z) :=
  match x with
  | None => Raise TypeError
  | Some l => if forallb (fun v => (0 <=? v) && (v <? 256)) l then Ok l
              else Raise ValueError
  end.

(** [x is not None] for [x] a tuple *)
Definition tuple_is_not_None {A B : Type} (x : A * B) : bool := true.

Definition vkey_prefixes : list string :=
  ["addr_vkh"; "stake_vkh"; "addr_vk"; "stake_vk"].

(** [bech32.encode(prefix, key_data)]: [encode(hrp, witver, witprog)] has
    three required parameters, the call binds two *)
Definition bech32_encode_two_arguments (prefix : string) (key_data : list Z)
  : result string := Raise TypeError.

Definition cbor_hex_to_bech32 (cbor_hex prefix : string) : string :=
  let key_data :=
    if Py.startswith "58" cbor_hex then Py.fromhex (Py.drop 4 cbor_hex)
    else Py.fromhex cbor_hex in
  match key_data with
  | Some key_data =>
      match bech32_encode_two_arguments prefix key_data with
      | Ok s => s
      | Raise _ => prefix +:+ "1" +:+ Py.take 56 (Py.hex key_data)
      end
  | None => prefix +:+ "1placeholder"
  end.

Definition type_mapping : gmap string string :=
  list_to_map
    [("payment_skey", "PaymentSigningKeyShelley_ed25519");
     ("payment_vkey", "PaymentVerificationKeyShelley_ed25519");
     ("stake_skey", "StakeSigningKeyShelley_ed25519");
     ("stake_vkey", "StakeVerificationKeyShelley_ed25519");
     ("cold_skey", "StakePoolSigningKey_ed25519");
     ("cold_vkey", "StakePoolVerificationKey_ed25519");
     ("hot_skey", "KesSigningKey_ed25519");
     ("hot_vkey", "KesVerificationKey_ed25519");
     ("drep_skey", "DRepSigningKey_ed25519");
     ("drep_vkey", "DRepVerificationKey_ed25519");
     ("ms_payment_skey", "PaymentSigningKeyShelley_ed25519");
     ("ms_payment_vkey", "PaymentVerificationKeyShelley_ed25519");
     ("ms_stake_skey", "StakeSigningKeyShelley_ed25519");
     ("ms_stake_vkey", "StakeVerificationKeyShelley_ed25519");
     ("ms_drep_skey", "DRepSigningKey_ed25519");
     ("ms_drep_vkey", "DRepVerificationKey_ed25519")].

Definition create_cardano_key_file (key_type description cbor_hex : string)
  : string :=
  let proper_type := default key_type (type_mapping !! key_type) in
  json_dumps_key_file proper_type description cbor_hex.

(** the [for prefix in [...]] loop of [generate_proper_cbor_hex]:
    [Ok (Some s)] when the body returns [s], [Ok None] when the loop ends *)
Fixpoint cbor_hex_prefix_loop (prefixes : list string) (cbor_hex : string)
  : result (option string) :=
  match prefixes with
  | [] => Ok None
  | prefix :: rest =>
      let decoded := bech32.decode prefix cbor_hex in
      if tuple_is_not_None decoded then
        match bytes (snd decoded) with
        | Raise e => Raise e
        | Ok key_data =>
            Ok (Some ("58" +:+ Py.format_02x (Z.of_nat (List.length key_data))
                      +:+ Py.hex key_data))
        end
      else cbor_hex_prefix_loop rest cbor_hex
  end.

Definition generate_proper_cbor_hex (cbor_hex : string) : string :=
  if Py.startswith "58" cbor_hex then cbor_hex
  else
    match cbor_hex_prefix_loop vkey_prefixes cbor_hex with
    | Ok (Some s) => s
    | Ok None =>
        if (Py.len cbor_hex =? 64)%nat then "58" +:+ "20" +:+ cbor_hex
        else if (Py.len cbor_hex =? 128)%nat then "58" +:+ "40" +:+ cbor_hex
        else cbor_hex
    | Raise _ => cbor_hex                         (* except Exception *)
    end.

(** the [for prefix in [...]] loop of [generate_proper_credential_hash] *)
Fixpoint credential_prefix_loop (prefixes : list string) (key_data : string)
  : result (option string) :=
  match prefixes with
  | [] => Ok None
  | prefix :: rest =>
      let decoded := bech32.decode prefix key_data in
      if tuple_is_not_None decoded then
        match bytes (snd decoded) with
        | Raise e => Raise e
        | Ok key_bytes => Ok (Some (Py.hex (List.firstn 28 key_bytes)))
        end
      else credential_prefix_loop rest key_data
  end.

(** [hashlib.sha256(key_data.encode()).digest()[:28].hex()] *)
Definition sha256_fallback (key_data : string) : string :=
  Py.hex (List.firstn 28 (hashlib.sha256 (Py.encode key_data))).

(** the body of the [try] block of [generate_proper_credential_hash] *)
Definition credential_hash_try (key_data : string) : result string :=
  if (Py.len key_data =? 56)%nat then Ok key_data
  else
    match credential_prefix_loop vkey_prefixes key_data with
    | Raise e => Raise e
    | Ok (Some s) => Ok s
    | Ok None =>
        if Py.startswith "58" key_data then
          let hex_data := Py.drop 4 key_data in
          match Py.fromhex hex_data with
          | None => Raise ValueError
          | Some key_bytes => Ok (Py.hex (List.firstn 28 key_bytes))
          end
        else if (56 <=? Py.len key_data)%nat then Ok (Py.take 56 key_data)
        else Ok (sha256_fallback key_data)
    end.

Definition generate_proper_credential_hash (key_data : string) : string :=
  match credential_hash_try key_data with
  | Ok s => s
  | Raise _ => sha256_fallback key_data           (* except Exception *)
  end.

Section StakePool.
Context {W : Type} `{Oracle W}.

(** [with tempfile.TemporaryDirectory() as temp_dir: body]: the directory is
    new and empty, and is removed when the block is left, also by an
    exception *)
Definition with_TemporaryDirectory {A : Type} (body : string -> M W A) : M W A :=
  fun st =>
    let '(temp_dir, w) := mkdtemp (st_world st) in
    let '(r, st') := body temp_dir (State w (st_fs st) ∅ (st_trace st)) in
    (r, State (st_world st') (st_fs st') ∅ (st_trace st')).

(** [str(temp_path / name)] *)
Definition temp_file (temp_dir name : string) : string :=
  temp_dir +:+ "/" +:+ name.

(** [if result.returncode != 0: raise click.ClickException(f"{msg}{result.stderr}")] *)
Definition check_returncode (msg : string) (result : CompletedProcess) : M W unit :=
  if negb (returncode result =? 0)
  then raise (ClickException (msg +:+ stderr result))
  else mret tt.

(** [json.loads(content)] *)
Definition loads (content : string) : M W (gmap string string) :=
  match json_loads content with
  | Some j => mret j
  | None => raise ValueError
  end.

(** One key-generation block of [generate_keys_with_cardano_cli]: run
    [cardano-cli <sub> <vflag> vfile <sflag> sfile], read both files, parse
    them and store their ["cborHex"] fields under [vkey] and [skey]. *)
Definition key_gen_block (self : CardanoWalletGenerator) (temp_dir : string)
  (sub : list string) (vflag sflag vname sname msg vkey skey : string)
  (wallet_data : gmap string string) : M W (gmap string string) :=
  let vkey_file := temp_file temp_dir vname in
  let skey_file := temp_file temp_dir sname in
  t ← tool self "cardano-cli";
  let cmd := [t] ++ sub ++ [vflag; vkey_file; sflag; skey_file] in
  result ← run_cardano_cli cmd;
  check_returncode msg result;;
  vkey_content ← read_tmp vkey_file;
  skey_content ← read_tmp skey_file;
  vkey_json ← loads vkey_content;
  skey_json ← loads skey_content;
  v ← getitem vkey_json "cborHex";
  let wallet_data := <[vkey := v]> wallet_data in
  s ← getitem skey_json "cborHex";
  mret (<[skey := s]> wallet_data).

(** One credential block: run [cardano-cli <sub> <flag> vfile] and store the
    stripped standard output under [key]. *)
Definition key_hash_block (self : CardanoWalletGenerator) (temp_dir : string)
  (sub : list string) (flag vname msg key : string)
  (wallet_data : gmap string string) : M W (gmap string string) :=
  t ← tool self "cardano-cli";
  let cmd := [t] ++ sub ++ [flag; temp_file temp_dir vname] in
  result ← run_cardano_cli cmd;
  check_returncode msg result;;
  mret (<[key := Py.strip (stdout result)]> wallet_data).

(** One block that makes [cardano-cli] write [--out-file] and stores the
    stripped text of that file under [key]. *)
Definition out_file_block (self : CardanoWalletGenerator) (temp_dir : string)
  (args : list string) (oname : string) (extra : list string) (msg key : string)
  (wallet_data : gmap string string) : M W (gmap string string) :=
  let out_file := temp_file temp_dir oname in
  t ← tool self "cardano-cli";
  let cmd := [t] ++ args ++ ["--out-file"; out_file] ++ extra in
  result ← run_cardano_cli cmd;
  check_returncode msg result;;
  text ← read_tmp out_file;
  mret (<[key := Py.strip text]> wallet_data).

Definition placeholder_delegation_cert : string :=
  json_dumps_key_file "StakeDelegationCertificate"
    "Stake Delegation Certificate (placeholder)"
    "82018200581cplaceholder_pool_id_here".

Definition generate_keys_with_cardano_cli (self : CardanoWalletGenerator)
  (purpose network : string) : M W (gmap string string) :=
  let wallet_data : gmap string string := ∅ in
  with_TemporaryDirectory (fun temp_dir =>
    let f := temp_file temp_dir in
    (* 1. payment key pair *)
    wallet_data ← key_gen_block self temp_dir ["address"; "key-gen"]
      "--verification-key-file" "--signing-key-file" "payment.vkey" "payment.skey"
      "Error generating payment keys: " "payment_vkey" "payment_skey" wallet_data;
    (* 2. stake key pair *)
    wallet_data ← key_gen_block self temp_dir ["stake-address"; "key-gen"]
      "--verification-key-file" "--signing-key-file" "stake.vkey" "stake.skey"
      "Error generating stake keys: " "staking_vkey" "staking_skey" wallet_data;
    (* 3. payment credential *)
    wallet_data ← key_hash_block self temp_dir ["address"; "key-hash"]
      "--payment-verification-key-file" "payment.vkey"
      "Error generating payment credential: " "payment_cred" wallet_data;
    (* 4. stake credential *)
    wallet_data ← key_hash_block self temp_dir ["stake-address"; "key-hash"]
      "--stake-verification-key-file" "stake.vkey"
      "Error generating stake credential: " "stake_cred" wallet_data;
    (* 5. addresses *)
    let network_param :=
      if negb (String.eqb network "mainnet") then ["--testnet-magic"; "1"]
      else ["--mainnet"] in
    wallet_data ← out_file_block self temp_dir
      ["address"; "build"; "--payment-verification-key-file"; f "payment.vkey";
       "--stake-verification-key-file"; f "stake.vkey"]
      "base.addr" network_param "Error generating base address: " "base_addr"
      wallet_data;
    wallet_data ← out_file_block self temp_dir
      ["address"; "build"; "--payment-verification-key-file"; f "payment.vkey"]
      "payment.addr" network_param "Error generating payment address: "
      "payment_addr" wallet_data;
    wallet_data ← out_file_block self temp_dir
      ["stake-address"; "build"; "--stake-verification-key-file"; f "stake.vkey"]
      "reward.addr" network_param "Error generating reward address: "
      "reward_addr" wallet_data;
    (* 6. stake registration certificate *)
    wallet_data ← out_file_block self temp_dir
      ["stake-address"; "registration-certificate";
       "--stake-verification-key-file"; f "stake.vkey"]
      "stake.cert" [] "Error generating stake certificate: " "stake_cert"
      wallet_data;
    (* 7. cold and hot keys *)
    wallet_data ← key_gen_block self temp_dir ["stake-pool"; "key-gen"]
      "--cold-verification-key-file" "--cold-signing-key-file"
      "cc-cold.vkey" "cc-cold.skey"
      "Error generating cold keys: " "cold_vkey" "cold_skey" wallet_data;
    wallet_data ← key_gen_block self temp_dir ["node"; "key-gen-KES"]
      "--verification-key-file" "--signing-key-file" "cc-hot.vkey" "cc-hot.skey"
      "Error generating hot keys: " "hot_vkey" "hot_skey" wallet_data;
    (* 8. DRep keys *)
    wallet_data ← key_gen_block self temp_dir
      ["conway"; "governance"; "drep"; "key-gen"]
      "--verification-key-file" "--signing-key-file" "drep.vkey" "drep.skey"
      "Error generating DRep keys: " "drep_vkey" "drep_skey" wallet_data;
    (* 9. multi-signature keys *)
    wallet_data ← key_gen_block self temp_dir ["address"; "key-gen"]
      "--verification-key-file" "--signing-key-file"
      "ms_payment.vkey" "ms_payment.skey"
      "Error generating MS payment keys: " "ms_payment_vkey" "ms_payment_skey"
      wallet_data;
    wallet_data ← key_gen_block self temp_dir ["stake-address"; "key-gen"]
      "--verification-key-file" "--signing-key-file"
      "ms_stake.vkey" "ms_stake.skey"
      "Error generating MS stake keys: " "ms_stake_vkey" "ms_stake_skey"
      wallet_data;
    wallet_data ← key_gen_block self temp_dir
      ["conway"; "governance"; "drep"; "key-gen"]
      "--verification-key-file" "--signing-key-file"
      "ms_drep.vkey" "ms_drep.skey"
      "Error generating MS DRep keys: " "ms_drep_vkey" "ms_drep_skey"
      wallet_data;
    (* 10. multi-signature credentials *)
    wallet_data ← key_hash_block self temp_dir ["address"; "key-hash"]
      "--payment-verification-key-file" "ms_payment.vkey"
      "Error generating MS payment credential: " "ms_payment_cred" wallet_data;
    wallet_data ← key_hash_block self temp_dir ["stake-address"; "key-hash"]
      "--stake-verification-key-file" "ms_stake.vkey"
      "Error generating MS stake credential: " "ms_stake_cred" wallet_data;
    (* 11. delegation certificate, or its placeholder *)
    let delegation_cert_file := f "delegation.cert" in
    t ← tool self "cardano-cli";
    let cmd := [t; "stake-address"; "delegation-certificate";
                "--stake-verification-key-file"; f "stake.vkey";
                "--stake-pool-id"; "placeholder_pool_id";
                "--out-file"; delegation_cert_file] in
    result ← run_cardano_cli cmd;
    if negb (returncode result =? 0) then
      mret (<["delegation_cert" := placeholder_delegation_cert]> wallet_data)
    else
      text ← read_tmp delegation_cert_file;
      mret (<["delegation_cert" := Py.strip text]> wallet_data)).

(** [content = f(wallet_data[k])] is computed first, then
    [with open(p, "w") as f: f.write(content)] *)
Definition write_computed (p : path) (d : gmap string string) (k : string)
  (f : string -> string) : M W unit :=
  v ← getitem d k; write_text p (f v).

(** [with open(p, "w") as f: f.write(g(d[k]))] *)
Definition write_item_with (p : path) (d : gmap string string) (k : string)
  (g : string -> string) : M W unit :=
  write_text p "";; v ← getitem d k; write_text p (g v).

Definition save_complete_wallet_files (self : CardanoWalletGenerator)
  (purpose : string) (wallet_data : gmap string string) : M W path :=
  let wallet_dir := joinpath (home_dir self) purpose in
  let key_file name key_type description key :=
    write_computed (joinpath wallet_dir name) wallet_data key
      (fun v => create_cardano_key_file key_type description
                  (generate_proper_cbor_hex v)) in
  let cred_file name key :=
    write_item_with (joinpath wallet_dir name) wallet_data key
                    generate_proper_credential_hash in
  write_item (joinpath wallet_dir "base.addr") wallet_data "base_addr";;
  write_item (joinpath wallet_dir "payment.addr") wallet_data "payment_addr";;
  write_item (joinpath wallet_dir "reward.addr") wallet_data "reward_addr";;
  key_file "payment.skey" "payment_skey" "Payment Signing Key" "payment_skey";;
  key_file "payment.vkey" "payment_vkey" "Payment Verification Key" "payment_vkey";;
  key_file "stake.skey" "stake_skey" "Stake Signing Key" "staking_skey";;
  key_file "stake.vkey" "stake_vkey" "Stake Verification Key" "staking_vkey";;
  key_file "cc-cold.skey" "cold_skey" "Stake Pool Operator Signing Key" "cold_skey";;
  key_file "cc-cold.vkey" "cold_vkey" "Stake Pool Operator Verification Key"
           "cold_vkey";;
  key_file "cc-hot.skey" "hot_skey" "KES Signing Key" "hot_skey";;
  key_file "cc-hot.vkey" "hot_vkey" "KES Verification Key" "hot_vkey";;
  key_file "drep.skey" "drep_skey" "DRep Signing Key" "drep_skey";;
  key_file "drep.vkey" "drep_vkey" "DRep Verification Key" "drep_vkey";;
  key_file "ms_payment.skey" "ms_payment_skey"
           "Multi-Signature Payment Signing Key" "ms_payment_skey";;
  key_file "ms_payment.vkey" "ms_payment_vkey"
           "Multi-Signature Payment Verification Key" "ms_payment_vkey";;
  key_file "ms_stake.skey" "ms_stake_skey"
           "Multi-Signature Stake Signing Key" "ms_stake_skey";;
  key_file "ms_stake.vkey" "ms_stake_vkey"
           "Multi-Signature Stake Verification Key" "ms_stake_vkey";;
  key_file "ms_drep.skey" "ms_drep_skey"
           "Multi-Signature DRep Signing Key" "ms_drep_skey";;
  key_file "ms_drep.vkey" "ms_drep_vkey"
           "Multi-Signature DRep Verification Key" "ms_drep_vkey";;
  cred_file "payment.cred" "payment_cred";;
  cred_file "stake.cred" "stake_cred";;
  cred_file "ms_payment.cred" "ms_payment_cred";;
  cred_file "ms_stake.cred" "ms_stake_cred";;
  write_item (joinpath wallet_dir "stake.cert") wallet_data "stake_cert";;
  write_item (joinpath wallet_dir "delegation.cert") wallet_data "delegation_cert";;
  write_item (wallet_file self purpose ".mnemonic.txt") wallet_data "mnemonic";;
  mret wallet_dir.

Definition generate_stake_pool_files (self : CardanoWalletGenerator)
  (purpose network : string) : M W (gmap string string) :=
  wallet_data ← generate_keys_with_cardano_cli self purpose network;
  wallet_dir ← save_complete_wallet_files self purpose wallet_data;
  mret wallet_data.

(** One block of [import_existing_keys].  [key_path] is the path argument:
    [None] for Python's [None] and for the empty string. *)
Definition import_key (key_path : option path) (key : string)
  (wallet_data : gmap string string) : M W (gmap string string) :=
  match key_path with
  | None => mret wallet_data
  | Some p =>
      e ← exists_ p;
      if (e : bool) then
        content ← read_text p;
        j ← loads content;
        v ← getitem j "cborHex";
        mret (<[key := v]> wallet_data)
      else mret wallet_data
  end.

Definition import_existing_keys (self : CardanoWalletGenerator)
  (purpose : string)
  (payment_vkey_path payment_skey_path stake_vkey_path stake_skey_path
     : option path) : M W (gmap string string) :=
  let wallet_data : gmap string string := ∅ in
  wallet_data ← import_key payment_vkey_path "payment_vkey" wallet_data;
  wallet_data ← import_key payment_skey_path "payment_skey" wallet_data;
  wallet_data ← import_key stake_vkey_path "staking_vkey" wallet_data;
  wallet_data ← import_key stake_skey_path "staking_skey" wallet_data;
  mret wallet_data.

Definition generate_wallet_with_import (self : CardanoWalletGenerator)
  (purpose network : string)
  (payment_vkey_path payment_skey_path stake_vkey_path stake_skey_path
     : option path) : M W (gmap string string) :=
  imported_keys ← import_existing_keys self purpose payment_vkey_path
                    payment_skey_path stake_vkey_path stake_skey_path;
  if bool_decide (imported_keys = ∅) then
    raise (ClickException "No valid keys provided for import")
  else
    payment_vkey ← getitem imported_keys "payment_vkey";
    let payment_vkey_bech32 := cbor_hex_to_bech32 payment_vkey "addr_vk" in
    staking_vkey ← getitem imported_keys "staking_vkey";
    let staking_vkey_bech32 := cbor_hex_to_bech32 staking_vkey "stake_vk" in
    base_addr ← generate_payment_address self payment_vkey_bech32
                  staking_vkey_bech32 network;
    reward_addr ← generate_staking_address self staking_vkey_bech32 network;
    if negb (validate_address base_addr) then
      raise (ClickException "Invalid base address generated from imported keys")
    else if negb (validate_address reward_addr) then
      raise (ClickException "Invalid reward address generated from imported keys")
    else
      let wallet_data : gmap string string :=
        list_to_map
          [("base_addr", base_addr);
           ("reward_addr", reward_addr);
           ("payment_skey", default "" (imported_keys !! "payment_skey"));
           ("payment_vkey", default "" (imported_keys !! "payment_vkey"));
           ("staking_skey", default "" (imported_keys !! "staking_skey"));
           ("staking_vkey", default "" (imported_keys !! "staking_vkey"))] in
      wallet_dir ← save_wallet_files self purpose wallet_data;
      mret wallet_data.

End StakePool.

(** ** The derivation path registry of the specification *)

Inductive KeyRole : Type :=
| Payment | Staking | Cold | Hot | DRep
| MultisigPayment | MultisigStaking | MultisigDRep.

(** the path table of the specification, one row per role *)
Definition spec_path (role : KeyRole) : string :=
  match role with
  | Payment => "1852H/1815H/0H/0/0"
  | Staking => "1852H/1815H/0H/2/0"
  | Cold => "1852H/1815H/0H/0/0"
  | Hot => "1852H/1815H/0H/2/0"
  | DRep => "1852H/1815H/0H/3/0"
  | MultisigPayment => "1852H/1815H/0H/4/0"
  | MultisigStaking => "1852H/1815H/0H/5/0"
  | MultisigDRep => "1852H/1815H/0H/6/0"
  end.

(** the method of the class that derives the key pair of a role *)
Definition derive_role {W : Type} `{Oracle W} (self : CardanoWalletGenerator)
  (role : KeyRole) (root_key purpose : string) : M W (string * string) :=
  match role with
  | Payment => derive_payment_key self root_key purpose
  | Staking => derive_staking_key self root_key
  | Cold => derive_cold_key self root_key
  | Hot => derive_hot_key self root_key
  | DRep => derive_drep_key self root_key
  | MultisigPayment => derive_ms_payment_key self root_key
  | MultisigStaking => derive_ms_stake_key self root_key
  | MultisigDRep => derive_ms_drep_key self root_key
  end.

(** ** Concrete collaborators, used to run the model

    The world is a counter of the calls made so far.  [cardano-address]
    answers [key] commands with the counter, so that no two keys are equal,
    and answers [address] commands with a fixed address per kind as long as
    the counter is below [flaky_from]; from then on the address carries the
    counter.  [cardano-cli] writes the text [k<counter>:<file name>] into
    every file named on its command line that does not exist yet.  A key file is read as the JSON object
    whose ["cborHex"] field is the whole text. *)

Module Sim.

(** a counter below 100 in decimal *)
Definition digits (n : nat) : string :=
  Py.str [Py.chr (48 + Z.of_nat (n / 10)); Py.chr (48 + Z.of_nat (n mod 10))].

(** a valid base address (prefix [addr]), stake address (prefix [stake])
    and payment address, as Bech32 text *)
Definition base_address : string := bech32.bech32_encode "addr" [0; 1; 2; 3].
Definition stake_address : string := bech32.bech32_encode "stake" [28; 1; 2; 3].
Definition payment_address : string := bech32.bech32_encode "addr" [12; 1].

Definition address_of (kind : string) : string :=
  if String.eqb kind "delegation" then base_address
  else if String.eqb kind "stake" then stake_address
  else payment_address.

Definition address_tool (flaky_from : nat) (cmd : list string) (input : string)
  (n : nat) : result CompletedProcess * nat :=
  match cmd with
  | _ :: "address" :: kind :: _ =>
      (Ok (Completed 0
             (if (n <? flaky_from)%nat then address_of kind
              else address_of kind +:+ digits n) ""), S n)
  | _ => (Ok (Completed 0 ("key" +:+ digits n) ""), S n)
  end.

(** the file names on a command line: the arguments after the program
    that start with a slash *)
Definition files_of (cmd : list string) : list string :=
  List.filter (String.prefix "/") (List.tl cmd).

Definition cli_tool (cmd : list string) (files : gmap string string) (n : nat)
  : result CompletedProcess * gmap string string * nat :=
  (Ok (Completed 0 ("hash" +:+ digits n) ""),
   fold_left (fun fs name =>
                match fs !! name with
                | Some _ => fs
                | None => <[name := "k" +:+ digits n +:+ ":" +:+ name]> fs
                end)
             (files_of cmd) files,
   S n).

(** a recovery phrase of 24 words *)
Definition words : list string :=
  List.repeat "abandon" 23 ++ ["art"].
Definition phrase : string := Eval vm_compute in String.concat " " words.

Definition oracle (flaky_from : nat) : Oracle nat := {|
  cardano_address := address_tool flaky_from;
  cardano_cli := cli_tool;
  mnemo_generate := fun n => (phrase, S n);
  mkdtemp := fun n => ("/tmp/tmp" +:+ digits n, S n);
  json_loads := fun content => Some {["cborHex" := content]} |}.

Definition the_tools : gmap string string :=
  <["cardano-address" := "/bin/cardano-address"]>
    (<["cardano-cli" := "/bin/cardano-cli"]> ∅).

Definition generator : CardanoWalletGenerator := init ["home"] the_tools "pool".

Definition start : state nat := State 0%nat ∅ ∅ [].

(** two key files for the import flow, and a state that holds them *)
Definition payment_vkey_path : path := ["keys"; "payment.vkey"].
Definition stake_vkey_path : path := ["keys"; "stake.vkey"].
Definition import_start : state nat :=
  State 0%nat
    (<[payment_vkey_path :=
         "5820000102030405060708090a0b0c0d0e0f101112131415161718191a1b1c1d1e1f"]>
       (<[stake_vkey_path :=
            "5820202122232425262728292a2b2c2d2e2f303132333435363738393a3b3c3d3e3f"]>
          ∅))
    ∅ [].

End Sim.

(** ** Vocabulary of the properties *)

(** [step keep P st st']: from [st] to [st'] only files in [keep] were
    written and only calls that satisfy [P] were made. *)
Definition step {W : Type} (keep : path -> Prop) (P : call -> Prop)
  (st st' : state W) : Prop :=
  (forall p, ~ keep p -> st_fs st' !! p = st_fs st !! p) /\
  exists calls, st_trace st' = st_trace st ++ calls /\ Forall P calls.

(** [touches keep P m]: whatever its outcome, [m] writes only files in
    [keep] and makes only calls that satisfy [P]. *)
Definition touches {W : Type} (keep : path -> Prop) (P : call -> Prop)
  {A : Type} (m : M W A) : Prop :=
  forall st, step keep P st (snd (m st)).

Definition any_file : path -> Prop := fun _ => True.
Definition no_file : path -> Prop := fun _ => False.
Definition any_call : call -> Prop := fun _ => True.

(** the four network names of [network_tags] *)
Definition known_networks : list string :=
  ["mainnet"; "testnet"; "preview"; "preprod"].

(** a word of a recovery phrase: lower-case letters, at least one *)
Definition is_word (w : string) : Prop :=
  w <> "" /\ Forall (fun c => 97 <= Py.ord c <= 122) (Py.chars w).

(** a recovery phrase of [n] words, separated by single spaces *)
Definition recovery_phrase (n : nat) (m : string) : Prop :=
  exists words,
    List.length words = n /\ Forall is_word words /\ m = String.concat " " words.

(** the files that [save_wallet_files] may write for a purpose *)
Definition is_wallet_file (self : CardanoWalletGenerator) (purpose : string)
  (p : path) : Prop :=
  exists suffix, p = wallet_file self purpose suffix.

(** the two verification errors of [generate_wallet] *)
Definition base_mismatch : exn :=
  ClickException "Address verification failed: base address mismatch".
Definition reward_mismatch : exn :=
  ClickException "Address verification failed: reward address mismatch".

(** the dictionary that [generate_wallet] builds *)
Definition wallet_dict (base_addr base_addr_candidate reward_addr
  reward_addr_candidate staking_skey staking_vkey mnemonic : string)
  : gmap string string :=
  list_to_map [("base_addr", base_addr);
               ("base_addr_candidate", base_addr_candidate);
               ("reward_addr", reward_addr);
               ("reward_addr_candidate", reward_addr_candidate);
               ("staking_skey", staking_skey);
               ("staking_vkey", staking_vkey);
               ("mnemonic", mnemonic)].

(** the part of [generate_wallet] after the eight computations *)
Definition verify_and_save {W : Type} `{Oracle W} (self : CardanoWalletGenerator) (purpose : string)
  (mnemonic staking_skey staking_vkey base_addr reward_addr
     base_addr_candidate reward_addr_candidate : string)
  : M W (gmap string string) :=
  if negb (verify_address_candidates base_addr base_addr_candidate) then
    raise base_mismatch
  else if negb (verify_address_candidates reward_addr reward_addr_candidate) then
    raise reward_mismatch
  else if negb (validate_address base_addr) then
    raise (ClickException "Invalid base address generated")
  else if negb (validate_address reward_addr) then
    raise (ClickException "Invalid reward address generated")
  else
    let wallet_data :=
      wallet_dict base_addr base_addr_candidate reward_addr
                  reward_addr_candidate staking_skey staking_vkey mnemonic in
    save_wallet_files self purpose wallet_data ≫= fun _ => mret wallet_data.


(** [computed ... st ... s8]: started in [st], the eight computations of
    [generate_wallet] succeed and end in [s8]; the two candidates are
    computed after the two addresses, from the same verification keys. *)
Definition computed {W : Type} `{Oracle W} (self : CardanoWalletGenerator)
  (purpose network : string) (st : state W)
  (mnemonic staking_skey staking_vkey base_addr reward_addr
     base_addr_candidate reward_addr_candidate : string) (s8 : state W) : Prop :=
  exists s1 root_key s2 payment_skey payment_vkey s3 s4 s5 s6 s7,
    get_or_create_shared_mnemonic self st = (Ok mnemonic, s1) /\
    mnemonic_to_root_key self mnemonic s1 = (Ok root_key, s2) /\
    derive_payment_key self root_key purpose s2
      = (Ok (payment_skey, payment_vkey), s3) /\
    derive_staking_key self root_key s3 = (Ok (staking_skey, staking_vkey), s4) /\
    generate_payment_address self payment_vkey staking_vkey network s4
      = (Ok base_addr, s5) /\
    generate_staking_address self staking_vkey network s5 = (Ok reward_addr, s6) /\
    generate_address_candidate self payment_vkey staking_vkey network s6
      = (Ok base_addr_candidate, s7) /\
    generate_staking_address self staking_vkey network s7
      = (Ok reward_addr_candidate, s8).

(** [fails_within keep P m]: when [m] raises, it has written only files in
    [keep] and made only calls that satisfy [P]. *)
Definition fails_within {W : Type} (keep : path -> Prop) (P : call -> Prop)
  {A : Type} (m : M W A) : Prop :=
  forall st e st', m st = (Raise e, st') -> step keep P st st'.

(** a call of [cardano-cli] that is given nothing on standard input *)
Definition is_cli_call (self : CardanoWalletGenerator) (c : call) : Prop :=
  call_input c = None /\
  exists t args, tools self !! "cardano-cli" = Some t /\ call_cmd c = t :: args.

(** the files of the directory [home_dir / purpose] *)
Definition in_wallet_dir (self : CardanoWalletGenerator) (purpose : string)
  (p : path) : Prop :=
  exists name, p = joinpath (joinpath (home_dir self) purpose) name.

(** the state [st] with other files *)
Definition set_fs {W : Type} (fs : gmap path string) (st : state W) : state W :=
  State (st_world st) fs (st_tmp st) (st_trace st).

(** [fs_blind m]: [m] neither reads nor writes the files of [st_fs] *)
Definition fs_blind {W A : Type} (m : M W A) : Prop :=
  forall st fs,
    m (set_fs fs st) = (fst (m st), set_fs fs (snd (m st))).

(** the signing key of the payment role in the outcome of a run *)
Definition payment_skey_of (r : result (gmap string string)) : option string :=
  match r with
  | Ok wallet_data => wallet_data !! "payment_skey"
  | Raise _ => None
  end.

(** ** Further methods and vocabulary *)

Section Credentials.
Context {W : Type} `{Oracle W}.

Definition generate_payment_credential (self : CardanoWalletGenerator)
  (payment_vkey : string) : M W string :=
  t ← tool self "cardano-address";
  let cmd := [t; "key"; "hash"] in
  result ← run_cardano_address cmd payment_vkey;
  checked_stdout "Error generating payment credential: " result.

Definition generate_stake_credential (self : CardanoWalletGenerator)
  (stake_vkey : string) : M W string :=
  t ← tool self "cardano-address";
  let cmd := [t; "key"; "hash"] in
  result ← run_cardano_address cmd stake_vkey;
  checked_stdout "Error generating stake credential: " result.

End Credentials.

(** no call at all *)
Definition no_call : call -> Prop := fun _ => False.

(** [cardano-address] answers a command line and an input the same way at
    every time *)
Definition deterministic_address_tool (W : Type) `{Oracle W} : Prop :=
  forall cmd input (w w' : W),
    fst (cardano_address cmd input w) = fst (cardano_address cmd input w').

(** [result_blind m]: the outcome of [m] is the same in every state *)
Definition result_blind {W A : Type} (m : M W A) : Prop :=
  forall st st' : state W, fst (m st) = fst (m st').

(** the files of [save_wallet_files]: the suffix of the file name and the
    key of the wallet data written into it *)
Definition wallet_file_keys : list (string * string) :=
  [(".base_addr", "base_addr");
   (".base_addr.candidate", "base_addr_candidate");
   (".reward_addr", "reward_addr");
   (".reward_addr.candidate", "reward_addr_candidate");
   (".staking_skey", "staking_skey");
   (".staking_vkey", "staking_vkey");
   (".mnemonic.txt", "mnemonic")].

(** a path argument of the import flow that names an existing file *)
Definition usable {W : Type} (st : state W) (key_path : option path) : Prop :=
  match key_path with
  | Some p => is_Some (st_fs st !! p)
  | None => False
  end.

(** A [cardano-address] without memory: the answer depends on the command
    line only.  The other collaborators are those of [Sim]. *)
Module Det.

Definition address_tool (cmd : list string) (input : string) (n : nat)
  : result CompletedProcess * nat :=
  match cmd with
  | _ :: "address" :: kind :: _ => (Ok (Completed 0 (Sim.address_of kind) ""), S n)
  | _ :: "key" :: kind :: _ => (Ok (Completed 0 ("xsk_" +:+ kind) ""), S n)
  | _ => (Ok (Completed 1 "" "usage"), S n)
  end.

Definition oracle : Oracle nat := {|
  cardano_address := address_tool;
  cardano_cli := Sim.cli_tool;
  mnemo_generate := fun n => (Sim.phrase, S n);
  mkdtemp := fun n => ("/tmp/tmp" +:+ Sim.digits n, S n);
  json_loads := fun content => Some {["cborHex" := content]} |}.

End Det.

(** the keys that [generate_keys_with_cardano_cli] stores in [wallet_data],
    in the order of the source *)
Definition cli_wallet_keys : list string :=
  ["payment_vkey"; "payment_skey"; "staking_vkey"; "staking_skey";
   "payment_cred"; "stake_cred"; "base_addr"; "payment_addr"; "reward_addr";
   "stake_cert"; "cold_vkey"; "cold_skey"; "hot_vkey"; "hot_skey";
   "drep_vkey"; "drep_skey"; "ms_payment_vkey"; "ms_payment_skey";
   "ms_stake_vkey"; "ms_stake_skey"; "ms_drep_vkey"; "ms_drep_skey";
   "ms_payment_cred"; "ms_stake_cred"; "delegation_cert"].

(** the files that [save_complete_wallet_files] opens before the file of the
    recovery phrase, in the order of the source *)
Definition complete_file_names : list string :=
  ["base.addr"; "payment.addr"; "reward.addr"; "payment.skey"; "payment.vkey";
   "stake.skey"; "stake.vkey"; "cc-cold.skey"; "cc-cold.vkey"; "cc-hot.skey";
   "cc-hot.vkey"; "drep.skey"; "drep.vkey"; "ms_payment.skey";
   "ms_payment.vkey"; "ms_stake.skey"; "ms_stake.vkey"; "ms_drep.skey";
   "ms_drep.vkey"; "payment.cred"; "stake.cred"; "ms_payment.cred";
   "ms_stake.cred"; "stake.cert"; "delegation.cert"].

(** the file [p] exists in [st] *)
Definition exists_in {W : Type} (st : state W) (p : path) : Prop :=
  is_Some (st_fs st !! p).

(** * Properties *)

(** ** Facts about the built-ins *)

Lemma len_str (l : list ascii) : Py.len (Py.str l) = List.length l.
Proof. induction l as [| c l IH]; simpl; [reflexivity | now rewrite <- IH]. Qed.

Lemma chars_str (l : list ascii) : Py.chars (Py.str l) = l.
Proof. apply list_ascii_of_string_of_list_ascii. Qed.

Lemma str_chars (s : string) : Py.str (Py.chars s) = s.
Proof. apply string_of_list_ascii_of_string. Qed.

Lemma len_chars (s : string) : List.length (Py.chars s) = Py.len s.
Proof. now rewrite <- len_str, str_chars. Qed.

Lemma len_lower (s : string) : Py.len (Py.lower s) = Py.len s.
Proof. unfold Py.lower. now rewrite len_str, length_map, len_chars. Qed.

(** ** Address validation *)

(** A successful [bech32_decode] has verified the checksum of the data part
    and returns the data part without its six checksum characters. *)
Lemma bech32_decode_checksum (bech hrp : string) (payload : list Z) :
  bech32.bech32_decode bech = (Some hrp, Some payload) ->
  exists data,
    bech32.bech32_verify_checksum hrp data = true /\
    payload = List.firstn (List.length data - 6) data /\
    (Py.len bech <= 90)%nat.
Proof.
  unfold bech32.bech32_decode.
  destruct (existsb _ _ || _); [discriminate |].
  destruct (Py.rfind _ _) as [pos |]; [| discriminate].
  destruct ((pos <? 1)%nat || _ || (90 <? Py.len (Py.lower bech))%nat) eqn:Hpos;
    [discriminate |].
  destruct (negb (forallb _ _)); [discriminate |].
  destruct (negb (bech32.bech32_verify_checksum _ _)) eqn:Hchk; [discriminate |].
  intros Heq. inversion Heq; subst. eexists. split.
  - apply negb_false_iff in Hchk. exact Hchk.
  - split; [reflexivity |].
    apply orb_false_iff in Hpos as [_ Hlen]. apply Nat.ltb_ge in Hlen.
    now rewrite len_lower in Hlen.
Qed.

(** Text longer than 90 characters is never accepted: the decoder of the
    [bech32] package enforces the length limit of BIP-173. *)
Lemma validate_address_length (address : string) :
  validate_address address = true -> (Py.len address <= 90)%nat.
Proof.
  unfold validate_address.
  destruct (bech32.bech32_decode address) as [[hrp |] [payload |]] eqn:Hd;
    try discriminate.
  intros _. apply bech32_decode_checksum in Hd as (data & _ & _ & Hlen). exact Hlen.
Qed.

(** Every proper prefix of a valid stake address is rejected. *)
Example validate_address_truncated (n : nat) :
  (n < Py.len Sim.stake_address)%nat ->
  validate_address Sim.stake_address = true /\
  validate_address (Py.take n Sim.stake_address) = false.
Proof.
  intros Hn. split; [vm_compute; reflexivity |].
  do 16 (destruct n as [| n]; [vm_compute; reflexivity |]).
  vm_compute in Hn. lia.
Qed.


(** ** Credential hashes *)

Lemma len_hex (b : list Z) : Py.len (Py.hex b) = (2 * List.length b)%nat.
Proof.
  unfold Py.hex. rewrite len_str.
  induction b as [| x b IH]; simpl; [reflexivity | rewrite IH; lia].
Qed.

Lemma sha256_length (msg : list Z) : List.length (hashlib.sha256 msg) = 32%nat.
Proof.
  unfold hashlib.sha256.
  generalize (fold_left hashlib.compress
                (hashlib.blocks (S (List.length (hashlib.pad msg))) (hashlib.pad msg))
                hashlib.H0).
  intros s. reflexivity.
Qed.

(** The fallback value has 56 characters. *)
Lemma sha256_fallback_len (key_data : string) :
  Py.len (sha256_fallback key_data) = 56%nat.
Proof.
  unfold sha256_fallback. rewrite len_hex, length_firstn, sha256_length.
  reflexivity.
Qed.

(** Since [bech32.decode] returns a tuple on every path, the first round of
    the prefix loop ends the function: an input that is not 56 characters
    long yields the payload decoded under the prefix [addr_vkh], cut to 28
    bytes, or else the SHA-256 fallback.  The branches for CBOR hex and for
    raw hex are never reached. *)
Lemma credential_hash_cases (key_data : string) :
  Py.len key_data <> 56%nat ->
  generate_proper_credential_hash key_data =
  match bech32.decode "addr_vkh" key_data with
  | (_, Some witprog) =>
      match bytes (Some witprog) with
      | Ok key_bytes => Py.hex (List.firstn 28 key_bytes)
      | Raise _ => sha256_fallback key_data
      end
  | (_, None) => sha256_fallback key_data
  end.
Proof.
  intros Hlen. unfold generate_proper_credential_hash, credential_hash_try.
  apply Nat.eqb_neq in Hlen. rewrite Hlen.
  unfold vkey_prefixes, credential_prefix_loop, tuple_is_not_None.
  destruct (bech32.decode "addr_vkh" key_data) as [witver [witprog |]]; simpl snd.
  - destruct (bytes (Some witprog)); reflexivity.
  - reflexivity.
Qed.

(** An input of 56 characters is returned as it is. *)
Lemma credential_hash_56 (key_data : string) :
  Py.len key_data = 56%nat -> generate_proper_credential_hash key_data = key_data.
Proof.
  intros Hlen. unfold generate_proper_credential_hash, credential_hash_try.
  apply Nat.eqb_eq in Hlen. now rewrite Hlen.
Qed.

(** C4 (the code departs from the claim).  The Bech32 text
    [addr_vkh1pqqqspajcz5] decodes under the prefix [addr_vkh] to the two
    bytes 00 01; [generate_proper_credential_hash] returns their hex form,
    4 characters and not 56. *)
Theorem credential_hash_short_payload :
  bech32.decode "addr_vkh" "addr_vkh1pqqqspajcz5" = (Some 1, Some [0; 1]) /\
  generate_proper_credential_hash "addr_vkh1pqqqspajcz5" = "0001" /\
  Py.len (generate_proper_credential_hash "addr_vkh1pqqqspajcz5") <> 56%nat.
Proof. vm_compute. repeat split; discriminate. Qed.

(** C5 (the code departs from the claim).  A CBOR-tagged key, [5820] followed
    by 32 bytes, gets the SHA-256 fallback and not the first 28 bytes of its
    payload; a raw hex string of 60 characters gets the fallback and not
    its first 56 characters. *)
Theorem credential_hash_skips_cbor_and_raw_hex :
  let cbor :=
    "5820000102030405060708090a0b0c0d0e0f101112131415161718191a1b1c1d1e1f" in
  let raw :=
    "000102030405060708090a0b0c0d0e0f101112131415161718191a1b1c1d" in
  Py.startswith "58" cbor = true /\
  generate_proper_credential_hash cbor = sha256_fallback cbor /\
  generate_proper_credential_hash cbor <> Py.take 56 (Py.drop 4 cbor) /\
  (56 <= Py.len raw)%nat /\
  generate_proper_credential_hash raw = sha256_fallback raw /\
  generate_proper_credential_hash raw <> Py.take 56 raw.
Proof.
  vm_compute. repeat split; try discriminate.
  apply Nat.leb_le. reflexivity.
Qed.

(** ** Reasoning about computations in [M] *)

Section Reasoning.
Context {W : Type}.

Lemma bind_ok {A B : Type} (m : M W A) (f : A -> M W B) st a s :
  m st = (Ok a, s) -> (m ≫= f) st = f a s.
Proof. intros Hm. unfold mbind, M_bind. now rewrite Hm. Qed.

Lemma bind_raise {A B : Type} (m : M W A) (f : A -> M W B) st e s :
  m st = (Raise e, s) -> (m ≫= f) st = (Raise e, s).
Proof. intros Hm. unfold mbind, M_bind. now rewrite Hm. Qed.

Lemma bind_inv_ok {A B : Type} (m : M W A) (f : A -> M W B) st b st' :
  (m ≫= f) st = (Ok b, st') ->
  exists a s, m st = (Ok a, s) /\ f a s = (Ok b, st').
Proof.
  unfold mbind, M_bind. destruct (m st) as [[a | e] s].
  - intros Hf. exists a, s. now split.
  - discriminate.
Qed.

Lemma bind_inv_raise {A B : Type} (m : M W A) (f : A -> M W B) st e st' :
  (m ≫= f) st = (Raise e, st') ->
  m st = (Raise e, st') \/
  exists a s, m st = (Ok a, s) /\ f a s = (Raise e, st').
Proof.
  unfold mbind, M_bind. destruct (m st) as [[a | e'] s].
  - intros Hf. right. exists a, s. now split.
  - intros Hf. left. inversion Hf; subst. reflexivity.
Qed.

Section Touches.
Variable keep : path -> Prop.
Variable P : call -> Prop.

Lemma step_refl (st : state W) : step keep P st st.
Proof.
  split; [reflexivity |]. exists []. now rewrite app_nil_r.
Qed.

Lemma step_trans (st1 st2 st3 : state W) :
  step keep P st1 st2 -> step keep P st2 st3 -> step keep P st1 st3.
Proof.
  intros [Hf1 (c1 & Ht1 & HP1)] [Hf2 (c2 & Ht2 & HP2)]. split.
  - intros p Hp. now rewrite Hf2, Hf1.
  - exists (c1 ++ c2). split.
    + now rewrite Ht2, Ht1, <- app_assoc.
    + apply Forall_app. now split.
Qed.

Lemma touches_pure {A : Type} (m : M W A) :
  (forall st, snd (m st) = st) -> touches keep P m.
Proof. intros Hm st. rewrite Hm. apply step_refl. Qed.

Lemma touches_mret {A : Type} (a : A) : touches keep P (mret a : M W A).
Proof. now apply touches_pure. Qed.

Lemma touches_raise {A : Type} (e : exn) : touches keep P (raise e : M W A).
Proof. now apply touches_pure. Qed.

Lemma touches_bind {A B : Type} (m : M W A) (f : A -> M W B) :
  touches keep P m -> (forall a, touches keep P (f a)) ->
  touches keep P (m ≫= f).
Proof.
  intros Hm Hf st. unfold mbind, M_bind.
  specialize (Hm st). destruct (m st) as [[a | e] s]; simpl in *.
  - eapply step_trans; [exact Hm | apply Hf].
  - exact Hm.
Qed.

Lemma touches_getitem (d : gmap string string) (k : string) :
  touches keep P (getitem d k : M W string).
Proof. unfold getitem. destruct (d !! k); now apply touches_pure. Qed.

Lemma touches_exists (p : path) : touches keep P (exists_ p : M W bool).
Proof. now apply touches_pure. Qed.

Lemma touches_read_text (p : path) : touches keep P (read_text p : M W string).
Proof.
  apply touches_pure. intros st. unfold read_text. now destruct (st_fs st !! p).
Qed.

Lemma touches_read_tmp (name : string) :
  touches keep P (read_tmp name : M W string).
Proof.
  apply touches_pure. intros st. unfold read_tmp. now destruct (st_tmp st !! name).
Qed.

Lemma touches_write_text (p : path) (s : string) :
  keep p -> touches keep P (write_text p s : M W unit).
Proof.
  intros Hp st. split; simpl.
  - intros q Hq. apply lookup_insert_ne. intros ->. now apply Hq.
  - exists []. now rewrite app_nil_r.
Qed.

Lemma touches_write_item (p : path) (d : gmap string string) (k : string) :
  keep p -> touches keep P (write_item p d k : M W unit).
Proof.
  intros Hp. unfold write_item.
  apply touches_bind; [now apply touches_write_text |]. intros _.
  apply touches_bind; [apply touches_getitem |]. intros v.
  now apply touches_write_text.
Qed.

End Touches.

(** a computation that touches less touches more *)
Lemma touches_weaken (keep keep' : path -> Prop) (P P' : call -> Prop)
  {A : Type} (m : M W A) :
  (forall p, keep p -> keep' p) -> (forall c, P c -> P' c) ->
  touches keep P m -> touches keep' P' m.
Proof.
  intros Hk HP Hm st. destruct (Hm st) as [Hf (calls & Ht & Hc)]. split.
  - intros p Hp. apply Hf. intros Hkp. apply Hp, Hk, Hkp.
  - exists calls. split; [exact Ht |]. eapply Forall_impl; [exact Hc | exact HP].
Qed.

End Reasoning.

Create HintDb touches.
#[global] Hint Resolve touches_mret touches_raise touches_getitem
  touches_exists touches_read_text touches_read_tmp : touches.

(** one step through a computation built from [≫=], [if] and [match] *)
Ltac touches_step :=
  match goal with
  | |- touches _ _ (mbind _ _) => apply touches_bind; [| intros]
  | |- touches _ _ (if ?b then _ else _) => destruct b
  | |- touches _ _ (match ?x with _ => _ end) => destruct x
  | |- touches _ _ _ => solve [eauto with touches]
  end.
Ltac touches_auto := repeat touches_step.

(** ** What the methods write and which programs they call *)

Section WalletFacts.
Context {W : Type} `{Oracle W}.
Variable keep : path -> Prop.
Variable P : call -> Prop.

Lemma touches_tool self name : touches keep P (tool self name : M W string).
Proof. apply touches_getitem. Qed.

Lemma touches_run_cardano_address cmd input :
  P (Call cmd (Some input)) -> touches keep P (run_cardano_address cmd input).
Proof.
  intros HP st. unfold run_cardano_address.
  destruct (cardano_address cmd input (st_world st)) as [r w]. split; simpl.
  - reflexivity.
  - exists [Call cmd (Some input)]. split; [reflexivity |].
    now apply Forall_cons.
Qed.

Lemma touches_run_cardano_cli cmd :
  P (Call cmd None) -> touches keep P (run_cardano_cli cmd).
Proof.
  intros HP st. unfold run_cardano_cli.
  destruct (cardano_cli cmd (st_tmp st) (st_world st)) as [[r tmp] w].
  split; simpl.
  - reflexivity.
  - exists [Call cmd None]. split; [reflexivity |]. now apply Forall_cons.
Qed.

Lemma touches_checked_stdout msg result :
  touches keep P (checked_stdout msg result : M W string).
Proof. unfold checked_stdout. touches_auto. Qed.

Lemma touches_check_returncode msg result :
  touches keep P (check_returncode msg result : M W unit).
Proof. unfold check_returncode. touches_auto. Qed.

Lemma touches_loads content :
  touches keep P (loads content : M W (gmap string string)).
Proof. unfold loads. touches_auto. Qed.

End WalletFacts.

#[global] Hint Resolve touches_tool touches_checked_stdout
  touches_check_returncode touches_loads : touches.

Section AddressFacts.
Context {W : Type} `{Oracle W}.
Variable keep : path -> Prop.

Lemma touches_any_run_cardano_address cmd input :
  touches keep any_call (run_cardano_address cmd input).
Proof. now apply touches_run_cardano_address. Qed.
Hint Resolve touches_any_run_cardano_address : touches.

Lemma touches_get_or_create_shared_mnemonic self :
  keep (shared_mnemonic_file self) ->
  touches keep any_call (get_or_create_shared_mnemonic self).
Proof.
  intros Hk. unfold get_or_create_shared_mnemonic.
  touches_auto.
  - intros st. destruct (mnemo_generate (st_world st)) as [m w].
    split; simpl; [reflexivity |]. exists []. now rewrite app_nil_r.
  - now apply touches_write_text.
Qed.

Lemma touches_mnemonic_to_root_key self mnemonic :
  touches keep any_call (mnemonic_to_root_key self mnemonic).
Proof. unfold mnemonic_to_root_key. touches_auto. Qed.

Lemma touches_derive_key_pair self derivation_path msg1 msg2 root_key :
  touches keep any_call
    (derive_key_pair self derivation_path msg1 msg2 root_key).
Proof. unfold derive_key_pair. touches_auto. Qed.
Hint Resolve touches_derive_key_pair : touches.

Lemma touches_derive_role self role root_key purpose :
  touches keep any_call (derive_role self role root_key purpose).
Proof. destruct role; simpl; apply touches_derive_key_pair. Qed.

Lemma touches_generate_payment_address self payment_vkey staking_vkey network :
  touches keep any_call
    (generate_payment_address self payment_vkey staking_vkey network).
Proof. unfold generate_payment_address. touches_auto. Qed.

Lemma touches_generate_staking_address self staking_vkey network :
  touches keep any_call (generate_staking_address self staking_vkey network).
Proof. unfold generate_staking_address. touches_auto. Qed.

Lemma touches_generate_address_candidate self payment_vkey staking_vkey network :
  touches keep any_call
    (generate_address_candidate self payment_vkey staking_vkey network).
Proof. unfold generate_address_candidate. touches_auto. Qed.

Lemma touches_generate_payment_only_address self payment_vkey network :
  touches keep any_call (generate_payment_only_address self payment_vkey network).
Proof. unfold generate_payment_only_address. touches_auto. Qed.

(** The trace after [tool; run; rest]: the call that [run] makes comes
    first. *)
Lemma first_call {A : Type} self cmd input (k : CompletedProcess -> M W A)
  (f : string -> M W A) t st :
  tools self !! "cardano-address" = Some t ->
  (forall r, touches any_file any_call (k r)) ->
  f t = (run_cardano_address (cmd t) input ≫= k) ->
  exists rest,
    st_trace (snd ((tool self "cardano-address" ≫= f) st)) =
    st_trace st ++ Call (cmd t) (Some input) :: rest.
Proof.
  intros Ht Hk Hf.
  rewrite (bind_ok _ _ st t st); [| unfold tool, getitem; now rewrite Ht].
  rewrite Hf. unfold mbind at 1, M_bind at 1, run_cardano_address.
  destruct (cardano_address (cmd t) input (st_world st)) as [[r | e] w].
  - match goal with |- context [k r ?s] =>
      destruct (Hk r s) as [_ (calls & Htr & _)]; rewrite Htr end.
    simpl. exists calls. now rewrite <- app_assoc.
  - simpl. exists []. reflexivity.
Qed.

End AddressFacts.

#[global] Hint Resolve touches_any_run_cardano_address
  touches_derive_key_pair touches_generate_payment_address
  touches_generate_staking_address touches_generate_address_candidate
  touches_mnemonic_to_root_key : touches.

(** ** Network tags *)

Lemma network_tag_values :
  network_tag "mainnet" = "1" /\ network_tag "testnet" = "0" /\
  network_tag "preview" = "0" /\ network_tag "preprod" = "0".
Proof. repeat split. Qed.

Lemma network_tag_unknown (network : string) :
  network ∉ known_networks -> network_tag network = "1".
Proof.
  intros Hn. unfold known_networks in Hn.
  rewrite !not_elem_of_cons in Hn. destruct Hn as (H1 & H2 & H3 & H4 & _).
  unfold network_tag, network_tags.
  rewrite !lookup_insert_ne by congruence. now rewrite lookup_empty.
Qed.

Section NetworkTagCalls.
Context {W : Type} `{Oracle W}.

Lemma payment_address_first_call self payment_vkey staking_vkey network t
  (st : state W) :
  tools self !! "cardano-address" = Some t ->
  exists rest,
    st_trace (snd (generate_payment_address self payment_vkey staking_vkey
                     network st)) =
    st_trace st
    ++ Call [t; "address"; "payment"; "--network-tag"; network_tag network]
            (Some payment_vkey) :: rest.
Proof.
  intros Ht. unfold generate_payment_address.
  eapply (first_call self
            (fun t => [t; "address"; "payment"; "--network-tag"; network_tag network]));
    [exact Ht | | reflexivity].
  intros r. cbv beta. touches_auto.
Qed.

Lemma address_candidate_first_call self payment_vkey staking_vkey network t
  (st : state W) :
  tools self !! "cardano-address" = Some t ->
  exists rest,
    st_trace (snd (generate_address_candidate self payment_vkey staking_vkey
                     network st)) =
    st_trace st
    ++ Call [t; "address"; "payment"; "--network-tag"; network_tag network]
            (Some payment_vkey) :: rest.
Proof.
  intros Ht. unfold generate_address_candidate.
  eapply (first_call self
            (fun t => [t; "address"; "payment"; "--network-tag"; network_tag network]));
    [exact Ht | | reflexivity].
  intros r. cbv beta. touches_auto.
Qed.

Lemma staking_address_call self staking_vkey network t (st : state W) :
  tools self !! "cardano-address" = Some t ->
  st_trace (snd (generate_staking_address self staking_vkey network st)) =
  st_trace st
  ++ [Call [t; "address"; "stake"; "--network-tag"; network_tag network]
           (Some staking_vkey)].
Proof.
  intros Ht. unfold generate_staking_address.
  rewrite (bind_ok _ _ st t st); [| unfold tool, getitem; now rewrite Ht].
  unfold mbind, M_bind, run_cardano_address.
  destruct (cardano_address _ _ _) as [[r | e] w]; [| reflexivity].
  unfold checked_stdout. destruct (negb _); reflexivity.
Qed.

Lemma payment_only_address_call self payment_vkey network t (st : state W) :
  tools self !! "cardano-address" = Some t ->
  st_trace (snd (generate_payment_only_address self payment_vkey network st)) =
  st_trace st
  ++ [Call [t; "address"; "payment"; "--network-tag"; network_tag network]
           (Some payment_vkey)].
Proof.
  intros Ht. unfold generate_payment_only_address.
  rewrite (bind_ok _ _ st t st); [| unfold tool, getitem; now rewrite Ht].
  unfold mbind, M_bind, run_cardano_address.
  destruct (cardano_address _ _ _) as [[r | e] w]; [| reflexivity].
  unfold checked_stdout. destruct (negb _); reflexivity.
Qed.

(** C7. For a network among mainnet, testnet, preview and preprod the
    network tag is 1 for mainnet and 0 for the three others, and this tag is
    the [--network-tag] argument of the payment-address and stake-address
    commands that [generate_payment_address], [generate_address_candidate]
    and [generate_staking_address] run. *)
Theorem known_network_tag self payment_vkey staking_vkey network t
  (st : state W) :
  tools self !! "cardano-address" = Some t ->
  network ∈ known_networks ->
  let tag := if String.eqb network "mainnet" then "1" else "0" in
  network_tag network = tag /\
  (exists rest,
     st_trace (snd (generate_payment_address self payment_vkey staking_vkey
                      network st)) =
     st_trace st
     ++ Call [t; "address"; "payment"; "--network-tag"; tag]
             (Some payment_vkey) :: rest) /\
  (exists rest,
     st_trace (snd (generate_address_candidate self payment_vkey staking_vkey
                      network st)) =
     st_trace st
     ++ Call [t; "address"; "payment"; "--network-tag"; tag]
             (Some payment_vkey) :: rest) /\
  st_trace (snd (generate_staking_address self staking_vkey network st)) =
  st_trace st
  ++ [Call [t; "address"; "stake"; "--network-tag"; tag] (Some staking_vkey)].
Proof.
  intros Ht Hn tag.
  assert (Htag : network_tag network = tag).
  { unfold known_networks in Hn. rewrite !elem_of_cons in Hn.
    destruct Hn as [-> | [-> | [-> | [-> | Hn]]]]; try reflexivity.
    now apply elem_of_nil in Hn. }
  rewrite <- Htag. split; [reflexivity |].
  split; [now apply payment_address_first_call |].
  split; [now apply address_candidate_first_call |].
  now apply staking_address_call.
Qed.

(** C10. A network name outside mainnet, testnet, preview and preprod gets
    the tag 1: the address methods run exactly as they do for mainnet, and
    the [--network-tag] argument of their commands is 1. *)
Theorem unknown_network_is_mainnet self payment_vkey staking_vkey network t
  (st : state W) :
  tools self !! "cardano-address" = Some t ->
  network ∉ known_networks ->
  network_tag network = "1" /\
  generate_payment_address self payment_vkey staking_vkey network st =
    generate_payment_address self payment_vkey staking_vkey "mainnet" st /\
  generate_payment_only_address self payment_vkey network st =
    generate_payment_only_address self payment_vkey "mainnet" st /\
  generate_staking_address self staking_vkey network st =
    generate_staking_address self staking_vkey "mainnet" st /\
  (exists rest,
     st_trace (snd (generate_payment_address self payment_vkey staking_vkey
                      network st)) =
     st_trace st
     ++ Call [t; "address"; "payment"; "--network-tag"; "1"]
             (Some payment_vkey) :: rest) /\
  st_trace (snd (generate_payment_only_address self payment_vkey network st)) =
  st_trace st
  ++ [Call [t; "address"; "payment"; "--network-tag"; "1"] (Some payment_vkey)].
Proof.
  intros Ht Hn. pose proof (network_tag_unknown network Hn) as Htag.
  split; [exact Htag |].
  split; [unfold generate_payment_address; now rewrite Htag |].
  split; [unfold generate_payment_only_address; now rewrite Htag |].
  split; [unfold generate_staking_address; now rewrite Htag |].
  rewrite <- Htag.
  split; [now apply payment_address_first_call |].
  now apply payment_only_address_call.
Qed.

(** ** Derivation paths *)

(** C8. Whatever the generator, the root key, the purpose and the state,
    the first command of the method that derives the key pair of a role is
    [key child <path>] on the root key, with the path that the table of the
    specification gives for the role. *)
Theorem derivation_path_fixed self role root_key purpose t (st : state W) :
  tools self !! "cardano-address" = Some t ->
  exists rest,
    st_trace (snd (derive_role self role root_key purpose st)) =
    st_trace st ++ Call [t; "key"; "child"; spec_path role] (Some root_key) :: rest.
Proof.
  intros Ht.
  destruct role; simpl;
    unfold derive_payment_key, derive_staking_key, derive_cold_key,
      derive_hot_key, derive_drep_key, derive_ms_payment_key,
      derive_ms_stake_key, derive_ms_drep_key, derive_key_pair;
    (eapply (first_call self (fun t => [t; "key"; "child"; _]));
     [exact Ht | | reflexivity]);
    intros r; cbv beta; touches_auto.
Qed.

End NetworkTagCalls.

Lemma known_network_tag_witness :
  tools Sim.generator !! "cardano-address" = Some "/bin/cardano-address" /\
("preview" ∈ known_networks) /\
  network_tag "preview" = "0" /\
  st_trace (snd (generate_staking_address (H := Sim.oracle 100) Sim.generator
                   "stake_vk" "preview" Sim.start)) =
  [Call ["/bin/cardano-address"; "address"; "stake"; "--network-tag"; "0"]
        (Some "stake_vk")].
Proof.
  assert (Ht : tools Sim.generator !! "cardano-address"
               = Some "/bin/cardano-address") by reflexivity.
  assert (Hn : "preview" ∈ known_networks)
    by (apply list_elem_of_In; simpl; tauto).
  split; [exact Ht |]. split; [exact Hn |].
  destruct (known_network_tag (H := Sim.oracle 100) Sim.generator "payment_vk"
              "stake_vk" "preview" "/bin/cardano-address" Sim.start Ht Hn)
    as (Htag & _ & _ & Hcall).
  split; [exact Htag | exact Hcall].
Defined.

Lemma unknown_network_is_mainnet_witness :
  tools Sim.generator !! "cardano-address" = Some "/bin/cardano-address" /\
("mainet" ∉ known_networks) /\
  network_tag "mainet" = "1" /\
  st_trace (snd (generate_payment_only_address (H := Sim.oracle 100)
                   Sim.generator "payment_vk" "mainet" Sim.start)) =
  [Call ["/bin/cardano-address"; "address"; "payment"; "--network-tag"; "1"]
        (Some "payment_vk")].
Proof.
  assert (Ht : tools Sim.generator !! "cardano-address"
               = Some "/bin/cardano-address") by reflexivity.
  assert (Hn : "mainet" ∉ known_networks)
    by (intros Hin; apply list_elem_of_In in Hin; simpl in Hin;
        intuition discriminate).
  split; [exact Ht |]. split; [exact Hn |].
  destruct (unknown_network_is_mainnet (H := Sim.oracle 100) Sim.generator
              "payment_vk" "stake_vk" "mainet" "/bin/cardano-address" Sim.start
              Ht Hn)
    as (Htag & _ & _ & _ & _ & Hcall).
  split; [exact Htag | exact Hcall].
Defined.

Lemma derivation_path_fixed_witness :
  tools Sim.generator !! "cardano-address" = Some "/bin/cardano-address" /\
  exists rest,
    st_trace (snd (derive_role (H := Sim.oracle 100) Sim.generator
                     MultisigDRep "root_xsk" "pool" Sim.start)) =
    Call ["/bin/cardano-address"; "key"; "child"; "1852H/1815H/0H/6/0"]
         (Some "root_xsk") :: rest.
Proof.
  assert (Ht : tools Sim.generator !! "cardano-address"
               = Some "/bin/cardano-address") by reflexivity.
  split; [exact Ht |].
  exact (derivation_path_fixed (H := Sim.oracle 100) Sim.generator MultisigDRep
           "root_xsk" "pool" "/bin/cardano-address" Sim.start Ht).
Defined.

(** ** The steps of [generate_wallet] *)

Section GenerateWallet.
Context {W : Type} `{Oracle W}.

(** [generate_wallet] is its eight computations followed by
    [verify_and_save]. *)
Lemma generate_wallet_unfold self purpose network :
  generate_wallet self purpose network =
  (get_or_create_shared_mnemonic self ≫= fun mnemonic =>
   mnemonic_to_root_key self mnemonic ≫= fun root_key =>
   derive_payment_key self root_key purpose ≫= fun '(payment_skey, payment_vkey) =>
   derive_staking_key self root_key ≫= fun '(staking_skey, staking_vkey) =>
   generate_payment_address self payment_vkey staking_vkey network ≫= fun base_addr =>
   generate_staking_address self staking_vkey network ≫= fun reward_addr =>
   generate_address_candidate self payment_vkey staking_vkey network
     ≫= fun base_addr_candidate =>
   generate_staking_address self staking_vkey network ≫= fun reward_addr_candidate =>
   verify_and_save self purpose mnemonic staking_skey staking_vkey base_addr
     reward_addr base_addr_candidate reward_addr_candidate).
Proof. reflexivity. Qed.

Lemma generate_wallet_computed self purpose network (st : state W)
  mnemonic staking_skey staking_vkey base_addr reward_addr
  base_addr_candidate reward_addr_candidate s8 :
  computed self purpose network st mnemonic staking_skey staking_vkey
    base_addr reward_addr base_addr_candidate reward_addr_candidate s8 ->
  generate_wallet self purpose network st =
  verify_and_save self purpose mnemonic staking_skey staking_vkey base_addr
    reward_addr base_addr_candidate reward_addr_candidate s8.
Proof.
  intros (s1 & root_key & s2 & payment_skey & payment_vkey & s3 & s4 & s5 & s6
          & s7 & H1 & H2 & H3 & H4 & H5 & H6 & H7 & H8).
  rewrite generate_wallet_unfold.
  rewrite (bind_ok _ _ _ _ _ H1), (bind_ok _ _ _ _ _ H2),
    (bind_ok _ _ _ _ _ H3), (bind_ok _ _ _ _ _ H4), (bind_ok _ _ _ _ _ H5),
    (bind_ok _ _ _ _ _ H6), (bind_ok _ _ _ _ _ H7), (bind_ok _ _ _ _ _ H8).
  reflexivity.
Qed.

Lemma generate_wallet_ok_inv self purpose network (st : state W) wd st' :
  generate_wallet self purpose network st = (Ok wd, st') ->
  exists mnemonic staking_skey staking_vkey base_addr reward_addr
         base_addr_candidate reward_addr_candidate s8,
    computed self purpose network st mnemonic staking_skey staking_vkey
      base_addr reward_addr base_addr_candidate reward_addr_candidate s8 /\
    verify_and_save self purpose mnemonic staking_skey staking_vkey base_addr
      reward_addr base_addr_candidate reward_addr_candidate s8 = (Ok wd, st').
Proof.
  rewrite generate_wallet_unfold. intros Hg.
  apply bind_inv_ok in Hg as (mnemonic & s1 & H1 & Hg).
  apply bind_inv_ok in Hg as (root_key & s2 & H2 & Hg).
  apply bind_inv_ok in Hg as ([payment_skey payment_vkey] & s3 & H3 & Hg).
  apply bind_inv_ok in Hg as ([staking_skey staking_vkey] & s4 & H4 & Hg).
  apply bind_inv_ok in Hg as (base_addr & s5 & H5 & Hg).
  apply bind_inv_ok in Hg as (reward_addr & s6 & H6 & Hg).
  apply bind_inv_ok in Hg as (base_addr_candidate & s7 & H7 & Hg).
  apply bind_inv_ok in Hg as (reward_addr_candidate & s8 & H8 & Hg).
  exists mnemonic, staking_skey, staking_vkey, base_addr, reward_addr,
    base_addr_candidate, reward_addr_candidate, s8.
  split; [| exact Hg].
  exists s1, root_key, s2, payment_skey, payment_vkey, s3, s4, s5, s6, s7.
  tauto.
Qed.

Lemma wallet_dict_lookup b bc r rc ss sv m :
  wallet_dict b bc r rc ss sv m !! "base_addr" = Some b /\
  wallet_dict b bc r rc ss sv m !! "base_addr_candidate" = Some bc /\
  wallet_dict b bc r rc ss sv m !! "reward_addr" = Some r /\
  wallet_dict b bc r rc ss sv m !! "reward_addr_candidate" = Some rc /\
  wallet_dict b bc r rc ss sv m !! "staking_skey" = Some ss /\
  wallet_dict b bc r rc ss sv m !! "staking_vkey" = Some sv /\
  wallet_dict b bc r rc ss sv m !! "mnemonic" = Some m.
Proof. repeat split. Qed.

(** [write_item] on a key that is present *)
Lemma write_item_ok (p : path) (d : gmap string string) (k v : string)
  (st : state W) :
  d !! k = Some v ->
  write_item p d k st =
  (Ok tt, State (st_world st) (<[p := v]> (<[p := ""]> (st_fs st)))
                (st_tmp st) (st_trace st)).
Proof.
  intros Hk. unfold write_item, getitem. rewrite Hk. reflexivity.
Qed.

(** [save_wallet_files] returns when the dictionary has the seven keys. *)
Lemma save_wallet_files_total self purpose (d : gmap string string)
  (st : state W) :
  is_Some (d !! "base_addr") -> is_Some (d !! "base_addr_candidate") ->
  is_Some (d !! "reward_addr") -> is_Some (d !! "reward_addr_candidate") ->
  is_Some (d !! "staking_skey") -> is_Some (d !! "staking_vkey") ->
  is_Some (d !! "mnemonic") ->
  exists st',
    save_wallet_files self purpose d st
    = (Ok (joinpath (home_dir self) purpose), st').
Proof.
  intros [v1 L1] [v2 L2] [v3 L3] [v4 L4] [v5 L5] [v6 L6] [v7 L7].
  unfold save_wallet_files.
  do 7 (erewrite bind_ok; [| apply write_item_ok; eassumption]).
  eexists. reflexivity.
Qed.

(** With the dictionary of [generate_wallet], [save_wallet_files] finds
    every key and returns. *)
Lemma save_wallet_files_ok self purpose b bc r rc ss sv m (st : state W) :
  exists st',
    save_wallet_files self purpose (wallet_dict b bc r rc ss sv m) st
    = (Ok (joinpath (home_dir self) purpose), st').
Proof.
  destruct (wallet_dict_lookup b bc r rc ss sv m)
    as (L1 & L2 & L3 & L4 & L5 & L6 & L7).
  apply save_wallet_files_total; eexists; eassumption.
Qed.

Lemma touches_save_wallet_files self purpose wallet_data P :
  touches (is_wallet_file self purpose) P
    (save_wallet_files self purpose wallet_data : M W path).
Proof.
  unfold save_wallet_files.
  repeat (apply touches_bind;
          [apply touches_write_item; eexists; reflexivity | intros _]).
  apply touches_mret.
Qed.

Lemma touches_verify_and_save self purpose mnemonic staking_skey staking_vkey
  base_addr reward_addr base_addr_candidate reward_addr_candidate :
  touches (is_wallet_file self purpose) any_call
    (verify_and_save self purpose mnemonic staking_skey staking_vkey base_addr
       reward_addr base_addr_candidate reward_addr_candidate : M W _).
Proof.
  unfold verify_and_save.
  destruct (negb (verify_address_candidates base_addr base_addr_candidate));
    [apply touches_raise |].
  destruct (negb (verify_address_candidates reward_addr reward_addr_candidate));
    [apply touches_raise |].
  destruct (negb (validate_address base_addr)); [apply touches_raise |].
  destruct (negb (validate_address reward_addr)); [apply touches_raise |].
  apply touches_bind; [apply touches_save_wallet_files | intros _].
  apply touches_mret.
Qed.

Lemma fails_within_of_touches keep P {A : Type} (m : M W A) :
  touches keep P m -> fails_within keep P m.
Proof. intros Hm st e st' Heq. specialize (Hm st). now rewrite Heq in Hm. Qed.

Lemma fails_within_bind keep P {A B : Type} (m : M W A) (f : A -> M W B) :
  touches keep P m -> (forall a, fails_within keep P (f a)) ->
  fails_within keep P (m ≫= f).
Proof.
  intros Hm Hf st e st' Heq.
  apply bind_inv_raise in Heq as [Heq | (a & s & Hms & Heq)].
  - specialize (Hm st). now rewrite Heq in Hm.
  - eapply step_trans; [| eapply Hf; exact Heq].
    specialize (Hm st). now rewrite Hms in Hm.
Qed.

Lemma raise_inv {A : Type} (e e' : exn) (st st' : state W) :
  (raise e : M W A) st = (Raise e', st') -> st' = st.
Proof. intros Heq. inversion Heq. reflexivity. Qed.

(** When [verify_and_save] raises, nothing has been written. *)
Lemma verify_and_save_fails_within self purpose mnemonic staking_skey
  staking_vkey base_addr reward_addr base_addr_candidate
  reward_addr_candidate :
  fails_within no_file any_call
    (verify_and_save self purpose mnemonic staking_skey staking_vkey base_addr
       reward_addr base_addr_candidate reward_addr_candidate : M W _).
Proof.
  unfold verify_and_save. intros st e st'.
  destruct (negb (verify_address_candidates base_addr base_addr_candidate));
    [intros ->%raise_inv; apply step_refl |].
  destruct (negb (verify_address_candidates reward_addr reward_addr_candidate));
    [intros ->%raise_inv; apply step_refl |].
  destruct (negb (validate_address base_addr));
    [intros ->%raise_inv; apply step_refl |].
  destruct (negb (validate_address reward_addr));
    [intros ->%raise_inv; apply step_refl |].
  destruct (save_wallet_files_ok self purpose base_addr base_addr_candidate
              reward_addr reward_addr_candidate staking_skey staking_vkey
              mnemonic st) as [s Hs].
  rewrite (bind_ok _ _ _ _ _ Hs). discriminate.
Qed.

(** A run of [generate_wallet] that raises has written no file other than
    the shared mnemonic file. *)
Lemma generate_wallet_fails_within self purpose network :
  fails_within (eq (shared_mnemonic_file self)) any_call
    (generate_wallet self purpose network : M W _).
Proof.
  rewrite generate_wallet_unfold.
  apply fails_within_bind;
    [now apply touches_get_or_create_shared_mnemonic | intros mnemonic].
  apply fails_within_bind; [eauto with touches | intros root_key].
  apply fails_within_bind;
    [apply touches_derive_key_pair | intros [payment_skey payment_vkey]].
  apply fails_within_bind;
    [apply touches_derive_key_pair | intros [staking_skey staking_vkey]].
  apply fails_within_bind; [eauto with touches | intros base_addr].
  apply fails_within_bind; [eauto with touches | intros reward_addr].
  apply fails_within_bind; [eauto with touches | intros base_addr_candidate].
  apply fails_within_bind; [eauto with touches | intros reward_addr_candidate].
  intros st e st' Heq.
  apply verify_and_save_fails_within in Heq.
  destruct Heq as [Hf Hc]. split; [| exact Hc].
  intros p _. apply Hf. intros [].
Qed.

(** The eight computations write no file other than the shared mnemonic
    file. *)
Lemma computed_step self purpose network (st : state W)
  mnemonic staking_skey staking_vkey base_addr reward_addr
  base_addr_candidate reward_addr_candidate s8 :
  computed self purpose network st mnemonic staking_skey staking_vkey
    base_addr reward_addr base_addr_candidate reward_addr_candidate s8 ->
  step (eq (shared_mnemonic_file self)) any_call st s8.
Proof.
  intros (s1 & root_key & s2 & payment_skey & payment_vkey & s3 & s4 & s5 & s6
          & s7 & H1 & H2 & H3 & H4 & H5 & H6 & H7 & H8).
  pose proof (touches_get_or_create_shared_mnemonic
                (eq (shared_mnemonic_file self)) self eq_refl st) as T1.
  pose proof (touches_mnemonic_to_root_key (eq (shared_mnemonic_file self))
                self mnemonic s1) as T2.
  pose proof (touches_derive_key_pair (eq (shared_mnemonic_file self)) self
                _ _ _ root_key s2 : step _ _ _
                  (snd (derive_payment_key self root_key purpose s2))) as T3.
  pose proof (touches_derive_key_pair (eq (shared_mnemonic_file self)) self
                _ _ _ root_key s3 : step _ _ _
                  (snd (derive_staking_key self root_key s3))) as T4.
  pose proof (touches_generate_payment_address (eq (shared_mnemonic_file self))
                self payment_vkey staking_vkey network s4) as T5.
  pose proof (touches_generate_staking_address (eq (shared_mnemonic_file self))
                self staking_vkey network s5) as T6.
  pose proof (touches_generate_address_candidate (eq (shared_mnemonic_file self))
                self payment_vkey staking_vkey network s6) as T7.
  pose proof (touches_generate_staking_address (eq (shared_mnemonic_file self))
                self staking_vkey network s7) as T8.
  rewrite H1 in T1. rewrite H2 in T2. rewrite H3 in T3. rewrite H4 in T4.
  rewrite H5 in T5. rewrite H6 in T6. rewrite H7 in T7. rewrite H8 in T8.
  simpl in *.
  repeat (eapply step_trans; [eassumption |]). apply step_refl.
Qed.

End GenerateWallet.

Section GenerateWalletVerification.
Context {W : Type} `{Oracle W}.

(** C1. In [generate_wallet] the base address and the reward address are
    each computed a second time, after the first, from the same verification
    keys.  When the eight computations succeed and the base addresses differ,
    the method raises the base-mismatch error; when the base addresses agree
    and the reward addresses differ, it raises the reward-mismatch error; at
    that point no file other than the shared mnemonic file has been written.
    Every run that raises leaves all files other than the shared mnemonic
    file as they were.  Every run that returns has computed each address
    twice with equal results. *)
Theorem generate_wallet_verifies_candidates self purpose network
  (st : state W) :
  (forall mnemonic staking_skey staking_vkey base_addr reward_addr
          base_addr_candidate reward_addr_candidate s8,
     computed self purpose network st mnemonic staking_skey staking_vkey
       base_addr reward_addr base_addr_candidate reward_addr_candidate s8 ->
     (forall p, p <> shared_mnemonic_file self ->
                st_fs s8 !! p = st_fs st !! p) /\
     (base_addr <> base_addr_candidate ->
      generate_wallet self purpose network st = (Raise base_mismatch, s8)) /\
     (base_addr = base_addr_candidate ->
      reward_addr <> reward_addr_candidate ->
      generate_wallet self purpose network st = (Raise reward_mismatch, s8))) /\
  (forall e st',
     generate_wallet self purpose network st = (Raise e, st') ->
     forall p, p <> shared_mnemonic_file self ->
               st_fs st' !! p = st_fs st !! p) /\
  (forall wallet_data st',
     generate_wallet self purpose network st = (Ok wallet_data, st') ->
     exists mnemonic staking_skey staking_vkey base_addr reward_addr s8,
       computed self purpose network st mnemonic staking_skey staking_vkey
         base_addr reward_addr base_addr reward_addr s8 /\
       wallet_data = wallet_dict base_addr base_addr reward_addr reward_addr
                       staking_skey staking_vkey mnemonic).
Proof.
  split; [| split].
  - intros mnemonic staking_skey staking_vkey base_addr reward_addr
      base_addr_candidate reward_addr_candidate s8 Hc.
    split; [| split].
    + destruct (computed_step _ _ _ _ _ _ _ _ _ _ _ _ Hc) as [Hf _].
      intros p Hp. apply Hf. congruence.
    + intros Hne. rewrite (generate_wallet_computed _ _ _ _ _ _ _ _ _ _ _ _ Hc).
      unfold verify_and_save, verify_address_candidates.
      apply String.eqb_neq in Hne. now rewrite Hne.
    + intros Heq Hne. rewrite (generate_wallet_computed _ _ _ _ _ _ _ _ _ _ _ _ Hc).
      unfold verify_and_save, verify_address_candidates.
      apply String.eqb_eq in Heq. apply String.eqb_neq in Hne.
      now rewrite Heq, Hne.
  - intros e st' Hg p Hp.
    destruct (generate_wallet_fails_within _ _ _ _ _ _ Hg) as [Hf _].
    apply Hf. congruence.
  - intros wallet_data st' Hg.
    apply generate_wallet_ok_inv in Hg
      as (mnemonic & staking_skey & staking_vkey & base_addr & reward_addr
          & base_addr_candidate & reward_addr_candidate & s8 & Hc & Hv).
    unfold verify_and_save, verify_address_candidates in Hv.
    destruct (negb (String.eqb base_addr base_addr_candidate)) eqn:Hb;
      [discriminate |].
    destruct (negb (String.eqb reward_addr reward_addr_candidate)) eqn:Hr;
      [discriminate |].
    apply negb_false_iff in Hb, Hr. apply String.eqb_eq in Hb, Hr. subst.
    destruct (negb (validate_address base_addr_candidate)); [discriminate |].
    destruct (negb (validate_address reward_addr_candidate)); [discriminate |].
    apply bind_inv_ok in Hv as (wallet_dir & s & _ & Hret).
    inversion Hret; subst.
    exists mnemonic, staking_skey, staking_vkey, base_addr_candidate,
      reward_addr_candidate, s8.
    split; [exact Hc | reflexivity].
Qed.

End GenerateWalletVerification.

Lemma generate_wallet_verifies_candidates_witness :
  exists s8,
    computed (H := Sim.oracle 10) Sim.generator "main" "mainnet" Sim.start
      Sim.phrase "key04" "key05" Sim.base_address Sim.stake_address
      (Sim.base_address +:+ "12") (Sim.stake_address +:+ "13") s8 /\
    generate_wallet (H := Sim.oracle 10) Sim.generator "main" "mainnet"
      Sim.start = (Raise base_mismatch, s8) /\
    st_fs s8 !! wallet_file Sim.generator "main" ".base_addr" = None.
Proof.
  pose (o := Sim.oracle 10).
  pose (g := Sim.generator).
  pose (s1 := snd (get_or_create_shared_mnemonic (H := o) g Sim.start)).
  pose (s2 := snd (mnemonic_to_root_key (H := o) g Sim.phrase s1)).
  pose (s3 := snd (derive_payment_key (H := o) g "key01" "main" s2)).
  pose (s4 := snd (derive_staking_key (H := o) g "key01" s3)).
  pose (s5 := snd (generate_payment_address (H := o) g "key03" "key05"
                     "mainnet" s4)).
  pose (s6 := snd (generate_staking_address (H := o) g "key05" "mainnet" s5)).
  pose (s7 := snd (generate_address_candidate (H := o) g "key03" "key05"
                     "mainnet" s6)).
  pose (s8 := snd (generate_staking_address (H := o) g "key05" "mainnet" s7)).
  exists s8.
  assert (Hc : computed (H := o) g "main" "mainnet" Sim.start
                 Sim.phrase "key04" "key05" Sim.base_address Sim.stake_address
                 (Sim.base_address +:+ "12") (Sim.stake_address +:+ "13") s8).
  { exists s1, "key01", s2, "key02", "key03", s3, s4, s5, s6, s7.
    repeat split; vm_compute; reflexivity. }
  destruct (generate_wallet_verifies_candidates (H := o) g "main" "mainnet"
              Sim.start) as (Hsteps & _ & _).
  destruct (Hsteps _ _ _ _ _ _ _ _ Hc) as (Hfs & Hbase & _).
  split; [exact Hc |]. split.
  - apply Hbase. vm_compute. discriminate.
  - rewrite Hfs; [reflexivity | vm_compute; discriminate].
Defined.

(** ** The shared recovery phrase *)

Lemma letter_not_space (c : ascii) :
  97 <= Py.ord c <= 122 -> Py.isspace c = false.
Proof.
  intros Hc. unfold Py.isspace. cbv zeta.
  repeat match goal with
         | |- context [?a <=? ?b] => destruct (Z.leb_spec a b)
         | |- context [?a =? ?b] => destruct (Z.eqb_spec a b)
         end; try reflexivity; lia.
Qed.

Lemma lstrip_chars_id (c : ascii) (l : list ascii) :
  Py.isspace c = false -> Py.lstrip_chars (c :: l) = c :: l.
Proof. intros Hc. simpl. now rewrite Hc. Qed.

(** [strip] leaves a text alone that starts and ends with a character that
    is not white space. *)
Lemma strip_id (c d : ascii) (l1 l2 : list ascii) (s : string) :
  Py.chars s = c :: l1 -> Py.chars s = l2 ++ [d] ->
  Py.isspace c = false -> Py.isspace d = false ->
  Py.strip s = s.
Proof.
  intros Hhead Hlast Hc Hd. unfold Py.strip.
  rewrite Hhead, (lstrip_chars_id c l1 Hc), <- Hhead, Hlast.
  rewrite rev_app_distr. change (rev [d] ++ rev l2) with (d :: rev l2).
  rewrite (lstrip_chars_id d _ Hd).
  change (d :: rev l2) with ([d] ++ rev l2).
  rewrite rev_app_distr, rev_involutive. simpl rev.
  rewrite <- Hlast. apply str_chars.
Qed.

Lemma chars_append (s1 s2 : string) :
  Py.chars (s1 +:+ s2) = Py.chars s1 ++ Py.chars s2.
Proof.
  induction s1 as [| c s1 IH]; simpl; [reflexivity | now rewrite IH].
Qed.

Lemma word_head (w : string) :
  is_word w -> exists c l, Py.chars w = c :: l /\ Py.isspace c = false.
Proof.
  intros [Hne Hall]. destruct w as [| c w]; [congruence |].
  exists c, (Py.chars w). split; [reflexivity |].
  apply letter_not_space. simpl in Hall. now inversion Hall.
Qed.

Lemma word_last (w : string) :
  is_word w -> exists l d, Py.chars w = l ++ [d] /\ Py.isspace d = false.
Proof.
  intros [Hne Hall].
  destruct (exists_last (l := Py.chars w)) as (l & d & Hl).
  { destruct w; [congruence | discriminate]. }
  exists l, d. split; [exact Hl |].
  apply letter_not_space. rewrite Hl in Hall.
  apply Forall_app in Hall as [_ Hd]. now inversion Hd.
Qed.

Lemma phrase_head (w : string) (ws : list string) :
  is_word w ->
  exists c l, Py.chars (String.concat " " (w :: ws)) = c :: l /\
              Py.isspace c = false.
Proof.
  intros Hw. destruct (word_head w Hw) as (c & l & Hl & Hc).
  destruct ws as [| w2 ws].
  - exists c, l. now split.
  - exists c, (l ++ Py.chars (" " +:+ String.concat " " (w2 :: ws))).
    split; [| exact Hc].
    change (String.concat " " (w :: w2 :: ws))
      with (w +:+ (" " +:+ String.concat " " (w2 :: ws))).
    now rewrite chars_append, Hl.
Qed.

Lemma phrase_last (w : string) (ws : list string) :
  Forall is_word (w :: ws) ->
  exists l d, Py.chars (String.concat " " (w :: ws)) = l ++ [d] /\
              Py.isspace d = false.
Proof.
  revert w. induction ws as [| w2 ws IH]; intros w Hall.
  - apply word_last. now inversion Hall.
  - inversion Hall as [| ? ? Hw Hrest]; subst.
    destruct (IH w2 Hrest) as (l & d & Hl & Hd).
    exists (Py.chars w ++ Py.chars " " ++ l), d. split; [| exact Hd].
    change (String.concat " " (w :: w2 :: ws))
      with (w +:+ (" " +:+ String.concat " " (w2 :: ws))).
    rewrite !chars_append, Hl. now rewrite <- !app_assoc.
Qed.

(** A recovery phrase of at least one word is its own [strip]. *)
Lemma recovery_phrase_strip (n : nat) (m : string) :
  recovery_phrase (S n) m -> Py.strip m = m.
Proof.
  intros (words & Hlen & Hall & ->).
  destruct words as [| w ws]; [discriminate |].
  destruct (phrase_head w ws) as (c & l1 & Hh & Hc); [now inversion Hall |].
  destruct (phrase_last w ws Hall) as (l2 & d & Hl & Hd).
  exact (strip_id c d l1 l2 _ Hh Hl Hc Hd).
Qed.

Section SharedMnemonic.
Context {W : Type} `{Oracle W}.

(** no file is written to, the file is there: the stripped text is returned *)
Lemma get_existing_shared_mnemonic self (st : state W) text :
  st_fs st !! shared_mnemonic_file self = Some text ->
  get_or_create_shared_mnemonic self st = (Ok (Py.strip text), st).
Proof.
  intros Hf. unfold get_or_create_shared_mnemonic.
  rewrite (bind_ok _ _ st true st).
  - rewrite (bind_ok _ _ st text st); [reflexivity |].
    unfold read_text. now rewrite Hf.
  - unfold exists_. rewrite Hf. reflexivity.
Qed.

(** the file is missing: a phrase is generated and written *)
Lemma create_shared_mnemonic self (st : state W) m w :
  st_fs st !! shared_mnemonic_file self = None ->
  mnemo_generate (st_world st) = (m, w) ->
  get_or_create_shared_mnemonic self st =
  (Ok m, State w (<[shared_mnemonic_file self := m]> (st_fs st)) (st_tmp st)
               (st_trace st)).
Proof.
  intros Hf Hg. unfold get_or_create_shared_mnemonic.
  rewrite (bind_ok _ _ st false st).
  - unfold mbind, M_bind. rewrite Hg. reflexivity.
  - unfold exists_. rewrite Hf. reflexivity.
Qed.

(** For a generator made by [init], the shared mnemonic file is not one of
    the files of a purpose. *)
Lemma shared_file_not_wallet_file home tool_table name purpose :
  ~ is_wallet_file (init home tool_table name) purpose
      (shared_mnemonic_file (init home tool_table name)).
Proof.
  intros [suffix Heq]. apply (f_equal (@List.length string)) in Heq.
  unfold wallet_file, init, joinpath in Heq. simpl in Heq.
  rewrite !length_app in Heq. simpl in Heq. lia.
Qed.

(** After the eight computations [generate_wallet] writes only files of the
    purpose. *)
Lemma generate_wallet_after_mnemonic self purpose network mnemonic :
  let rest : M W (gmap string string) :=
    mnemonic_to_root_key self mnemonic ≫= fun root_key =>
    derive_payment_key self root_key purpose ≫= fun '(payment_skey, payment_vkey) =>
    derive_staking_key self root_key ≫= fun '(staking_skey, staking_vkey) =>
    generate_payment_address self payment_vkey staking_vkey network ≫= fun base_addr =>
    generate_staking_address self staking_vkey network ≫= fun reward_addr =>
    generate_address_candidate self payment_vkey staking_vkey network
      ≫= fun base_addr_candidate =>
    generate_staking_address self staking_vkey network ≫= fun reward_addr_candidate =>
    verify_and_save self purpose mnemonic staking_skey staking_vkey base_addr
      reward_addr base_addr_candidate reward_addr_candidate in
  touches (is_wallet_file self purpose) any_call rest.
Proof.
  intros rest. unfold rest.
  apply touches_bind; [eauto with touches | intros root_key].
  apply touches_bind;
    [apply touches_derive_key_pair | intros [payment_skey payment_vkey]].
  apply touches_bind;
    [apply touches_derive_key_pair | intros [staking_skey staking_vkey]].
  apply touches_bind; [eauto with touches | intros base_addr].
  apply touches_bind; [eauto with touches | intros reward_addr].
  apply touches_bind; [eauto with touches | intros base_addr_candidate].
  apply touches_bind; [eauto with touches | intros reward_addr_candidate].
  apply touches_verify_and_save.
Qed.

(** Once [get_or_create_shared_mnemonic] has returned [mnemonic] and left
    the state [s1], the rest of [generate_wallet] keeps the shared mnemonic
    file and puts [mnemonic] into the wallet data. *)
Lemma generate_wallet_with_mnemonic home tool_table name purpose network
  (st s1 : state W) mnemonic :
  let self := init home tool_table name in
  get_or_create_shared_mnemonic self st = (Ok mnemonic, s1) ->
  let out := generate_wallet self purpose network st in
  st_fs (snd out) !! shared_mnemonic_file self
    = st_fs s1 !! shared_mnemonic_file self /\
  forall wallet_data, fst out = Ok wallet_data ->
                      wallet_data !! "mnemonic" = Some mnemonic.
Proof.
  intros self Hm out. subst out. split.
  - rewrite generate_wallet_unfold, (bind_ok _ _ _ _ _ Hm).
    destruct (generate_wallet_after_mnemonic self purpose network mnemonic s1)
      as [Hf _].
    apply Hf. apply shared_file_not_wallet_file.
  - intros wallet_data Hok.
    destruct (generate_wallet self purpose network st) as [r st'] eqn:Hg.
    simpl in Hok. subst r.
    apply generate_wallet_ok_inv in Hg
      as (mnemonic' & staking_skey & staking_vkey & base_addr & reward_addr
          & base_addr_candidate & reward_addr_candidate & s8 & Hc & Hv).
    destruct Hc as (s1' & ? & ? & ? & ? & ? & ? & ? & ? & ? & Hm' & _).
    rewrite Hm in Hm'. inversion Hm'; subst.
    unfold verify_and_save in Hv.
    destruct (negb (verify_address_candidates base_addr base_addr_candidate));
      [discriminate |].
    destruct (negb (verify_address_candidates reward_addr reward_addr_candidate));
      [discriminate |].
    destruct (negb (validate_address base_addr)); [discriminate |].
    destruct (negb (validate_address reward_addr)); [discriminate |].
    apply bind_inv_ok in Hv as (wallet_dir & s & _ & Hret).
    inversion Hret; subst. apply wallet_dict_lookup.
Qed.

End SharedMnemonic.

Section SharedMnemonicClaim.
Context {W : Type} `{Oracle W}.


End SharedMnemonicClaim.

Lemma recovery_phrase_sim : recovery_phrase 24 Sim.phrase.
Proof.
  exists Sim.words. split; [reflexivity |]. split; [| reflexivity].
  unfold Sim.words. simpl.
  repeat (apply List.Forall_cons;
          [split;
           [discriminate
           | repeat (apply List.Forall_cons; [vm_compute; split; discriminate |]);
             apply List.Forall_nil] |]).
  apply List.Forall_nil.
Defined.


(** ** The stake-pool flow *)

Section StakePoolFacts.
Context {W : Type} `{Oracle W}.

Lemma touches_tool_bind keep P {A : Type} self name (f : string -> M W A) :
  (forall t, tools self !! name = Some t -> touches keep P (f t)) ->
  touches keep P (tool self name ≫= f).
Proof.
  intros Hf st. unfold mbind, M_bind, tool, getitem.
  destruct (tools self !! name) as [t |] eqn:Ht; simpl.
  - now apply Hf.
  - apply step_refl.
Qed.

Lemma is_cli_call_intro self t args :
  tools self !! "cardano-cli" = Some t -> is_cli_call self (Call (t :: args) None).
Proof. intros Ht. split; [reflexivity |]. now exists t, args. Qed.

Section Blocks.
Variable keep : path -> Prop.
Variable self : CardanoWalletGenerator.

Lemma touches_key_gen_block temp_dir sub vflag sflag vname sname msg vkey skey
  wallet_data :
  touches keep (is_cli_call self)
    (key_gen_block self temp_dir sub vflag sflag vname sname msg vkey skey
       wallet_data : M W _).
Proof.
  unfold key_gen_block. apply touches_tool_bind. intros t Ht.
  apply touches_bind;
    [apply touches_run_cardano_cli; now apply is_cli_call_intro | intros].
  touches_auto.
Qed.

Lemma touches_key_hash_block temp_dir sub flag vname msg key wallet_data :
  touches keep (is_cli_call self)
    (key_hash_block self temp_dir sub flag vname msg key wallet_data : M W _).
Proof.
  unfold key_hash_block. apply touches_tool_bind. intros t Ht.
  apply touches_bind;
    [apply touches_run_cardano_cli; now apply is_cli_call_intro | intros].
  touches_auto.
Qed.

Lemma touches_out_file_block temp_dir args oname extra msg key wallet_data :
  touches keep (is_cli_call self)
    (out_file_block self temp_dir args oname extra msg key wallet_data : M W _).
Proof.
  unfold out_file_block. apply touches_tool_bind. intros t Ht.
  apply touches_bind;
    [apply touches_run_cardano_cli; now apply is_cli_call_intro | intros].
  touches_auto.
Qed.

Lemma touches_with_TemporaryDirectory P {A : Type} (body : string -> M W A) :
  (forall temp_dir, touches keep P (body temp_dir)) ->
  touches keep P (with_TemporaryDirectory body).
Proof.
  intros Hb st. unfold with_TemporaryDirectory.
  destruct (mkdtemp (st_world st)) as [temp_dir w].
  specialize (Hb temp_dir (State w (st_fs st) ∅ (st_trace st))).
  destruct (body temp_dir _) as [r st']. exact Hb.
Qed.

Lemma touches_generate_keys_with_cardano_cli purpose network :
  touches keep (is_cli_call self)
    (generate_keys_with_cardano_cli self purpose network : M W _).
Proof.
  unfold generate_keys_with_cardano_cli.
  apply touches_with_TemporaryDirectory. intros temp_dir.
  repeat (apply touches_bind;
          [first [apply touches_key_gen_block | apply touches_key_hash_block
                 | apply touches_out_file_block] | intros]).
  apply touches_tool_bind. intros t Ht.
  apply touches_bind;
    [apply touches_run_cardano_cli; now apply is_cli_call_intro | intros].
  touches_auto.
Qed.

End Blocks.

Lemma touches_write_computed keep P p d k f :
  keep p -> touches keep P (write_computed p d k f : M W unit).
Proof.
  intros Hp. unfold write_computed.
  apply touches_bind; [apply touches_getitem | intros v].
  now apply touches_write_text.
Qed.

Lemma touches_write_item_with keep P p d k g :
  keep p -> touches keep P (write_item_with p d k g : M W unit).
Proof.
  intros Hp. unfold write_item_with.
  apply touches_bind; [now apply touches_write_text | intros _].
  apply touches_bind; [apply touches_getitem | intros v].
  now apply touches_write_text.
Qed.

Lemma touches_save_complete_wallet_files P self purpose wallet_data :
  touches (in_wallet_dir self purpose) P
    (save_complete_wallet_files self purpose wallet_data : M W path).
Proof.
  unfold save_complete_wallet_files.
  repeat (apply touches_bind;
          [first [apply touches_write_item | apply touches_write_computed
                 | apply touches_write_item_with]; eexists; reflexivity
          | intros _]).
  apply touches_mret.
Qed.

(** [generate_stake_pool_files] writes only into the directory of the
    purpose and calls only [cardano-cli], without standard input. *)
Lemma touches_generate_stake_pool_files self purpose network :
  touches (in_wallet_dir self purpose) (is_cli_call self)
    (generate_stake_pool_files self purpose network : M W _).
Proof.
  unfold generate_stake_pool_files.
  apply touches_bind;
    [apply touches_generate_keys_with_cardano_cli | intros wallet_data].
  apply touches_bind;
    [apply touches_save_complete_wallet_files | intros wallet_dir].
  apply touches_mret.
Qed.

Lemma shared_file_not_in_wallet_dir home tool_table name purpose :
  ~ in_wallet_dir (init home tool_table name) purpose
      (shared_mnemonic_file (init home tool_table name)).
Proof.
  intros [file Heq]. apply (f_equal (@List.length string)) in Heq.
  unfold init, joinpath in Heq. simpl in Heq.
  rewrite !length_app in Heq. simpl in Heq. lia.
Qed.

End StakePoolFacts.

Section FsBlind.
Context {W : Type} `{Oracle W}.

Lemma fs_blind_pure {A : Type} (m : M W A) (r : result A) :
  (forall st, m st = (r, st)) -> fs_blind m.
Proof. intros Hm st fs. now rewrite !Hm. Qed.

Lemma fs_blind_mret {A : Type} (a : A) : fs_blind (mret a : M W A).
Proof. now apply (fs_blind_pure _ (Ok a)). Qed.

Lemma fs_blind_raise {A : Type} (e : exn) : fs_blind (raise e : M W A).
Proof. now apply (fs_blind_pure _ (Raise e)). Qed.

Lemma fs_blind_bind {A B : Type} (m : M W A) (f : A -> M W B) :
  fs_blind m -> (forall a, fs_blind (f a)) -> fs_blind (m ≫= f).
Proof.
  intros Hm Hf st fs. unfold mbind, M_bind. rewrite Hm.
  destruct (m st) as [[a | e] s]; simpl; [apply Hf | reflexivity].
Qed.

Lemma fs_blind_getitem (d : gmap string string) (k : string) :
  fs_blind (getitem d k : M W string).
Proof.
  unfold getitem. destruct (d !! k); [apply fs_blind_mret | apply fs_blind_raise].
Qed.

Lemma fs_blind_tool self name : fs_blind (tool self name : M W string).
Proof. apply fs_blind_getitem. Qed.

Lemma fs_blind_read_tmp name : fs_blind (read_tmp name : M W string).
Proof.
  intros st fs. unfold read_tmp, set_fs. simpl.
  destruct (st_tmp st !! name); reflexivity.
Qed.

Lemma fs_blind_run_cardano_cli cmd : fs_blind (run_cardano_cli cmd).
Proof.
  intros st fs. unfold run_cardano_cli, set_fs. simpl.
  destruct (cardano_cli cmd (st_tmp st) (st_world st)) as [[r tmp] w].
  reflexivity.
Qed.

Lemma fs_blind_check_returncode msg result :
  fs_blind (check_returncode msg result : M W unit).
Proof.
  unfold check_returncode.
  destruct (negb _); [apply fs_blind_raise | apply fs_blind_mret].
Qed.

Lemma fs_blind_loads content :
  fs_blind (loads content : M W (gmap string string)).
Proof.
  unfold loads.
  destruct (json_loads content); [apply fs_blind_mret | apply fs_blind_raise].
Qed.

Lemma fs_blind_with_TemporaryDirectory {A : Type} (body : string -> M W A) :
  (forall temp_dir, fs_blind (body temp_dir)) ->
  fs_blind (with_TemporaryDirectory body).
Proof.
  intros Hb st fs. unfold with_TemporaryDirectory. simpl.
  destruct (mkdtemp (st_world st)) as [temp_dir w].
  change (State w fs ∅ (st_trace st))
    with (set_fs fs (State w (st_fs st) ∅ (st_trace st))).
  rewrite Hb.
  destruct (body temp_dir (State w (st_fs st) ∅ (st_trace st))) as [r st'].
  reflexivity.
Qed.

End FsBlind.

Create HintDb fs_blind.
#[global] Hint Resolve fs_blind_mret fs_blind_raise fs_blind_getitem
  fs_blind_tool fs_blind_read_tmp fs_blind_run_cardano_cli
  fs_blind_check_returncode fs_blind_loads : fs_blind.

Ltac fs_blind_step :=
  match goal with
  | |- fs_blind (mbind _ _) => apply fs_blind_bind; [| intros]
  | |- fs_blind (if ?b then _ else _) => destruct b
  | |- fs_blind _ => solve [eauto with fs_blind]
  end.
Ltac fs_blind_auto := repeat fs_blind_step.

Section StakePoolClaim.
Context {W : Type} `{Oracle W}.

Lemma fs_blind_key_gen_block self temp_dir sub vflag sflag vname sname msg
  vkey skey wallet_data :
  fs_blind (key_gen_block self temp_dir sub vflag sflag vname sname msg vkey
              skey wallet_data : M W _).
Proof. unfold key_gen_block. fs_blind_auto. Qed.

Lemma fs_blind_key_hash_block self temp_dir sub flag vname msg key wallet_data :
  fs_blind (key_hash_block self temp_dir sub flag vname msg key wallet_data
            : M W _).
Proof. unfold key_hash_block. fs_blind_auto. Qed.

Lemma fs_blind_out_file_block self temp_dir args oname extra msg key
  wallet_data :
  fs_blind (out_file_block self temp_dir args oname extra msg key wallet_data
            : M W _).
Proof. unfold out_file_block. fs_blind_auto. Qed.

(** The keys do not depend on any stored file. *)
Lemma fs_blind_generate_keys_with_cardano_cli self purpose network :
  fs_blind (generate_keys_with_cardano_cli self purpose network : M W _).
Proof.
  unfold generate_keys_with_cardano_cli.
  apply fs_blind_with_TemporaryDirectory. intros temp_dir.
  repeat (apply fs_blind_bind;
          [first [apply fs_blind_key_gen_block | apply fs_blind_key_hash_block
                 | apply fs_blind_out_file_block] | intros]).
  fs_blind_auto.
Qed.


End StakePoolClaim.


(** ** The import flow *)

Section ImportFlow.
Context {W : Type} `{Oracle W}.

(** [save_wallet_files] raises when the dictionary has no candidate. *)
Lemma save_wallet_files_without_candidate self purpose
  (d : gmap string string) (st : state W) wallet_dir st' :
  d !! "base_addr_candidate" = None ->
  save_wallet_files self purpose d st <> (Ok wallet_dir, st').
Proof.
  intros Hnone Hs. unfold save_wallet_files in Hs.
  apply bind_inv_ok in Hs as (u1 & s1 & _ & Hs).
  apply bind_inv_ok in Hs as (u2 & s2 & Hw & _).
  unfold write_item in Hw.
  apply bind_inv_ok in Hw as (u3 & s3 & _ & Hw).
  apply bind_inv_ok in Hw as (v & s4 & Hget & _).
  unfold getitem in Hget. rewrite Hnone in Hget. discriminate.
Qed.

(** The import flow never returns: when it has built and validated the two
    addresses it raises in [save_wallet_files]. *)
Lemma import_flow_never_returns self purpose network payment_vkey_path
  payment_skey_path stake_vkey_path stake_skey_path (st : state W)
  wallet_data st' :
  generate_wallet_with_import self purpose network payment_vkey_path
    payment_skey_path stake_vkey_path stake_skey_path st
  <> (Ok wallet_data, st').
Proof.
  intros Hg. unfold generate_wallet_with_import in Hg.
  apply bind_inv_ok in Hg as (imported_keys & s0 & _ & Hg).
  destruct (bool_decide (imported_keys = ∅)); [discriminate |].
  apply bind_inv_ok in Hg as (payment_vkey & s1 & _ & Hg).
  apply bind_inv_ok in Hg as (staking_vkey & s2 & _ & Hg).
  apply bind_inv_ok in Hg as (base_addr & s3 & _ & Hg).
  apply bind_inv_ok in Hg as (reward_addr & s4 & _ & Hg).
  destruct (negb (validate_address base_addr)); [discriminate |].
  destruct (negb (validate_address reward_addr)); [discriminate |].
  apply bind_inv_ok in Hg as (wallet_dir & s5 & Hs & _).
  revert Hs. apply save_wallet_files_without_candidate. reflexivity.
Qed.

(** [write_item] on a key that is missing: the file is left empty *)
Lemma write_item_missing (p : path) (d : gmap string string) (k : string)
  (st : state W) :
  d !! k = None ->
  write_item p d k st =
  (Raise (KeyError k),
   State (st_world st) (<[p := ""]> (st_fs st)) (st_tmp st) (st_trace st)).
Proof.
  intros Hk. unfold write_item, getitem. rewrite Hk. reflexivity.
Qed.

(** Whatever [cardano-address] is: when the import flow has read its keys
    and built two addresses that pass [validate_address], it makes no
    further call, writes the base address, leaves an empty candidate file
    and raises [KeyError]. *)
Lemma import_flow_persists_unverified self purpose network payment_vkey_path
  payment_skey_path stake_vkey_path stake_skey_path (st s0 s3 s4 : state W)
  imported_keys payment_vkey staking_vkey base_addr reward_addr :
  import_existing_keys self purpose payment_vkey_path payment_skey_path
    stake_vkey_path stake_skey_path st = (Ok imported_keys, s0) ->
  imported_keys !! "payment_vkey" = Some payment_vkey ->
  imported_keys !! "staking_vkey" = Some staking_vkey ->
  generate_payment_address self (cbor_hex_to_bech32 payment_vkey "addr_vk")
    (cbor_hex_to_bech32 staking_vkey "stake_vk") network s0
    = (Ok base_addr, s3) ->
  generate_staking_address self (cbor_hex_to_bech32 staking_vkey "stake_vk")
    network s3 = (Ok reward_addr, s4) ->
  validate_address base_addr = true ->
  validate_address reward_addr = true ->
  generate_wallet_with_import self purpose network payment_vkey_path
    payment_skey_path stake_vkey_path stake_skey_path st
  = (Raise (KeyError "base_addr_candidate"),
     State (st_world s4)
           (<[wallet_file self purpose ".base_addr.candidate" := ""]>
              (<[wallet_file self purpose ".base_addr" := base_addr]>
                 (<[wallet_file self purpose ".base_addr" := ""]> (st_fs s4))))
           (st_tmp s4) (st_trace s4)).
Proof.
  intros Himp Hpv Hsv Hbase Hreward Hvb Hvr.
  unfold generate_wallet_with_import.
  rewrite (bind_ok _ _ _ _ _ Himp).
  rewrite bool_decide_eq_false_2
    by (intros ->; rewrite lookup_empty in Hpv; discriminate).
  rewrite (bind_ok _ _ s0 payment_vkey s0)
    by (unfold getitem; now rewrite Hpv).
  rewrite (bind_ok _ _ s0 staking_vkey s0)
    by (unfold getitem; now rewrite Hsv).
  rewrite (bind_ok _ _ _ _ _ Hbase), (bind_ok _ _ _ _ _ Hreward).
  rewrite Hvb, Hvr. cbn [negb].
  apply bind_raise. unfold save_wallet_files.
  erewrite bind_ok; [| apply write_item_ok; reflexivity].
  apply bind_raise. apply write_item_missing. reflexivity.
Qed.

End ImportFlow.

(** C3 (the code departs from the claim).  With key files for the payment
    and the stake verification key and a [cardano-address] that answers
    every command, the import flow runs four commands (payment address,
    stake address, delegation, stake address) and no second computation of
    either address; it writes the base address file, creates an empty
    candidate file and raises [KeyError] for the missing candidate. *)
Theorem import_flow_skips_candidates :
  let out := generate_wallet_with_import (H := Sim.oracle 100) Sim.generator
               "main" "mainnet" (Some Sim.payment_vkey_path) None
               (Some Sim.stake_vkey_path) None Sim.import_start in
  fst out = Raise (KeyError "base_addr_candidate") /\
  st_fs (snd out) !! wallet_file Sim.generator "main" ".base_addr"
    = Some Sim.base_address /\
  st_fs (snd out) !! wallet_file Sim.generator "main" ".base_addr.candidate"
    = Some "" /\
  st_fs (snd out) !! wallet_file Sim.generator "main" ".reward_addr" = None /\
  List.map (fun c => List.firstn 2 (List.tl (call_cmd c))) (st_trace (snd out))
    = [["address"; "payment"]; ["address"; "stake"]; ["address"; "delegation"];
       ["address"; "stake"]].
Proof. vm_compute. repeat split. Qed.

(** ** The commands of one run of the stake-pool key generation *)

(** the words of a command line that are neither the program, nor an
    option, nor a file name *)
Example stake_pool_commands :
  List.map (fun c => List.filter
                       (fun a => negb (String.prefix "--" a)
                                 && negb (String.prefix "/" a))
                       (List.tl (call_cmd c)))
    (st_trace (snd (generate_keys_with_cardano_cli (H := Sim.oracle 100)
                      Sim.generator "main" "mainnet" Sim.start)))
  = [["address"; "key-gen"];
     ["stake-address"; "key-gen"];
     ["address"; "key-hash"];
     ["stake-address"; "key-hash"];
     ["address"; "build"];
     ["address"; "build"];
     ["stake-address"; "build"];
     ["stake-address"; "registration-certificate"];
     ["stake-pool"; "key-gen"];
     ["node"; "key-gen-KES"];
     ["conway"; "governance"; "drep"; "key-gen"];
     ["address"; "key-gen"];
     ["stake-address"; "key-gen"];
     ["conway"; "governance"; "drep"; "key-gen"];
     ["address"; "key-hash"];
     ["stake-address"; "key-hash"];
     ["stake-address"; "delegation-certificate"; "placeholder_pool_id"]].
Proof. vm_compute. reflexivity. Qed.

(** ** More on the format conversions *)

Lemma ord_chr (z : Z) : 0 <= z < 256 -> Py.ord (Py.chr z) = z.
Proof.
  intros Hz. unfold Py.ord, Py.chr.
  rewrite N_ascii_embedding; lia.
Qed.

Lemma hex_value_hex_digit (d : Z) :
  0 <= d < 16 -> Py.hex_value (Py.hex_digit d) = Some d.
Proof.
  intros Hd.
  assert (Hcases : d = 0 \/ d = 1 \/ d = 2 \/ d = 3 \/ d = 4 \/ d = 5 \/ d = 6
                   \/ d = 7 \/ d = 8 \/ d = 9 \/ d = 10 \/ d = 11 \/ d = 12
                   \/ d = 13 \/ d = 14 \/ d = 15) by lia.
  repeat (destruct Hcases as [-> | Hcases]; [reflexivity |]).
  subst. reflexivity.
Qed.

Lemma hex_digit_not_space (d : Z) :
  0 <= d < 16 -> Py.is_ascii_space (Py.hex_digit d) = false.
Proof.
  intros Hd.
  assert (Hcases : d = 0 \/ d = 1 \/ d = 2 \/ d = 3 \/ d = 4 \/ d = 5 \/ d = 6
                   \/ d = 7 \/ d = 8 \/ d = 9 \/ d = 10 \/ d = 11 \/ d = 12
                   \/ d = 13 \/ d = 14 \/ d = 15) by lia.
  repeat (destruct Hcases as [-> | Hcases]; [reflexivity |]).
  subst. reflexivity.
Qed.

(** the characters of [b.hex()] *)
Lemma chars_hex (b : list Z) :
  Py.chars (Py.hex b) =
  List.flat_map (fun x => [Py.hex_digit (x / 16); Py.hex_digit (x mod 16)]) b.
Proof. unfold Py.hex. apply chars_str. Qed.

Lemma fromhex_chars_hex (b : list Z) (fuel : nat) :
  Forall (fun v => 0 <= v < 256) b ->
  (2 * List.length b < fuel)%nat ->
  Py.fromhex_chars fuel
    (List.flat_map (fun x => [Py.hex_digit (x / 16); Py.hex_digit (x mod 16)]) b)
  = Some b.
Proof.
  intros Hb. revert fuel. induction Hb as [| x b Hx Hb IH]; intros fuel Hfuel.
  - destruct fuel; [simpl in Hfuel; lia | reflexivity].
  - destruct fuel as [| fuel]; [simpl in Hfuel; lia |].
    assert (Hhi : 0 <= x / 16 < 16)
      by (split; [apply Z.div_pos; lia | apply Z.div_lt_upper_bound; lia]).
    assert (Hlo : 0 <= x mod 16 < 16) by (apply Z.mod_pos_bound; lia).
    cbn [flat_map app Py.fromhex_chars].
    rewrite (hex_digit_not_space _ Hhi), (hex_value_hex_digit _ Hhi),
      (hex_value_hex_digit _ Hlo).
    rewrite IH by (simpl in Hfuel; lia).
    simpl. f_equal. f_equal. rewrite (Z.div_mod x 16) at 3 by lia. lia.
Qed.

(** [bytes.fromhex(b.hex()) == b] *)
Lemma fromhex_hex (b : list Z) :
  Forall (fun v => 0 <= v < 256) b -> Py.fromhex (Py.hex b) = Some b.
Proof.
  intros Hb. unfold Py.fromhex. rewrite chars_hex.
  apply fromhex_chars_hex; [exact Hb |].
  rewrite len_hex. lia.
Qed.

(** [b.hex()[:2 * n] == b[:n].hex()] *)
Lemma take_hex (n : nat) (b : list Z) :
  Py.take (2 * n) (Py.hex b) = Py.hex (List.firstn n b).
Proof.
  unfold Py.take. rewrite chars_hex. unfold Py.hex. f_equal.
  revert b. induction n as [| n IH]; intros b; [reflexivity |].
  destruct b as [| x b]; [reflexivity |].
  replace (2 * S n)%nat with (S (S (2 * n))) by lia.
  cbn [flat_map app firstn]. now rewrite IH.
Qed.

Lemma drop_append (s1 s2 : string) :
  Py.drop (Py.len s1) (s1 +:+ s2) = s2.
Proof.
  unfold Py.drop. rewrite chars_append, <- len_chars.
  rewrite skipn_app, Nat.sub_diag, skipn_all. simpl. apply str_chars.
Qed.

(** X14. [cbor_hex_to_bech32] never yields Bech32 text.  For a CBOR-tagged
    key, [58], two more characters and the hex form of the key bytes, it
    returns the prefix, the character [1] and the hex form of the first 28
    key bytes; the two characters after [58] are skipped unread. *)
Theorem cbor_hex_to_bech32_tagged (prefix : string) (c1 c2 : ascii)
  (key : list Z) :
  Forall (fun v => 0 <= v < 256) key ->
  cbor_hex_to_bech32 ("58" +:+ Py.str [c1; c2] +:+ Py.hex key) prefix
  = prefix +:+ "1" +:+ Py.hex (List.firstn 28 key).
Proof.
  intros Hkey. unfold cbor_hex_to_bech32.
  change (Py.startswith "58" ("58" +:+ Py.str [c1; c2] +:+ Py.hex key))
    with true. cbv iota.
  change ("58" +:+ Py.str [c1; c2] +:+ Py.hex key)
    with (Py.str ["5"; "8"; c1; c2]%char +:+ Py.hex key).
  change 4%nat with (Py.len (Py.str ["5"; "8"; c1; c2]%char)).
  rewrite drop_append, (fromhex_hex key Hkey).
  unfold bech32_encode_two_arguments.
  do 2 f_equal. exact (take_hex 28 key).
Qed.

Lemma cbor_hex_to_bech32_tagged_witness :
  cbor_hex_to_bech32 "5820aabbcc" "addr_vk" = "addr_vk1aabbcc".
Proof.
  refine (cbor_hex_to_bech32_tagged "addr_vk" "2" "0" [170; 187; 204] _).
  repeat (apply List.Forall_cons; [lia |]). apply List.Forall_nil.
Defined.


Lemma startswith_58 (s : string) : Py.startswith "58" ("58" +:+ s) = true.
Proof.
  unfold Py.startswith. cbv [String.append String.prefix].
  destruct s; reflexivity.
Qed.

(** [generate_proper_cbor_hex] returns its input or a text that starts with
    the CBOR tag [58]. *)
Lemma generate_proper_cbor_hex_cases (cbor_hex : string) :
  generate_proper_cbor_hex cbor_hex = cbor_hex \/
  Py.startswith "58" (generate_proper_cbor_hex cbor_hex) = true.
Proof.
  unfold generate_proper_cbor_hex.
  destruct (Py.startswith "58" cbor_hex) eqn:H58; [now left |].
  unfold vkey_prefixes, cbor_hex_prefix_loop, tuple_is_not_None.
  destruct (bytes (snd (bech32.decode "addr_vkh" cbor_hex)));
    [right; apply startswith_58 | now left].
Qed.

(** X13. [generate_proper_cbor_hex] is idempotent, and it returns its input
    unchanged whenever the input does not decode as a segwit address under
    the prefix [addr_vkh]: a raw hex key of 64 or 128 characters is not
    given the CBOR tag. *)
Theorem generate_proper_cbor_hex_idempotent (cbor_hex : string) :
  generate_proper_cbor_hex (generate_proper_cbor_hex cbor_hex)
    = generate_proper_cbor_hex cbor_hex /\
  (snd (bech32.decode "addr_vkh" cbor_hex) = None ->
   generate_proper_cbor_hex cbor_hex = cbor_hex).
Proof.
  split.
  - destruct (generate_proper_cbor_hex_cases cbor_hex) as [Heq | H58].
    + now rewrite !Heq.
    + unfold generate_proper_cbor_hex at 1. now rewrite H58.
  - intros Hnone. unfold generate_proper_cbor_hex.
    destruct (Py.startswith "58" cbor_hex); [reflexivity |].
    unfold vkey_prefixes, cbor_hex_prefix_loop, tuple_is_not_None.
    now rewrite Hnone.
Qed.

Lemma bytes_ok (x : option (list Z)) (key_bytes : list Z) :
  bytes x = Ok key_bytes -> x = Some key_bytes.
Proof.
  unfold bytes. destruct x as [l |]; [| discriminate].
  destruct (forallb _ l); [| discriminate]. now intros [= ->].
Qed.

(** X12. [generate_proper_credential_hash] never returns more than 56
    characters; it returns exactly 56 for an input of 56 characters and for
    every input that does not decode as a segwit address under the prefix
    [addr_vkh]; a shorter result is the hex form of a decoded payload of
    fewer than 28 bytes. *)
Theorem credential_hash_length (key_data : string) :
  (Py.len (generate_proper_credential_hash key_data) <= 56)%nat /\
  (Py.len key_data = 56%nat ->
   generate_proper_credential_hash key_data = key_data) /\
  (Py.len key_data <> 56%nat ->
   snd (bech32.decode "addr_vkh" key_data) = None ->
   generate_proper_credential_hash key_data = sha256_fallback key_data /\
   Py.len (generate_proper_credential_hash key_data) = 56%nat) /\
  (Py.len (generate_proper_credential_hash key_data) <> 56%nat ->
   exists witprog,
     snd (bech32.decode "addr_vkh" key_data) = Some witprog /\
     (List.length witprog < 28)%nat /\
     generate_proper_credential_hash key_data = Py.hex witprog).
Proof.
  destruct (Nat.eq_dec (Py.len key_data) 56%nat) as [H56 | H56].
  - pose proof (credential_hash_56 key_data H56) as Heq.
    rewrite Heq, H56. repeat split; try lia; congruence.
  - pose proof (credential_hash_cases key_data H56) as Hc.
    destruct (bech32.decode "addr_vkh" key_data) as [witver [witprog |]];
      simpl snd.
    + destruct (bytes (Some witprog)) as [key_bytes | e] eqn:Hb.
      * apply bytes_ok in Hb. injection Hb as <-.
        rewrite Hc, len_hex, length_firstn.
        split; [lia |]. split; [congruence |]. split; [discriminate |].
        intros Hlen. exists witprog. split; [reflexivity |].
        split; [lia |]. now rewrite firstn_all2 by lia.
      * rewrite Hc, sha256_fallback_len.
        split; [lia |]. split; [congruence |]. split; [discriminate |].
        congruence.
    + rewrite Hc, sha256_fallback_len.
      split; [lia |]. split; [congruence |]. split; [auto |]. congruence.
Qed.

(** ** The generator of a ticker *)

Lemma upper_char_idempotent (c : ascii) :
  Py.upper_char (Py.upper_char c) = Py.upper_char c.
Proof. destruct c as [[] [] [] [] [] [] [] []]; reflexivity. Qed.

Lemma upper_char_lower_char (c : ascii) :
  Py.upper_char (Py.lower_char c) = Py.upper_char c.
Proof. destruct c as [[] [] [] [] [] [] [] []]; reflexivity. Qed.

Lemma upper_idempotent (s : string) : Py.upper (Py.upper s) = Py.upper s.
Proof.
  unfold Py.upper. rewrite chars_str, map_map. f_equal.
  apply map_ext. intros c. apply upper_char_idempotent.
Qed.

Lemma upper_lower (s : string) : Py.upper (Py.lower s) = Py.upper s.
Proof.
  unfold Py.upper, Py.lower. rewrite chars_str, map_map. f_equal.
  apply map_ext. intros c. apply upper_char_lower_char.
Qed.


(** ** Key derivation in detail *)

Section KeyDerivation.
Context {W : Type} `{Oracle W}.

Lemma tool_inv self name t (st st' : state W) :
  tool self name st = (Ok t, st') -> tools self !! name = Some t /\ st' = st.
Proof.
  unfold tool, getitem. destruct (tools self !! name); [| discriminate].
  intros Heq. inversion Heq. now subst.
Qed.

Lemma checked_stdout_inv msg result text (st st' : state W) :
  checked_stdout msg result st = (Ok text, st') ->
  returncode result = 0 /\ text = Py.strip (stdout result) /\ st' = st.
Proof.
  unfold checked_stdout.
  destruct (returncode result =? 0) eqn:Hrc; simpl; [| discriminate].
  intros Heq. inversion Heq. apply Z.eqb_eq in Hrc. auto.
Qed.

Lemma run_cardano_address_inv cmd input result (st st' : state W) :
  run_cardano_address cmd input st = (Ok result, st') ->
  exists w,
    cardano_address cmd input (st_world st) = (Ok result, w) /\
    st' = State w (st_fs st) (st_tmp st)
                (st_trace st ++ [Call cmd (Some input)]).
Proof.
  unfold run_cardano_address.
  destruct (cardano_address cmd input (st_world st)) as [r w].
  intros Heq. inversion Heq. subst. now exists w.
Qed.

(** One checked command of [cardano-address]: what a successful run is. *)
Lemma checked_command_inv self (args : list string) input msg text
  (st st' : state W) :
  (tool self "cardano-address" ≫= fun t =>
   run_cardano_address (t :: args) input ≫= fun result =>
   checked_stdout msg result) st = (Ok text, st') ->
  exists t result w,
    tools self !! "cardano-address" = Some t /\
    cardano_address (t :: args) input (st_world st) = (Ok result, w) /\
    returncode result = 0 /\
    text = Py.strip (stdout result) /\
    st' = State w (st_fs st) (st_tmp st)
                (st_trace st ++ [Call (t :: args) (Some input)]).
Proof.
  intros Hrun.
  apply bind_inv_ok in Hrun as (t & s0 & Ht & Hrun).
  apply tool_inv in Ht as [Ht ->].
  apply bind_inv_ok in Hrun as (result & s1 & Hcall & Hrun).
  apply run_cardano_address_inv in Hcall as (w & Hcall & ->).
  apply checked_stdout_inv in Hrun as (Hrc & -> & ->).
  now exists t, result, w.
Qed.

(** A successful [derive_key_pair] has made two calls: [key child] on the
    root key, then [key public] on the signing key that the first call
    printed.  The error messages play no part. *)
Lemma derive_key_pair_inv self derivation_path msg1 msg2 root_key skey vkey
  (st st' : state W) :
  derive_key_pair self derivation_path msg1 msg2 root_key st
    = (Ok (skey, vkey), st') ->
  exists t r1 w1 r2 w2,
    tools self !! "cardano-address" = Some t /\
    cardano_address [t; "key"; "child"; derivation_path] root_key (st_world st)
      = (Ok r1, w1) /\
    returncode r1 = 0 /\ skey = Py.strip (stdout r1) /\
    cardano_address [t; "key"; "public"; "--with-chain-code"] skey w1
      = (Ok r2, w2) /\
    returncode r2 = 0 /\ vkey = Py.strip (stdout r2) /\
    st' = State w2 (st_fs st) (st_tmp st)
            (st_trace st
             ++ [Call [t; "key"; "child"; derivation_path] (Some root_key);
                 Call [t; "key"; "public"; "--with-chain-code"] (Some skey)]).
Proof.
  unfold derive_key_pair. intros Hrun.
  apply bind_inv_ok in Hrun as (t & s0 & Ht & Hrun).
  apply tool_inv in Ht as [Ht ->].
  apply bind_inv_ok in Hrun as (r1 & s1 & Hc1 & Hrun).
  apply run_cardano_address_inv in Hc1 as (w1 & Hc1 & ->).
  apply bind_inv_ok in Hrun as (skey' & s2 & Hk1 & Hrun).
  apply checked_stdout_inv in Hk1 as (Hrc1 & -> & ->).
  apply bind_inv_ok in Hrun as (t' & s3 & Ht' & Hrun).
  apply tool_inv in Ht' as [Ht' ->].
  assert (t' = t) as -> by congruence.
  apply bind_inv_ok in Hrun as (r2 & s4 & Hc2 & Hrun).
  apply run_cardano_address_inv in Hc2 as (w2 & Hc2 & ->).
  apply bind_inv_ok in Hrun as (vkey' & s5 & Hk2 & Hrun).
  apply checked_stdout_inv in Hk2 as (Hrc2 & -> & ->).
  inversion Hrun; subst. simpl in *.
  exists t, r1, w1, r2, w2. rewrite <- app_assoc. simpl. tauto.
Qed.

Lemma derive_key_pair_intro self derivation_path msg1 msg2 root_key
  (st : state W) t r1 w1 r2 w2 :
  tools self !! "cardano-address" = Some t ->
  cardano_address [t; "key"; "child"; derivation_path] root_key (st_world st)
    = (Ok r1, w1) ->
  returncode r1 = 0 ->
  cardano_address [t; "key"; "public"; "--with-chain-code"]
    (Py.strip (stdout r1)) w1 = (Ok r2, w2) ->
  returncode r2 = 0 ->
  derive_key_pair self derivation_path msg1 msg2 root_key st
  = (Ok (Py.strip (stdout r1), Py.strip (stdout r2)),
     State w2 (st_fs st) (st_tmp st)
       (st_trace st
        ++ [Call [t; "key"; "child"; derivation_path] (Some root_key);
            Call [t; "key"; "public"; "--with-chain-code"]
                 (Some (Py.strip (stdout r1)))])).
Proof.
  intros Ht Hc1 Hrc1 Hc2 Hrc2. unfold derive_key_pair.
  rewrite (bind_ok _ _ st t st) by (unfold tool, getitem; now rewrite Ht).
  erewrite bind_ok; [| unfold run_cardano_address; rewrite Hc1; reflexivity].
  erewrite bind_ok; [| unfold checked_stdout; rewrite Hrc1; reflexivity].
  erewrite bind_ok; [| unfold tool, getitem; rewrite Ht; reflexivity].
  erewrite bind_ok;
    [| unfold run_cardano_address; simpl; rewrite Hc2; reflexivity].
  erewrite bind_ok; [| unfold checked_stdout; rewrite Hrc2; reflexivity].
  simpl. rewrite <- app_assoc. reflexivity.
Qed.

(** A successful key derivation does not depend on the error messages. *)
Lemma derive_key_pair_messages self derivation_path msg1 msg2 msg1' msg2'
  root_key keys (st st' : state W) :
  derive_key_pair self derivation_path msg1 msg2 root_key st = (Ok keys, st') ->
  derive_key_pair self derivation_path msg1' msg2' root_key st = (Ok keys, st').
Proof.
  destruct keys as [skey vkey]. intros Hrun.
  apply derive_key_pair_inv in Hrun
    as (t & r1 & w1 & r2 & w2 & Ht & Hc1 & Hrc1 & -> & Hc2 & Hrc2 & -> & ->).
  eapply derive_key_pair_intro; eassumption.
Qed.

(** X1. The cold key pair is the payment key pair and the hot key pair is
    the staking key pair: from the same state, [derive_cold_key] returns
    exactly when [derive_payment_key] does, with the same two keys and the
    same final state, and so do [derive_hot_key] and [derive_staking_key]. *)
Theorem cold_and_hot_keys_are_payment_and_staking_keys self root_key purpose
  keys (st st' : state W) :
  (derive_payment_key self root_key purpose st = (Ok keys, st') <->
   derive_cold_key self root_key st = (Ok keys, st')) /\
  (derive_staking_key self root_key st = (Ok keys, st') <->
   derive_hot_key self root_key st = (Ok keys, st')).
Proof.
  unfold derive_payment_key, derive_cold_key, derive_staking_key,
    derive_hot_key.
  repeat split; apply derive_key_pair_messages.
Qed.

(** X2. For every role, a successful key derivation has made exactly two
    calls and written no file: [key child] with the path of the role on the
    root key, then [key public --with-chain-code] on the signing key just
    derived; the keys returned are the stripped outputs of the two calls. *)
Theorem derive_role_success self role root_key purpose skey vkey
  (st st' : state W) :
  derive_role self role root_key purpose st = (Ok (skey, vkey), st') ->
  exists t r1 w1 r2,
    tools self !! "cardano-address" = Some t /\
    cardano_address [t; "key"; "child"; spec_path role] root_key (st_world st)
      = (Ok r1, w1) /\
    skey = Py.strip (stdout r1) /\
    cardano_address [t; "key"; "public"; "--with-chain-code"] skey w1
      = (Ok r2, st_world st') /\
    vkey = Py.strip (stdout r2) /\
    st_fs st' = st_fs st /\
    st_trace st' =
    st_trace st
    ++ [Call [t; "key"; "child"; spec_path role] (Some root_key);
        Call [t; "key"; "public"; "--with-chain-code"] (Some skey)].
Proof.
  intros Hrun.
  assert (Hpair : exists msg1 msg2,
             derive_key_pair self (spec_path role) msg1 msg2 root_key st
             = (Ok (skey, vkey), st')).
  { destruct role; simpl in *; eexists; eexists; exact Hrun. }
  destruct Hpair as (msg1 & msg2 & Hpair).
  apply derive_key_pair_inv in Hpair
    as (t & r1 & w1 & r2 & w2 & Ht & Hc1 & Hrc1 & Hs & Hc2 & Hrc2 & Hv & ->).
  exists t, r1, w1, r2. simpl. tauto.
Qed.

End KeyDerivation.

Lemma derive_role_success_witness :
  let st' :=
    State 2%nat ∅ ∅
      [Call ["/bin/cardano-address"; "key"; "child"; "1852H/1815H/0H/0/0"]
            (Some "root");
       Call ["/bin/cardano-address"; "key"; "public"; "--with-chain-code"]
            (Some "xsk_child")] in
  derive_role (H := Det.oracle) Sim.generator Cold "root" "main" Sim.start
    = (Ok ("xsk_child", "xsk_public"), st') /\
  exists t r1 w1 r2,
    tools Sim.generator !! "cardano-address" = Some t /\
    cardano_address (Oracle := Det.oracle)
      [t; "key"; "child"; spec_path Cold] "root" (st_world Sim.start)
      = (Ok r1, w1) /\
    "xsk_child" = Py.strip (stdout r1) /\
    cardano_address (Oracle := Det.oracle)
      [t; "key"; "public"; "--with-chain-code"] "xsk_child" w1
      = (Ok r2, st_world st') /\
    "xsk_public" = Py.strip (stdout r2) /\
    st_fs st' = st_fs Sim.start /\
    st_trace st' =
    st_trace Sim.start
    ++ [Call [t; "key"; "child"; spec_path Cold] (Some "root");
        Call [t; "key"; "public"; "--with-chain-code"] (Some "xsk_child")].
Proof.
  intros st'. split; [reflexivity |].
  exact (derive_role_success (H := Det.oracle) Sim.generator Cold "root" "main"
           "xsk_child" "xsk_public" Sim.start st' eq_refl).
Defined.

(** ** Verification with a deterministic tool *)

Section Deterministic.
Context {W : Type} `{Oracle W}.

Lemma result_blind_bind {A B : Type} (m : M W A) (f : A -> M W B) :
  result_blind m -> (forall a, result_blind (f a)) -> result_blind (m ≫= f).
Proof.
  intros Hm Hf st st'. unfold mbind, M_bind.
  specialize (Hm st st').
  destruct (m st) as [[a | e] s], (m st') as [[a' | e'] s'];
    simpl in Hm; inversion Hm; subst; [apply Hf | reflexivity].
Qed.

Lemma result_blind_tool self name : result_blind (tool self name : M W string).
Proof.
  unfold tool, getitem.
  destruct (tools self !! name); intros st st'; reflexivity.
Qed.

Lemma result_blind_checked_stdout msg result :
  result_blind (checked_stdout msg result : M W string).
Proof.
  unfold checked_stdout.
  destruct (negb _); intros st st'; reflexivity.
Qed.

Hypothesis deterministic : deterministic_address_tool W.

Lemma result_blind_run_cardano_address cmd input :
  result_blind (run_cardano_address cmd input).
Proof.
  intros st st'. unfold run_cardano_address.
  pose proof (deterministic cmd input (st_world st) (st_world st')) as Hd.
  destruct (cardano_address cmd input (st_world st)) as [r w],
    (cardano_address cmd input (st_world st')) as [r' w'].
  exact Hd.
Qed.

Lemma result_blind_generate_payment_address self payment_vkey staking_vkey
  network :
  result_blind (generate_payment_address self payment_vkey staking_vkey network).
Proof.
  unfold generate_payment_address.
  repeat first
    [ apply result_blind_bind; [| intros]
    | apply result_blind_tool
    | apply result_blind_run_cardano_address
    | apply result_blind_checked_stdout ].
Qed.

Lemma result_blind_generate_staking_address self staking_vkey network :
  result_blind (generate_staking_address self staking_vkey network).
Proof.
  unfold generate_staking_address.
  repeat first
    [ apply result_blind_bind; [| intros]
    | apply result_blind_tool
    | apply result_blind_run_cardano_address
    | apply result_blind_checked_stdout ].
Qed.

(** X3. [generate_address_candidate] runs the same commands as
    [generate_payment_address].  With a [cardano-address] that answers a
    command line and an input the same way every time, the candidates equal
    the addresses whenever the eight computations of [generate_wallet]
    succeed, and [generate_wallet] goes on to validate and save: the
    verification can only fail for a tool that changes its answer. *)
Theorem deterministic_tool_passes_verification self purpose network
  (st : state W) mnemonic staking_skey staking_vkey base_addr reward_addr
  base_addr_candidate reward_addr_candidate s8 :
  computed self purpose network st mnemonic staking_skey staking_vkey
    base_addr reward_addr base_addr_candidate reward_addr_candidate s8 ->
  (forall payment_vkey stake_vkey net,
     generate_address_candidate self payment_vkey stake_vkey net
     = generate_payment_address (W := W) self payment_vkey stake_vkey net) /\
  base_addr_candidate = base_addr /\
  reward_addr_candidate = reward_addr /\
  fst (generate_wallet self purpose network st) <> Raise base_mismatch /\
  fst (generate_wallet self purpose network st) <> Raise reward_mismatch.
Proof.
  intros Hc.
  assert (Hb : base_addr_candidate = base_addr /\
               reward_addr_candidate = reward_addr).
  { destruct Hc as (s1 & root_key & s2 & payment_skey & payment_vkey & s3 & s4
                    & s5 & s6 & s7 & _ & _ & _ & _ & H5 & H6 & H7 & H8).
    split.
    - pose proof (result_blind_generate_payment_address self payment_vkey
                    staking_vkey network s4 s6) as Hd.
      change (generate_address_candidate self payment_vkey staking_vkey network)
        with (generate_payment_address self payment_vkey staking_vkey network)
        in H7.
      rewrite H5, H7 in Hd. simpl in Hd. congruence.
    - pose proof (result_blind_generate_staking_address self staking_vkey
                    network s5 s7) as Hd.
      rewrite H6, H8 in Hd. simpl in Hd. congruence. }
  destruct Hb as [-> ->].
  split; [reflexivity |]. split; [reflexivity |]. split; [reflexivity |].
  rewrite (generate_wallet_computed _ _ _ _ _ _ _ _ _ _ _ _ Hc).
  unfold verify_and_save, verify_address_candidates.
  rewrite !String.eqb_refl. cbn [negb].
  destruct (negb (validate_address base_addr)); [split; discriminate |].
  destruct (negb (validate_address reward_addr)); [split; discriminate |].
  destruct (save_wallet_files_ok self purpose base_addr base_addr reward_addr
              reward_addr staking_skey staking_vkey mnemonic s8) as [s Hs].
  rewrite (bind_ok _ _ _ _ _ Hs). split; discriminate.
Qed.

End Deterministic.

Lemma deterministic_det : @deterministic_address_tool nat Det.oracle.
Proof.
  intros cmd input w w'. simpl. unfold Det.address_tool.
  repeat match goal with
         | |- context [match ?x with _ => _ end] => destruct x
         end; reflexivity.
Defined.

Lemma deterministic_tool_passes_verification_witness :
  exists s8,
    computed (H := Det.oracle) Sim.generator "main" "mainnet" Sim.start
      Sim.phrase "xsk_child" "xsk_public" Sim.base_address Sim.stake_address
      Sim.base_address Sim.stake_address s8 /\
    fst (generate_wallet (H := Det.oracle) Sim.generator "main" "mainnet"
           Sim.start) <> Raise base_mismatch /\
    fst (generate_wallet (H := Det.oracle) Sim.generator "main" "mainnet"
           Sim.start) <> Raise reward_mismatch.
Proof.
  pose (o := Det.oracle).
  pose (g := Sim.generator).
  pose (s1 := snd (get_or_create_shared_mnemonic (H := o) g Sim.start)).
  pose (s2 := snd (mnemonic_to_root_key (H := o) g Sim.phrase s1)).
  pose (s3 := snd (derive_payment_key (H := o) g "xsk_from-recovery-phrase"
                     "main" s2)).
  pose (s4 := snd (derive_staking_key (H := o) g "xsk_from-recovery-phrase" s3)).
  pose (s5 := snd (generate_payment_address (H := o) g "xsk_public"
                     "xsk_public" "mainnet" s4)).
  pose (s6 := snd (generate_staking_address (H := o) g "xsk_public" "mainnet"
                     s5)).
  pose (s7 := snd (generate_address_candidate (H := o) g "xsk_public"
                     "xsk_public" "mainnet" s6)).
  pose (s8 := snd (generate_staking_address (H := o) g "xsk_public" "mainnet"
                     s7)).
  exists s8.
  assert (Hc : computed (H := o) g "main" "mainnet" Sim.start
                 Sim.phrase "xsk_child" "xsk_public" Sim.base_address
                 Sim.stake_address Sim.base_address Sim.stake_address s8).
  { exists s1, "xsk_from-recovery-phrase", s2, "xsk_child", "xsk_public", s3,
      s4, s5, s6, s7.
    repeat split; vm_compute; reflexivity. }
  destruct (deterministic_tool_passes_verification (H := o) deterministic_det
              g "main" "mainnet" Sim.start _ _ _ _ _ _ _ _ Hc)
    as (_ & _ & _ & Hb & Hr).
  split; [exact Hc |]. split; [exact Hb | exact Hr].
Defined.

(** ** What a successful [generate_wallet] returns *)

Section WalletData.
Context {W : Type} `{Oracle W}.

Lemma verify_and_save_ok_inv self purpose mnemonic staking_skey staking_vkey
  base_addr reward_addr base_addr_candidate reward_addr_candidate
  (s st' : state W) wallet_data :
  verify_and_save self purpose mnemonic staking_skey staking_vkey base_addr
    reward_addr base_addr_candidate reward_addr_candidate s
    = (Ok wallet_data, st') ->
  base_addr_candidate = base_addr /\
  reward_addr_candidate = reward_addr /\
  validate_address base_addr = true /\
  validate_address reward_addr = true /\
  wallet_data = wallet_dict base_addr base_addr reward_addr reward_addr
                  staking_skey staking_vkey mnemonic /\
  save_wallet_files self purpose wallet_data s
    = (Ok (joinpath (home_dir self) purpose), st').
Proof.
  unfold verify_and_save, verify_address_candidates. intros Hv.
  destruct (negb (String.eqb base_addr base_addr_candidate)) eqn:Hb;
    [discriminate |].
  destruct (negb (String.eqb reward_addr reward_addr_candidate)) eqn:Hr;
    [discriminate |].
  apply negb_false_iff in Hb, Hr. apply String.eqb_eq in Hb, Hr. subst.
  destruct (negb (validate_address base_addr_candidate)) eqn:Hvb;
    [discriminate |].
  destruct (negb (validate_address reward_addr_candidate)) eqn:Hvr;
    [discriminate |].
  apply negb_false_iff in Hvb, Hvr.
  apply bind_inv_ok in Hv as (wallet_dir & s' & Hs & Hret).
  inversion Hret; subst.
  destruct (save_wallet_files_ok self purpose base_addr_candidate
              base_addr_candidate reward_addr_candidate reward_addr_candidate
              staking_skey staking_vkey mnemonic s) as [s0 Hs0].
  rewrite Hs0 in Hs. inversion Hs; subst.
  repeat split; assumption.
Qed.


End WalletData.


(** ** One ticker, several purposes *)

Section Purposes.
Context {W : Type} `{Oracle W}.
Hypothesis deterministic : deterministic_address_tool W.

Lemma result_blind_bind2 {A B : Type} (m : M W A) (f g : A -> M W B) :
  result_blind m ->
  (forall a (s s' : state W), fst (f a s) = fst (g a s')) ->
  forall st st' : state W, fst ((m ≫= f) st) = fst ((m ≫= g) st').
Proof.
  intros Hm Hfg st st'. unfold mbind, M_bind.
  specialize (Hm st st').
  destruct (m st) as [[a | e] s], (m st') as [[a' | e'] s'];
    simpl in Hm; inversion Hm; subst; [apply Hfg | reflexivity].
Qed.

Lemma result_blind_derive_key_pair self derivation_path msg1 msg2 root_key :
  result_blind (derive_key_pair self derivation_path msg1 msg2 root_key).
Proof.
  unfold derive_key_pair.
  repeat first
    [ apply result_blind_bind; [| intros]
    | apply result_blind_tool
    | apply (result_blind_run_cardano_address deterministic)
    | apply result_blind_checked_stdout
    | (intros st st'; reflexivity) ].
Qed.

Lemma result_blind_mnemonic_to_root_key self mnemonic :
  result_blind (mnemonic_to_root_key self mnemonic).
Proof.
  unfold mnemonic_to_root_key.
  repeat first
    [ apply result_blind_bind; [| intros]
    | apply result_blind_tool
    | apply (result_blind_run_cardano_address deterministic)
    | apply result_blind_checked_stdout ].
Qed.

Lemma verify_and_save_purpose self purpose purpose' mnemonic staking_skey
  staking_vkey base_addr reward_addr base_addr_candidate
  reward_addr_candidate (s s' : state W) :
  fst (verify_and_save self purpose mnemonic staking_skey staking_vkey
         base_addr reward_addr base_addr_candidate reward_addr_candidate s)
  = fst (verify_and_save self purpose' mnemonic staking_skey staking_vkey
           base_addr reward_addr base_addr_candidate reward_addr_candidate s').
Proof.
  unfold verify_and_save.
  destruct (negb (verify_address_candidates base_addr base_addr_candidate));
    [reflexivity |].
  destruct (negb (verify_address_candidates reward_addr reward_addr_candidate));
    [reflexivity |].
  destruct (negb (validate_address base_addr)); [reflexivity |].
  destruct (negb (validate_address reward_addr)); [reflexivity |].
  destruct (save_wallet_files_ok self purpose base_addr base_addr_candidate
              reward_addr reward_addr_candidate staking_skey staking_vkey
              mnemonic s) as [s0 Hs0].
  destruct (save_wallet_files_ok self purpose' base_addr base_addr_candidate
              reward_addr reward_addr_candidate staking_skey staking_vkey
              mnemonic s') as [s1 Hs1].
  rewrite (bind_ok _ _ _ _ _ Hs0), (bind_ok _ _ _ _ _ Hs1). reflexivity.
Qed.


End Purposes.


(** ** The files of a wallet *)

Lemma wallet_file_inj self purpose purpose' suffix suffix' :
  wallet_file self purpose suffix = wallet_file self purpose' suffix' ->
  purpose = purpose' /\ suffix = suffix'.
Proof.
  unfold wallet_file, joinpath. intros Heq.
  apply app_inj_tail in Heq as [Hdir Hname].
  apply app_inj_tail in Hdir as [_ ->]. split; [reflexivity |].
  apply String.app_inj in Hname. apply String.app_inj in Hname.
  now apply String.app_inj in Hname.
Qed.

Section WalletFiles.
Context {W : Type} `{Oracle W}.

(** [write_item], when it returns, has put [d[k]] into the file and left
    everything else as it was. *)
Lemma write_item_inv (p : path) (d : gmap string string) (k : string)
  (st st' : state W) u :
  write_item p d k st = (Ok u, st') ->
  is_Some (d !! k) /\
  st_fs st' !! p = d !! k /\
  (forall q, q <> p -> st_fs st' !! q = st_fs st !! q) /\
  st_world st' = st_world st /\ st_trace st' = st_trace st.
Proof.
  destruct (d !! k) as [v |] eqn:Hk.
  - rewrite (write_item_ok p d k v st Hk). intros Heq. inversion Heq; subst.
    simpl. split; [eauto |]. split; [apply lookup_insert_eq |].
    split; [| auto]. intros q Hq. now rewrite !lookup_insert_ne by congruence.
  - rewrite (write_item_missing p d k st Hk). discriminate.
Qed.

(** After [save_wallet_files] has returned, each of the seven files holds
    the entry of the wallet data that belongs to it. *)
Lemma save_wallet_files_lookup self purpose (d : gmap string string)
  (st st' : state W) wallet_dir :
  save_wallet_files self purpose d st = (Ok wallet_dir, st') ->
  (forall suffix key,
     (suffix, key) ∈ wallet_file_keys ->
     is_Some (d !! key) /\
     st_fs st' !! wallet_file self purpose suffix = d !! key) /\
  (forall q, ~ is_wallet_file self purpose q -> st_fs st' !! q = st_fs st !! q) /\
  st_world st' = st_world st /\ st_trace st' = st_trace st.
Proof.
  unfold save_wallet_files. intros Hs.
  apply bind_inv_ok in Hs as (u1 & s1 & H1 & Hs).
  apply bind_inv_ok in Hs as (u2 & s2 & H2 & Hs).
  apply bind_inv_ok in Hs as (u3 & s3 & H3 & Hs).
  apply bind_inv_ok in Hs as (u4 & s4 & H4 & Hs).
  apply bind_inv_ok in Hs as (u5 & s5 & H5 & Hs).
  apply bind_inv_ok in Hs as (u6 & s6 & H6 & Hs).
  apply bind_inv_ok in Hs as (u7 & s7 & H7 & Hs).
  inversion Hs; subst s7. clear Hs.
  apply write_item_inv in H1 as (K1 & L1 & O1 & W1 & T1).
  apply write_item_inv in H2 as (K2 & L2 & O2 & W2 & T2).
  apply write_item_inv in H3 as (K3 & L3 & O3 & W3 & T3).
  apply write_item_inv in H4 as (K4 & L4 & O4 & W4 & T4).
  apply write_item_inv in H5 as (K5 & L5 & O5 & W5 & T5).
  apply write_item_inv in H6 as (K6 & L6 & O6 & W6 & T6).
  apply write_item_inv in H7 as (K7 & L7 & O7 & W7 & T7).
  assert (Hne : forall s1 s2, s1 <> s2 ->
            wallet_file self purpose s1 <> wallet_file self purpose s2).
  { intros a b Hab Heq. apply wallet_file_inj in Heq as [_ Heq]. contradiction. }
  split; [| split; [| split; congruence]].
  - intros suffix key Hin. unfold wallet_file_keys in Hin.
    repeat (apply elem_of_cons in Hin as [Hin | Hin];
            [injection Hin as -> ->; split; [assumption |];
             repeat (first [ assumption
                           | rewrite O7 by (apply Hne; discriminate)
                           | rewrite O6 by (apply Hne; discriminate)
                           | rewrite O5 by (apply Hne; discriminate)
                           | rewrite O4 by (apply Hne; discriminate)
                           | rewrite O3 by (apply Hne; discriminate)
                           | rewrite O2 by (apply Hne; discriminate) ]) |]).
    now apply elem_of_nil in Hin.
  - intros q Hq.
    assert (Hq' : forall suffix, q <> wallet_file self purpose suffix)
      by (intros suffix ->; apply Hq; now exists suffix).
    now rewrite O7, O6, O5, O4, O3, O2, O1 by apply Hq'.
Qed.


End WalletFiles.


(** ** Which files the flows write *)

Section Isolation.
Context {W : Type} `{Oracle W}.

Lemma touches_import_key keep P key_path key wallet_data :
  touches keep P (import_key key_path key wallet_data : M W _).
Proof.
  unfold import_key. destruct key_path as [p |]; [| apply touches_mret].
  apply touches_bind; [apply touches_exists | intros e].
  destruct e; [| apply touches_mret].
  touches_auto.
Qed.

Lemma touches_import_existing_keys keep P self purpose payment_vkey_path
  payment_skey_path stake_vkey_path stake_skey_path :
  touches keep P
    (import_existing_keys self purpose payment_vkey_path payment_skey_path
       stake_vkey_path stake_skey_path : M W _).
Proof.
  unfold import_existing_keys.
  repeat (apply touches_bind; [apply touches_import_key | intros]).
  apply touches_mret.
Qed.

Lemma touches_generate_wallet self purpose network :
  touches (fun p => p = shared_mnemonic_file self \/ is_wallet_file self purpose p)
    any_call (generate_wallet self purpose network : M W _).
Proof.
  rewrite generate_wallet_unfold.
  apply touches_bind;
    [apply touches_get_or_create_shared_mnemonic; now left | intros mnemonic].
  eapply touches_weaken;
    [| | apply (generate_wallet_after_mnemonic self purpose network mnemonic)];
    [intros p Hp; now right | auto].
Qed.

Lemma touches_generate_wallet_with_import self purpose network payment_vkey_path
  payment_skey_path stake_vkey_path stake_skey_path :
  touches (is_wallet_file self purpose) any_call
    (generate_wallet_with_import self purpose network payment_vkey_path
       payment_skey_path stake_vkey_path stake_skey_path : M W _).
Proof.
  unfold generate_wallet_with_import.
  apply touches_bind; [apply touches_import_existing_keys | intros imported].
  destruct (bool_decide (imported = ∅)); [apply touches_raise |].
  apply touches_bind; [apply touches_getitem | intros payment_vkey].
  apply touches_bind; [apply touches_getitem | intros staking_vkey].
  apply touches_bind; [eauto with touches | intros base_addr].
  apply touches_bind; [eauto with touches | intros reward_addr].
  destruct (negb (validate_address base_addr)); [apply touches_raise |].
  destruct (negb (validate_address reward_addr)); [apply touches_raise |].
  apply touches_bind; [apply touches_save_wallet_files | intros wallet_dir].
  apply touches_mret.
Qed.


End Isolation.


(** ** A tool that is not installed *)

Section MissingTool.
Context {W : Type} `{Oracle W}.

Lemma get_or_create_shared_mnemonic_total self (st : state W) :
  exists mnemonic st',
    get_or_create_shared_mnemonic self st = (Ok mnemonic, st') /\
    st_trace st' = st_trace st /\
    is_Some (st_fs st' !! shared_mnemonic_file self).
Proof.
  destruct (st_fs st !! shared_mnemonic_file self) as [text |] eqn:Hf.
  - exists (Py.strip text), st.
    rewrite (get_existing_shared_mnemonic self st text Hf), Hf. eauto.
  - destruct (mnemo_generate (st_world st)) as [m w] eqn:Hg.
    eexists _, _.
    split; [exact (create_shared_mnemonic self st m w Hf Hg) |].
    split; [reflexivity |].
    cbv beta iota delta [st_fs]. rewrite lookup_insert_eq. eauto.
Qed.

Lemma tool_missing self name (st : state W) :
  tools self !! name = None ->
  tool self name st = (Raise (KeyError name), st).
Proof. intros Hn. unfold tool, getitem. now rewrite Hn. Qed.

(** X7. A generator whose tool table lacks a program fails before it runs
    anything.  Without [cardano-address], [generate_wallet] raises
    [KeyError] and has made no call, but has created the shared mnemonic
    file; without [cardano-cli], [generate_stake_pool_files] raises
    [KeyError] with no call made and no file written. *)
Theorem missing_tool_raises_key_error self purpose network (st : state W) :
  (tools self !! "cardano-address" = None ->
   let out := generate_wallet self purpose network st in
   fst out = Raise (KeyError "cardano-address") /\
   st_trace (snd out) = st_trace st /\
   is_Some (st_fs (snd out) !! shared_mnemonic_file self)) /\
  (tools self !! "cardano-cli" = None ->
   let out := generate_stake_pool_files self purpose network st in
   fst out = Raise (KeyError "cardano-cli") /\
   st_trace (snd out) = st_trace st /\
   st_fs (snd out) = st_fs st).
Proof.
  split.
  - intros Hn out. unfold out. rewrite generate_wallet_unfold.
    destruct (get_or_create_shared_mnemonic_total self st)
      as (mnemonic & s1 & Hm & Ht & Hf).
    rewrite (bind_ok _ _ _ _ _ Hm).
    rewrite (bind_raise _ _ s1 (KeyError "cardano-address") s1).
    + now repeat split.
    + unfold mnemonic_to_root_key.
      apply bind_raise. now apply tool_missing.
  - intros Hn out. unfold out, generate_stake_pool_files.
    assert (Hk : generate_keys_with_cardano_cli self purpose network st
                 = (Raise (KeyError "cardano-cli"),
                    State (snd (mkdtemp (st_world st)))
                          (st_fs st) ∅ (st_trace st))).
    { unfold generate_keys_with_cardano_cli, with_TemporaryDirectory.
      destruct (mkdtemp (st_world st)) as [temp_dir w].
      match goal with
      | |- context [mbind ?f (key_gen_block ?a ?b ?c ?d ?e ?g ?h ?i ?j ?k ?l)] =>
          rewrite (bind_raise (key_gen_block a b c d e g h i j k l) f
                     (State w (st_fs st) ∅ (st_trace st))
                     (KeyError "cardano-cli")
                     (State w (st_fs st) ∅ (st_trace st)))
      end.
      - reflexivity.
      - unfold key_gen_block. apply bind_raise. now apply tool_missing. }
    rewrite (bind_raise _ _ _ _ _ Hk). now repeat split.
Qed.

End MissingTool.

Lemma missing_tool_raises_key_error_witness :
  let cli_only := init ["home"] {["cardano-cli" := "/bin/cardano-cli"]} "pool" in
  let address_only :=
    init ["home"] {["cardano-address" := "/bin/cardano-address"]} "pool" in
  fst (generate_wallet (H := Det.oracle) cli_only "main" "mainnet" Sim.start)
    = Raise (KeyError "cardano-address") /\
  fst (generate_stake_pool_files (H := Det.oracle) address_only "main"
         "mainnet" Sim.start)
    = Raise (KeyError "cardano-cli").
Proof.
  intros cli_only address_only.
  assert (Hn : tools cli_only !! "cardano-address" = None) by reflexivity.
  assert (Hc : tools address_only !! "cardano-cli" = None) by reflexivity.
  split.
  - exact (proj1 (proj1 (missing_tool_raises_key_error (H := Det.oracle)
                           cli_only "main" "mainnet" Sim.start) Hn)).
  - exact (proj1 (proj2 (missing_tool_raises_key_error (H := Det.oracle)
                           address_only "main" "mainnet" Sim.start) Hc)).
Defined.

(** ** The stake-pool flow *)

Section StakePoolFlow.
Context {W : Type} `{Oracle W}.

Lemma with_TemporaryDirectory_inv {A : Type} (body : string -> M W A)
  (st st' : state W) a :
  with_TemporaryDirectory body st = (Ok a, st') ->
  exists temp_dir s0 s1, body temp_dir s0 = (Ok a, s1).
Proof.
  unfold with_TemporaryDirectory.
  destruct (mkdtemp (st_world st)) as [temp_dir w].
  destruct (body temp_dir _) as [r s1] eqn:Hb.
  intros Heq. inversion Heq; subst. eauto.
Qed.

Lemma key_gen_block_inv self temp_dir sub vflag sflag vname sname msg vkey skey
  wallet_data wallet_data' (st st' : state W) :
  key_gen_block self temp_dir sub vflag sflag vname sname msg vkey skey
    wallet_data st = (Ok wallet_data', st') ->
  exists v s, wallet_data' = <[skey := s]> (<[vkey := v]> wallet_data).
Proof.
  unfold key_gen_block. intros Hb.
  do 8 (apply bind_inv_ok in Hb as (? & ? & _ & Hb)).
  apply bind_inv_ok in Hb as (s & ? & _ & Hb).
  inversion Hb; subst. eauto.
Qed.

Lemma key_hash_block_inv self temp_dir sub flag vname msg key wallet_data
  wallet_data' (st st' : state W) :
  key_hash_block self temp_dir sub flag vname msg key wallet_data st
    = (Ok wallet_data', st') ->
  exists v, wallet_data' = <[key := v]> wallet_data.
Proof.
  unfold key_hash_block. intros Hb.
  do 3 (apply bind_inv_ok in Hb as (? & ? & _ & Hb)).
  inversion Hb; subst. eauto.
Qed.

Lemma out_file_block_inv self temp_dir args oname extra msg key wallet_data
  wallet_data' (st st' : state W) :
  out_file_block self temp_dir args oname extra msg key wallet_data st
    = (Ok wallet_data', st') ->
  exists v, wallet_data' = <[key := v]> wallet_data.
Proof.
  unfold out_file_block. intros Hb.
  do 4 (apply bind_inv_ok in Hb as (? & ? & _ & Hb)).
  inversion Hb; subst. eauto.
Qed.

Lemma delegation_block_inv (result : CompletedProcess) (file key v0 : string)
  (wallet_data wallet_data' : gmap string string) (st st' : state W) :
  (if negb (returncode result =? 0)
   then mret (<[key := v0]> wallet_data)
   else text ← read_tmp file; mret (<[key := Py.strip text]> wallet_data)) st
    = (Ok wallet_data', st') ->
  exists v, wallet_data' = <[key := v]> wallet_data.
Proof.
  destruct (negb (returncode result =? 0)).
  - intros Hb. inversion Hb. eauto.
  - intros Hb. apply bind_inv_ok in Hb as (text & ? & _ & Hb).
    inversion Hb. eauto.
Qed.

(** The dictionary that the key generation returns has the entries of
    [cli_wallet_keys] and no other. *)
Lemma generate_keys_with_cardano_cli_entries self purpose network
  (st st' : state W) wallet_data :
  generate_keys_with_cardano_cli self purpose network st = (Ok wallet_data, st') ->
  forall k, is_Some (wallet_data !! k) <-> k ∈ cli_wallet_keys.
Proof.
  unfold generate_keys_with_cardano_cli. intros Hg.
  apply with_TemporaryDirectory_inv in Hg as (temp_dir & s0 & s' & Hb).
  repeat
    (apply bind_inv_ok in Hb as (? & ? & Hblock & Hb);
     first [apply key_gen_block_inv in Hblock as (? & ? & ->)
           | apply key_hash_block_inv in Hblock as (? & ->)
           | apply out_file_block_inv in Hblock as (? & ->)
           | clear Hblock]).
  apply delegation_block_inv in Hb as (v & ->). intros k.
  rewrite !lookup_insert_is_Some', lookup_empty.
  unfold cli_wallet_keys. rewrite !elem_of_cons, elem_of_nil.
  split; intros Hk.
  - repeat (destruct Hk as [<- | Hk];
            [solve [repeat first [left; reflexivity | right]] |]).
    destruct Hk as [? [=]].
  - repeat (destruct Hk as [-> | Hk];
            [solve [repeat first [left; reflexivity | right]] |]).
    destruct Hk.
Qed.

End StakePoolFlow.

Section StakePoolSave.
Context {W : Type} `{Oracle W}.

Lemma exists_in_insert (st : state W) (p q : path) (v : string) (w : W)
  (tmp : gmap string string) (trace : list call) :
  exists_in st q ->
  exists_in (State w (<[p := v]> (st_fs st)) tmp trace) q.
Proof.
  cbv beta iota delta [exists_in st_fs]. intros Hq.
  apply lookup_insert_is_Some'. now right.
Qed.

Lemma exists_in_written (p : path) (v : string) (w : W)
  (fs : gmap path string) (tmp : gmap string string) (trace : list call) :
  exists_in (State w (<[p := v]> fs) tmp trace) p.
Proof.
  cbv beta iota delta [exists_in st_fs].
  rewrite lookup_insert_eq. eauto.
Qed.

(** One file of [save_complete_wallet_files] whose entry is there: the file
    is written and the files written before stay. *)
Lemma write_item_with_step (p : path) (d : gmap string string) (k : string)
  (g : string -> string) (names : list path) (st : state W) :
  is_Some (d !! k) ->
  Forall (exists_in st) names ->
  exists st1, write_item_with p d k g st = (Ok tt, st1) /\
              Forall (exists_in st1) (p :: names).
Proof.
  intros [v Hk] Hn. unfold write_item_with, getitem. rewrite Hk.
  eexists. split; [reflexivity |].
  apply List.Forall_cons.
  - apply exists_in_written.
  - eapply List.Forall_impl; [| exact Hn].
    intros q Hq. cbv beta iota delta [exists_in st_fs] in Hq |- *.
    apply lookup_insert_is_Some'. right.
    apply lookup_insert_is_Some'. now right.
Qed.

Lemma write_item_step (p : path) (d : gmap string string) (k : string)
  (names : list path) (st : state W) :
  is_Some (d !! k) ->
  Forall (exists_in st) names ->
  exists st1, write_item p d k st = (Ok tt, st1) /\
              Forall (exists_in st1) (p :: names).
Proof. exact (write_item_with_step p d k (fun v => v) names st). Qed.

Lemma write_computed_step (p : path) (d : gmap string string) (k : string)
  (f : string -> string) (names : list path) (st : state W) :
  is_Some (d !! k) ->
  Forall (exists_in st) names ->
  exists st1, write_computed p d k f st = (Ok tt, st1) /\
              Forall (exists_in st1) (p :: names).
Proof.
  intros [v Hk] Hn. unfold write_computed, getitem. rewrite Hk.
  eexists. split; [reflexivity |].
  apply List.Forall_cons.
  - apply exists_in_written.
  - eapply List.Forall_impl; [| exact Hn].
    intros q Hq. now apply exists_in_insert.
Qed.

Lemma step_then {B : Type} (act : M W unit) (rest : M W B) (names : list path)
  (st : state W) (r : result B) (Q : state W -> Prop) :
  (exists st1, act st = (Ok tt, st1) /\ Forall (exists_in st1) names) ->
  (forall st1, Forall (exists_in st1) names ->
               exists st', rest st1 = (r, st') /\ Q st') ->
  exists st', (act;; rest) st = (r, st') /\ Q st'.
Proof.
  intros (st1 & Hact & Hn) Hrest.
  destruct (Hrest st1 Hn) as (st' & Hr & HQ).
  exists st'. split; [| exact HQ].
  now rewrite (bind_ok _ _ _ _ _ Hact).
Qed.

Ltac key_there Hkeys :=
  apply Hkeys; apply (bool_decide_unpack _); vm_compute; exact I.

Ltac save_step Hkeys :=
  match goal with
  | Hn : Forall _ _ |- _ =>
      eapply step_then;
      [ lazymatch goal with
        | |- exists _, write_item _ _ _ _ = _ /\ _ => apply write_item_step
        | |- exists _, write_computed _ _ _ _ _ = _ /\ _ =>
            apply write_computed_step
        | |- exists _, write_item_with _ _ _ _ _ = _ /\ _ =>
            apply write_item_with_step
        end;
        [key_there Hkeys | exact Hn]
      | clear Hn;
        let s := fresh "s" in let Hs := fresh "Hs" in intros s Hs ]
  end.

(** On a dictionary with the entries of the key generation and no recovery
    phrase, [save_complete_wallet_files] writes its 25 files, opens the file
    of the recovery phrase and raises. *)
Lemma save_complete_wallet_files_without_mnemonic self purpose
  (d : gmap string string) (st : state W) :
  (forall k, k ∈ cli_wallet_keys -> is_Some (d !! k)) ->
  d !! "mnemonic" = None ->
  exists st',
    save_complete_wallet_files self purpose d st
      = (Raise (KeyError "mnemonic"), st') /\
    (Forall (exists_in st')
       (List.map (joinpath (joinpath (home_dir self) purpose))
                 (List.rev complete_file_names)) /\
     st_fs st' !! wallet_file self purpose ".mnemonic.txt" = Some "").
Proof.
  intros Hkeys Hm.
  assert (Hnames : Forall (exists_in st) []) by apply List.Forall_nil.
  cbv beta zeta delta [save_complete_wallet_files].
  do 25 save_step Hkeys.
  rewrite (bind_raise _ _ _ _ _
             (write_item_missing (wallet_file self purpose ".mnemonic.txt") d
                "mnemonic" _ Hm)).
  eexists. split; [reflexivity |]. split.
  - match goal with Hn : Forall _ _ |- _ =>
      eapply List.Forall_impl; [| exact Hn] end.
    intros q Hq. now apply exists_in_insert.
  - cbv beta iota delta [st_fs]. apply lookup_insert_eq.
Qed.


Lemma mnemonic_not_cli_wallet_key : "mnemonic" ∉ cli_wallet_keys.
Proof. apply (bool_decide_unpack _). vm_compute. exact I. Qed.

(** When the key generation has returned, the flow raises [KeyError] in
    [save_complete_wallet_files], after the 25 files. *)
Lemma stake_pool_flow_after_keys self purpose network (st st1 : state W)
  wallet_data :
  generate_keys_with_cardano_cli self purpose network st = (Ok wallet_data, st1) ->
  exists st',
    generate_stake_pool_files self purpose network st
      = (Raise (KeyError "mnemonic"), st') /\
    (Forall (exists_in st')
       (List.map (joinpath (joinpath (home_dir self) purpose))
                 (List.rev complete_file_names)) /\
     st_fs st' !! wallet_file self purpose ".mnemonic.txt" = Some "").
Proof.
  intros Hk.
  pose proof (generate_keys_with_cardano_cli_entries _ _ _ _ _ _ Hk) as He.
  assert (Hm : wallet_data !! "mnemonic" = None).
  { destruct (wallet_data !! "mnemonic") as [v |] eqn:Hv; [| reflexivity].
    destruct mnemonic_not_cli_wallet_key. apply He. rewrite Hv. eauto. }
  destruct (save_complete_wallet_files_without_mnemonic self purpose
              wallet_data st1 (fun k Hin => proj2 (He k) Hin) Hm)
    as (st' & Hs & HQ).
  exists st'. split; [| exact HQ].
  unfold generate_stake_pool_files.
  rewrite (bind_ok _ _ _ _ _ Hk). now rewrite (bind_raise _ _ _ _ _ Hs).
Qed.


(** X8. Neither the stake-pool flow nor the import flow ever returns a
    wallet: in every state and for every behaviour of the external tools,
    [generate_stake_pool_files] and [generate_wallet_with_import] end in an
    exception. *)
Theorem stake_pool_and_import_flows_always_raise self purpose network
  payment_vkey_path payment_skey_path stake_vkey_path stake_skey_path
  (st : state W) :
  (exists e, fst (generate_stake_pool_files self purpose network st) = Raise e) /\
  (exists e, fst (generate_wallet_with_import self purpose network
                    payment_vkey_path payment_skey_path stake_vkey_path
                    stake_skey_path st) = Raise e).
Proof.
  split.
  - destruct (generate_keys_with_cardano_cli self purpose network st)
      as [[wallet_data | e] st1] eqn:Hk.
    + destruct (stake_pool_flow_after_keys _ _ _ _ _ _ Hk) as (st' & Hrun & _).
      exists (KeyError "mnemonic"). now rewrite Hrun.
    + exists e. unfold generate_stake_pool_files.
      now rewrite (bind_raise _ _ _ _ _ Hk).
  - destruct (generate_wallet_with_import self purpose network
                payment_vkey_path payment_skey_path stake_vkey_path
                stake_skey_path st) as [[wallet_data | e] st'] eqn:Hg.
    + now apply import_flow_never_returns in Hg.
    + now exists e.
Qed.

(** X10. The key generation of the stake-pool flow leaves nothing behind:
    whether it returns or raises, the stored files are what they were and
    the temporary directory is gone. *)
Theorem key_generation_leaves_no_file self purpose network (st : state W) :
  let out := generate_keys_with_cardano_cli self purpose network st in
  st_fs (snd out) = st_fs st /\ st_tmp (snd out) = ∅.
Proof.
  intros out. split.
  - apply map_eq. intros p.
    destruct (touches_generate_keys_with_cardano_cli no_file self purpose
                network st) as [Hf _].
    apply Hf. intros [].
  - unfold out, generate_keys_with_cardano_cli, with_TemporaryDirectory.
    destruct (mkdtemp (st_world st)) as [temp_dir w].
    match goal with |- context [let '(_, _) := ?b in _] => destruct b end.
    reflexivity.
Qed.

(** X11. The stake-pool key generation knows two networks only, mainnet
    and the rest: a network name outside the four known ones runs the
    commands of testnet ([--testnet-magic 1]), whatever the purpose, while
    the address methods of [generate_wallet] give that same name the
    mainnet tag. *)
Theorem unknown_network_is_testnet_for_cardano_cli self purpose purpose'
  network :
  network ∉ known_networks ->
  generate_keys_with_cardano_cli (W := W) self purpose network
    = generate_keys_with_cardano_cli self purpose' "testnet" /\
  network_tag network = network_tag "mainnet" /\
  network_tag "testnet" <> network_tag "mainnet".
Proof.
  intros Hn. split; [| split].
  - assert (Hne : String.eqb network "mainnet" = false).
    { apply String.eqb_neq. intros ->. apply Hn.
      apply list_elem_of_In. simpl. tauto. }
    unfold generate_keys_with_cardano_cli. rewrite Hne. reflexivity.
  - now rewrite (network_tag_unknown network Hn).
  - discriminate.
Qed.

End StakePoolSave.


Lemma unknown_network_is_testnet_for_cardano_cli_witness :
  ("devnet" ∉ known_networks) /\
  generate_keys_with_cardano_cli (H := Sim.oracle 100) Sim.generator "main"
    "devnet"
  = generate_keys_with_cardano_cli (H := Sim.oracle 100) Sim.generator "backup"
      "testnet".
Proof.
  assert (Hn : "devnet" ∉ known_networks)
    by (apply (bool_decide_unpack _); vm_compute; exact I).
  split; [exact Hn |].
  exact (proj1 (unknown_network_is_testnet_for_cardano_cli
                  (H := Sim.oracle 100) Sim.generator "main" "backup" "devnet"
                  Hn)).
Defined.

(** ** Keys that are not [addr_vkh] text *)

Lemma take_cons (n : nat) (c : ascii) (s : string) :
  Py.take (S n) (String c s) = String c (Py.take n s).
Proof. reflexivity. Qed.

Lemma startswith_take (n : nat) (s : string) :
  Py.startswith (Py.take n s) s = true.
Proof.
  unfold Py.startswith. revert n.
  induction s as [| c s IH]; intros [| n]; try reflexivity.
  rewrite take_cons. simpl. rewrite IH.
  destruct (ascii_dec c c); [reflexivity | contradiction].
Qed.

(** the human-readable part that [bech32_decode] returns is the text before
    the last [1], in lower case *)
Lemma bech32_decode_hrp (bech hrp : string) (payload : list Z) :
  bech32.bech32_decode bech = (Some hrp, Some payload) ->
  Py.startswith hrp (Py.lower bech) = true.
Proof.
  unfold bech32.bech32_decode.
  destruct (existsb _ _ || _); [discriminate |].
  destruct (Py.rfind _ _) as [pos |]; [| discriminate].
  destruct ((pos <? 1)%nat || _ || (90 <? Py.len (Py.lower bech))%nat);
    [discriminate |].
  destruct (negb (forallb _ _)); [discriminate |].
  destruct (negb (bech32.bech32_verify_checksum _ _)); [discriminate |].
  intros Heq. inversion Heq; subst. apply startswith_take.
Qed.

Lemma decode_hrp (hrp addr : string) (witprog : list Z) :
  snd (bech32.decode hrp addr) = Some witprog ->
  Py.startswith hrp (Py.lower addr) = true.
Proof.
  unfold bech32.decode.
  destruct (bech32.bech32_decode addr) as [[hrpgot |] [data |]] eqn:Hd;
    try discriminate.
  destruct (negb (String.eqb hrpgot hrp)) eqn:Hh; [discriminate |].
  intros _. apply negb_false_iff, String.eqb_eq in Hh. subst hrpgot.
  exact (bech32_decode_hrp _ _ _ Hd).
Qed.

(** X15. The two key conversions decode [addr_vkh] text only.  On every
    other input, the Bech32 forms under [stake_vkh], [addr_vk] and
    [stake_vk] and raw hexadecimal keys included, [generate_proper_cbor_hex]
    returns its argument as it is, and [generate_proper_credential_hash]
    returns the argument when it has 56 characters and the first 28 bytes
    of the SHA-256 of the text otherwise. *)
Theorem key_conversions_decode_addr_vkh_only (key : string) :
  Py.startswith "addr_vkh" (Py.lower key) = false ->
  generate_proper_cbor_hex key = key /\
  generate_proper_credential_hash key
    = if (Py.len key =? 56)%nat then key else sha256_fallback key.
Proof.
  intros Hp.
  assert (Hnone : snd (bech32.decode "addr_vkh" key) = None).
  { destruct (snd (bech32.decode "addr_vkh" key)) as [witprog |] eqn:Hd;
      [| reflexivity].
    apply decode_hrp in Hd. congruence. }
  split.
  - unfold generate_proper_cbor_hex.
    destruct (Py.startswith "58" key); [reflexivity |].
    unfold vkey_prefixes, cbor_hex_prefix_loop, tuple_is_not_None.
    now rewrite Hnone.
  - destruct (Py.len key =? 56)%nat eqn:Hlen.
    + apply Nat.eqb_eq in Hlen. now apply credential_hash_56.
    + apply Nat.eqb_neq in Hlen. rewrite (credential_hash_cases key Hlen).
      destruct (bech32.decode "addr_vkh" key) as [witver witprog].
      simpl in Hnone. now rewrite Hnone.
Qed.

Lemma key_conversions_decode_addr_vkh_only_witness :
  let key := bech32.bech32_encode "stake_vkh" [0; 1; 2; 3] in
  generate_proper_cbor_hex key = key /\
  generate_proper_credential_hash key = sha256_fallback key.
Proof.
  intros key.
  assert (Hp : Py.startswith "addr_vkh" (Py.lower key) = false)
    by (vm_compute; reflexivity).
  destruct (key_conversions_decode_addr_vkh_only key Hp) as [Hc Hh].
  split; [exact Hc |]. rewrite Hh. reflexivity.
Defined.

(** ** The preconditions of the import flow *)

Section ImportErrors.
Context {W : Type} `{Oracle W}.

(** [import_key] reads and never writes: it skips a path that is not
    usable, and on a usable one it raises or stores one entry. *)
Lemma import_key_cases (key_path : option path) (key : string)
  (wallet_data : gmap string string) (st : state W) :
  (~ usable st key_path /\
   import_key key_path key wallet_data st = (Ok wallet_data, st)) \/
  (usable st key_path /\
   ((exists e, import_key key_path key wallet_data st = (Raise e, st)) \/
    (exists v, import_key key_path key wallet_data st
               = (Ok (<[key := v]> wallet_data), st)))).
Proof.
  destruct key_path as [p |]; [| left; split; [intros [] | reflexivity]].
  unfold import_key, usable.
  destruct (st_fs st !! p) as [content |] eqn:Hp.
  - right. split; [eauto |].
    rewrite (bind_ok _ _ st true st)
      by (unfold exists_; rewrite Hp; reflexivity).
    rewrite (bind_ok _ _ st content st)
      by (unfold read_text; rewrite Hp; reflexivity).
    unfold loads. destruct (json_loads content) as [j |].
    + rewrite (bind_ok _ _ st j st) by reflexivity.
      unfold getitem. destruct (j !! "cborHex") as [v |].
      * right. exists v. reflexivity.
      * left. eexists. reflexivity.
    + left. eexists. reflexivity.
  - left. split; [intros [? [=]] |].
    rewrite (bind_ok _ _ st false st); [reflexivity |].
    unfold exists_. rewrite Hp. reflexivity.
Qed.

Lemma import_existing_keys_cases self purpose payment_vkey_path
  payment_skey_path stake_vkey_path stake_skey_path (st : state W) :
  (exists e, import_existing_keys self purpose payment_vkey_path
               payment_skey_path stake_vkey_path stake_skey_path st
             = (Raise e, st)) \/
  (exists d, import_existing_keys self purpose payment_vkey_path
               payment_skey_path stake_vkey_path stake_skey_path st
             = (Ok d, st) /\
     (~ usable st payment_vkey_path -> d !! "payment_vkey" = None) /\
     (usable st payment_vkey_path -> is_Some (d !! "payment_vkey")) /\
     (~ usable st stake_vkey_path -> d !! "staking_vkey" = None) /\
     (~ usable st payment_vkey_path -> ~ usable st payment_skey_path ->
      ~ usable st stake_vkey_path -> ~ usable st stake_skey_path -> d = ∅)).
Proof.
  unfold import_existing_keys.
  destruct (import_key_cases payment_vkey_path "payment_vkey" ∅ st)
    as [[U1 E1] | [U1 [[e E1] | [v1 E1]]]];
    [| left; exists e; now rewrite (bind_raise _ _ _ _ _ E1) |];
    rewrite (bind_ok _ _ _ _ _ E1); clear E1;
    match goal with |- context [import_key payment_skey_path _ ?m] =>
      destruct (import_key_cases payment_skey_path "payment_skey" m st)
        as [[U2 E2] | [U2 [[e E2] | [v2 E2]]]]
    end;
    try (left; exists e; now rewrite (bind_raise _ _ _ _ _ E2));
    rewrite (bind_ok _ _ _ _ _ E2); clear E2;
    match goal with |- context [import_key stake_vkey_path _ ?m] =>
      destruct (import_key_cases stake_vkey_path "staking_vkey" m st)
        as [[U3 E3] | [U3 [[e E3] | [v3 E3]]]]
    end;
    try (left; exists e; now rewrite (bind_raise _ _ _ _ _ E3));
    rewrite (bind_ok _ _ _ _ _ E3); clear E3;
    match goal with |- context [import_key stake_skey_path _ ?m] =>
      destruct (import_key_cases stake_skey_path "staking_skey" m st)
        as [[U4 E4] | [U4 [[e E4] | [v4 E4]]]]
    end;
    try (left; exists e; now rewrite (bind_raise _ _ _ _ _ E4));
    rewrite (bind_ok _ _ _ _ _ E4); clear E4;
    right; eexists; (split; [reflexivity |]);
    repeat split; intros; try contradiction;
    try (rewrite ?lookup_insert_eq, ?lookup_insert_ne, ?lookup_empty
           by discriminate; eauto; fail).
Qed.

(** X18. The import flow needs both verification keys.  When the payment
    or the stake verification key file is not given or does not exist,
    [generate_wallet_with_import] raises and leaves the state as it was: no
    program has been called and no file written.  The error is the one of a
    key file that cannot be read as a key, or one of [KeyError] for the
    missing verification key; with none of the four files it is
    ["No valid keys provided for import"]. *)
Theorem import_flow_needs_verification_keys self purpose network
  payment_vkey_path payment_skey_path stake_vkey_path stake_skey_path
  (st : state W) :
  ~ usable st payment_vkey_path \/ ~ usable st stake_vkey_path ->
  exists e,
    generate_wallet_with_import self purpose network payment_vkey_path
      payment_skey_path stake_vkey_path stake_skey_path st = (Raise e, st) /\
    (fst (import_existing_keys self purpose payment_vkey_path
            payment_skey_path stake_vkey_path stake_skey_path st) = Raise e \/
     e = ClickException "No valid keys provided for import" \/
     e = KeyError "payment_vkey" \/ e = KeyError "staking_vkey") /\
    (~ usable st payment_vkey_path -> ~ usable st payment_skey_path ->
     ~ usable st stake_vkey_path -> ~ usable st stake_skey_path ->
     e = ClickException "No valid keys provided for import").
Proof.
  intros Hmissing. unfold generate_wallet_with_import.
  destruct (import_existing_keys_cases self purpose payment_vkey_path
              payment_skey_path stake_vkey_path stake_skey_path st)
    as [[e He] | (d & Hd & Hpn & Hps & Hsn & Hall)].
  - exists e. rewrite (bind_raise _ _ _ _ _ He), He.
    split; [reflexivity |]. split; [now left |].
    intros U1 U2 U3 U4.
    destruct (import_key_cases payment_vkey_path "payment_vkey" ∅ st)
      as [[_ E1] | [U _]]; [| contradiction].
    destruct (import_key_cases payment_skey_path "payment_skey" ∅ st)
      as [[_ E2] | [U _]]; [| contradiction].
    destruct (import_key_cases stake_vkey_path "staking_vkey" ∅ st)
      as [[_ E3] | [U _]]; [| contradiction].
    destruct (import_key_cases stake_skey_path "staking_skey" ∅ st)
      as [[_ E4] | [U _]]; [| contradiction].
    unfold import_existing_keys in He.
    rewrite (bind_ok _ _ _ _ _ E1), (bind_ok _ _ _ _ _ E2),
      (bind_ok _ _ _ _ _ E3), (bind_ok _ _ _ _ _ E4) in He.
    discriminate.
  - rewrite (bind_ok _ _ _ _ _ Hd), Hd.
    destruct (bool_decide (d = ∅)) eqn:Hempty.
    + eexists. split; [reflexivity |]. split; [right; now left |]. now intros.
    + apply bool_decide_eq_false in Hempty.
      destruct (d !! "payment_vkey") as [payment_vkey |] eqn:Hp.
      * assert (Hs : d !! "staking_vkey" = None).
        { apply Hsn. destruct Hmissing as [U | U]; [| exact U].
          specialize (Hpn U). discriminate. }
        exists (KeyError "staking_vkey"). split.
        -- rewrite (bind_ok _ _ st payment_vkey st)
             by (unfold getitem; rewrite Hp; reflexivity).
           apply bind_raise. unfold getitem. rewrite Hs. reflexivity.
        -- split; [now do 3 right |].
           intros U1 U2 U3 U4. destruct Hempty. now apply Hall.
      * exists (KeyError "payment_vkey"). split.
        -- apply bind_raise. unfold getitem. rewrite Hp. reflexivity.
        -- split; [right; right; now left |].
           intros U1 U2 U3 U4. destruct Hempty. now apply Hall.
Qed.

End ImportErrors.

Lemma import_flow_needs_verification_keys_witness :
  exists e,
    generate_wallet_with_import (H := Sim.oracle 100) Sim.generator "main"
      "mainnet" (Some Sim.payment_vkey_path) None None None Sim.import_start
    = (Raise e, Sim.import_start).
Proof.
  assert (Hmissing : ~ usable Sim.import_start (Some Sim.payment_vkey_path)
                     \/ ~ usable Sim.import_start None)
    by (right; intros []).
  destruct (import_flow_needs_verification_keys (H := Sim.oracle 100)
              Sim.generator "main" "mainnet" (Some Sim.payment_vkey_path)
              None None None Sim.import_start Hmissing) as (e & Hrun & _).
  exists e. exact Hrun.
Defined.

(** ** The credential methods *)

Section CredentialMethods.
Context {W : Type} `{Oracle W}.

(** X19. [generate_payment_credential] and [generate_stake_credential] are
    one computation: on the same key they run the same command
    ([key hash], the key on standard input), end in the same state, and
    return the same credential; only the text of the error differs when
    the command fails. *)
Theorem credential_methods_agree self (vkey : string) (st : state W) :
  let payment := generate_payment_credential self vkey st in
  let stake := generate_stake_credential self vkey st in
  snd payment = snd stake /\
  (forall cred, fst payment = Ok cred <-> fst stake = Ok cred) /\
  (forall t, tools self !! "cardano-address" = Some t ->
             st_trace (snd payment)
             = st_trace st ++ [Call [t; "key"; "hash"] (Some vkey)]).
Proof.
  intros payment stake. unfold payment, stake.
  unfold generate_payment_credential, generate_stake_credential, tool, getitem.
  destruct (tools self !! "cardano-address") as [t |].
  - unfold mbind, M_bind, mret, M_ret, run_cardano_address, checked_stdout. simpl.
    destruct (cardano_address [t; "key"; "hash"] vkey (st_world st))
      as [[result | e] w].
    + destruct (negb (returncode result =? 0)); simpl.
      * split; [reflexivity |]. split; [| now intros ? [= <-]].
        intros cred. split; discriminate.
      * split; [reflexivity |]. split; [| now intros ? [= <-]].
        intros cred. reflexivity.
    + simpl. split; [reflexivity |]. split; [| now intros ? [= <-]].
      intros cred. reflexivity.
  - simpl. split; [reflexivity |]. split; [| discriminate].
    intros cred. reflexivity.
Qed.

End CredentialMethods.
